(** * Account-creation bot: a shallow embedding of [script.py]

    The script drives a browser through a signup form, once per phone
    number of a queue, and appends one outcome row per attempt to a CSV
    file.  Its behaviour is that of a sequential program talking to an
    unreliable environment (the browser, the file system, the random
    generators), so the embedding is a state-and-exception monad over a
    [World] that holds

    - the answers of the environment, as three read-only streams: the
      outcome of every fallible external call ([ext]), the raw draws of
      the random generators ([rnd]) and the strings produced by calls
      that cannot fail ([strs]: Faker names, the clock, [page.url]);
    - the mutable state of the Python objects ([browser],
      [account_index], the locals [notes] and [context] of
      [run_single_account], the output file [fs]);
    - the [trace] of everything the program did to the outside world.

    Python exceptions derived from [Exception] are modelled; the
    asynchronous [BaseException]s (KeyboardInterrupt, SystemExit) are
    not. *)

From Stdlib Require Import List String Ascii Bool Arith NArith ZArith QArith Lia.
From Stdlib Require Import DecimalString.
From Stdlib Require Import Lqa.
From Stdlib Require Import RelationClasses.
Import ListNotations.

Open Scope string_scope.
Open Scope nat_scope.

(** ** Strings *)

(** [needle in hay] of Python. *)
Fixpoint contains (needle hay : string) : bool :=
  if String.prefix needle hay then true
  else match hay with
       | EmptyString => false
       | String _ rest => contains needle rest
       end.

Definition is_upper (c : ascii) : bool :=
  let n := nat_of_ascii c in (65 <=? n) && (n <=? 90).

Definition is_lower (c : ascii) : bool :=
  let n := nat_of_ascii c in (97 <=? n) && (n <=? 122).

Definition is_digit (c : ascii) : bool :=
  let n := nat_of_ascii c in (48 <=? n) && (n <=? 57).

Definition lower_ascii (c : ascii) : ascii :=
  if is_upper c then ascii_of_nat (nat_of_ascii c + 32) else c.

(** [s.lower()], on the ASCII letters. *)
Fixpoint lower (s : string) : string :=
  match s with
  | EmptyString => EmptyString
  | String c rest => String (lower_ascii c) (lower rest)
  end.

(** [s.split(sep)[0]]: the part of [s] before the first [sep]. *)
Fixpoint before (sep : ascii) (s : string) : string :=
  match s with
  | EmptyString => EmptyString
  | String c rest => if Ascii.eqb c sep then EmptyString else String c (before sep rest)
  end.

(** ** Exceptions, values and external calls *)

(** The [except] clauses of the script tell three families of exceptions
    apart: Playwright's [TimeoutError], [IOError] (that is [OSError]) and
    everything else. *)
Inductive exn_kind := KTimeout | KOSError | KOther.

Record exn := mk_exn {
  exn_kind_of : exn_kind;
  exn_name : string;      (* type(e).__name__ *)
  exn_msg : string        (* str(e) *)
}.

Definition is_timeout (e : exn) : bool :=
  match exn_kind_of e with KTimeout => true | _ => false end.

Definition is_ioerror (e : exn) : bool :=
  match exn_kind_of e with KOSError => true | _ => false end.

(** [Exception(msg)] *)
Definition Exception (msg : string) : exn := mk_exn KOther "Exception" msg.

Inductive Val :=
| VNone
| VBool (b : bool)
| VInt (n : nat)
| VStr (s : string).

(** Python truthiness. *)
Definition truthy (v : Val) : bool :=
  match v with
  | VNone => false
  | VBool b => b
  | VInt n => negb (n =? 0)
  | VStr s => negb (String.eqb s "")
  end.

(** An answer of the wrong shape is read as the empty value of the
    expected shape. *)
Definition as_int (v : Val) : nat := match v with VInt n => n | _ => 0 end.
Definition as_str (v : Val) : string := match v with VStr s => s | _ => "" end.

Inductive Resp :=
| Ret (v : Val)
| Throw (e : exn).

Definition is_throw (r : Resp) : bool :=
  match r with Throw _ => true | Ret _ => false end.

Definition handle := nat.

Record ContextOpts := mk_opts {
  viewport_width : nat;
  viewport_height : nat;
  java_script_enabled : option bool;
  user_agent : option string
}.

Inductive Script :=
| ScriptOptimize
| ScriptSelectCountry (country : string).

(** The fallible calls the script makes: Playwright's API, [open] and the
    CSV writer, [input]. Durations are in milliseconds. *)
Inductive Op :=
| OpLaunch (headless : bool)
| OpBrowserClose (b : handle)
| OpNewContext (b : handle) (opts : ContextOpts)
| OpRoute (c : handle) (pattern : string)
| OpContextClose (c : handle)
| OpNewPage (c : handle)
| OpGoto (p : handle) (url : string) (timeout : N)
| OpWaitLoadState (p : handle) (state : string) (timeout : N)
| OpEvaluate (p : handle) (script : Script)
| OpCount (p : handle) (sel : string)
| OpClick (p : handle) (sel : string) (timeout : N)
| OpFill (p : handle) (sel : string) (text : string) (timeout : N)
| OpType (p : handle) (sel : string) (ch : ascii) (delay : N)
| OpWaitFor (p : handle) (sel : string) (state : string) (timeout : N)
| OpContent (p : handle)
| OpInput
| OpOpen (path : string) (mode : string)
| OpWrite (path : string) (cells : list string)
| OpRouteAbort
| OpRouteContinue.

Inductive Level := DEBUG | INFO | WARNING | ERROR.

Definition Dict := list (string * string).

Inductive Event :=
| ECall (op : Op) (r : Resp)    (* an external call and its outcome *)
| ESleep (seconds : Q)          (* time.sleep *)
| ELog (lvl : Level) (msg : string)
| EPrint (msg : string)
| EWriteRow (data : Dict).      (* an invocation of IOutputWriter.write_row *)

(** ** The world *)

Record Env := mk_env {
  ext : nat -> Resp;     (* outcome of the n-th fallible external call *)
  rnd : nat -> N;        (* n-th raw draw of the random generators *)
  strs : nat -> string   (* n-th string supplied by Faker, the clock or page.url *)
}.

Record World := mk_world {
  env : Env;
  ext_pos : nat;
  rnd_pos : nat;
  str_pos : nat;
  trace : list Event;                     (* newest event first *)
  browser : option handle;                (* BrowserManager.browser *)
  next_handle : handle;
  account_index : nat;                    (* AccountCreator.account_index *)
  fs : option (list (list string));       (* the output CSV: None when absent *)
  notes : string;                         (* local of run_single_account *)
  context : option handle                 (* local of run_single_account *)
}.

Definition set_ext_pos (n : nat) (w : World) : World :=
  mk_world (env w) n (rnd_pos w) (str_pos w) (trace w) (browser w)
           (next_handle w) (account_index w) (fs w) (notes w) (context w).
Definition set_rnd_pos (n : nat) (w : World) : World :=
  mk_world (env w) (ext_pos w) n (str_pos w) (trace w) (browser w)
           (next_handle w) (account_index w) (fs w) (notes w) (context w).
Definition set_str_pos (n : nat) (w : World) : World :=
  mk_world (env w) (ext_pos w) (rnd_pos w) n (trace w) (browser w)
           (next_handle w) (account_index w) (fs w) (notes w) (context w).
Definition set_trace (t : list Event) (w : World) : World :=
  mk_world (env w) (ext_pos w) (rnd_pos w) (str_pos w) t (browser w)
           (next_handle w) (account_index w) (fs w) (notes w) (context w).
Definition set_browser (b : option handle) (w : World) : World :=
  mk_world (env w) (ext_pos w) (rnd_pos w) (str_pos w) (trace w) b
           (next_handle w) (account_index w) (fs w) (notes w) (context w).
Definition set_next_handle (h : handle) (w : World) : World :=
  mk_world (env w) (ext_pos w) (rnd_pos w) (str_pos w) (trace w) (browser w)
           h (account_index w) (fs w) (notes w) (context w).
Definition set_account_index (n : nat) (w : World) : World :=
  mk_world (env w) (ext_pos w) (rnd_pos w) (str_pos w) (trace w) (browser w)
           (next_handle w) n (fs w) (notes w) (context w).
Definition set_fs (f : option (list (list string))) (w : World) : World :=
  mk_world (env w) (ext_pos w) (rnd_pos w) (str_pos w) (trace w) (browser w)
           (next_handle w) (account_index w) f (notes w) (context w).
Definition set_notes (s : string) (w : World) : World :=
  mk_world (env w) (ext_pos w) (rnd_pos w) (str_pos w) (trace w) (browser w)
           (next_handle w) (account_index w) (fs w) s (context w).
Definition set_context (c : option handle) (w : World) : World :=
  mk_world (env w) (ext_pos w) (rnd_pos w) (str_pos w) (trace w) (browser w)
           (next_handle w) (account_index w) (fs w) (notes w) c.

(** The world a run starts from. *)
Definition initial_world (e : Env) (file : option (list (list string))) : World :=
  mk_world e 0 0 0 [] None 0 0 file "" None.

(** Events in the order they happened. *)
Definition history (w : World) : list Event := rev (trace w).

(** ** The monad *)

Inductive Res (A : Type) :=
| Ok (a : A)
| Raise (e : exn).
Arguments Ok {A} a.
Arguments Raise {A} e.

Definition M (A : Type) : Type := World -> Res A * World.

Definition ret {A} (a : A) : M A := fun w => (Ok a, w).

Definition raise {A} (e : exn) : M A := fun w => (Raise e, w).

Definition bind {A B} (m : M A) (k : A -> M B) : M B :=
  fun w => match m w with
           | (Ok a, w1) => k a w1
           | (Raise e, w1) => (Raise e, w1)
           end.

Notation "x <- m ;; k" := (bind m (fun x => k))
  (at level 61, m at next level, right associativity).
Notation "m ;; k" := (bind m (fun _ => k))
  (at level 61, right associativity).

(** [try: m  except Exception as e: h e] *)
Definition try_except {A} (m : M A) (h : exn -> M A) : M A :=
  fun w => match m w with
           | (Ok a, w1) => (Ok a, w1)
           | (Raise e, w1) => h e w1
           end.

(** [try: m  finally: fin]: [fin] runs on every exit of [m]; an exception
    of [fin] replaces the outcome of [m]. *)
Definition finally {A} (m : M A) (fin : M unit) : M A :=
  fun w => match m w with
           | (r, w1) => match fin w1 with
                        | (Ok _, w2) => (r, w2)
                        | (Raise e, w2) => (Raise e, w2)
                        end
           end.

Definition when (b : bool) (m : M unit) : M unit := if b then m else ret tt.

Fixpoint for_each {A} (l : list A) (body : A -> M unit) : M unit :=
  match l with
  | [] => ret tt
  | x :: rest => body x ;; for_each rest body
  end.

(** *** Primitive effects *)

Definition emit (ev : Event) : M unit :=
  fun w => (Ok tt, set_trace (ev :: trace w) w).

Definition log (lvl : Level) (msg : string) : M unit := emit (ELog lvl msg).

(** A fallible external call: the environment decides its outcome. *)
Definition ext_call (op : Op) : M Val :=
  fun w =>
    let r := ext (env w) (ext_pos w) in
    (match r with Ret v => Ok v | Throw e => Raise e end,
     set_trace (ECall op r :: trace w) (set_ext_pos (S (ext_pos w)) w)).

Definition draw : M N :=
  fun w => (Ok (rnd (env w) (rnd_pos w)), set_rnd_pos (S (rnd_pos w)) w).

Definition next_str : M string :=
  fun w => (Ok (strs (env w) (str_pos w)), set_str_pos (S (str_pos w)) w).

Definition fresh_handle : M handle :=
  fun w => (Ok (next_handle w), set_next_handle (S (next_handle w)) w).

Definition read {A} (f : World -> A) : M A := fun w => (Ok (f w), w).

Definition modify (f : World -> World) : M unit := fun w => (Ok tt, f w).

(** *** Random numbers and time *)

(** [random.randint(a, b)]: an integer of [a..b]. *)
Definition randint_of (a b r : N) : N := (a + r mod (b - a + 1))%N.

Definition randint (a b : N) : M N :=
  r <- draw ;; ret (randint_of a b r).

(** [random.choice(l)] and [secrets.choice(l)], for a non-empty [l]. *)
Definition choice_of {A} (d : A) (l : list A) (r : N) : A :=
  nth (N.to_nat (r mod N.of_nat (List.length l))) l d.

Definition choice {A} (d : A) (l : list A) : M A :=
  r <- draw ;; ret (choice_of d l r).

(** [random.random()] is [k / 2^53] for an integer [0 <= k < 2^53]. *)
Definition unit_fraction (r : N) : Q :=
  (Z.of_N (r mod 2 ^ 53) # 2 ^ 53)%Q.

(** [random.uniform(a, b)] is [a + (b - a) * random()]. *)
Definition uniform_of (a b : Q) (r : N) : Q :=
  (a + (b - a) * unit_fraction r)%Q.

Definition uniform (a b : Q) : M Q :=
  r <- draw ;; ret (uniform_of a b r).

Definition sleep (seconds : Q) : M unit := emit (ESleep seconds).

Definition jitter_sleep (min_s max_s : Q) : M unit :=
  d <- uniform min_s max_s ;; sleep d.

(** [random.choice(l)] and [secrets.choice(l)] raise IndexError on an
    empty sequence. *)
Definition IndexError : exn :=
  mk_exn KOther "IndexError" "Cannot choose from an empty sequence".

Definition choice_from {A} (l : list A) : M A :=
  match l with
  | [] => raise IndexError
  | d :: _ => choice d l
  end.

Fixpoint choices {A} (l : list A) (n : nat) : M (list A) :=
  match n with
  | 0 => ret []
  | S k => c <- choice_from l ;; cs <- choices l k ;; ret (c :: cs)
  end.

(** ** Configuration and account data *)

Record BotConfig := mk_config {
  SIGNUP_URL : string;
  NUMBERS_FILE : string;
  OUTPUT_CSV : string;
  LOG_FILE : string;
  HEADLESS : bool;
  MAX_NAV_RETRIES : nat;
  GOTO_TIMEOUT_MS : N;
  ACTION_TIMEOUT_MS : N;
  COUNTRIES : list string;
  MIN_DELAY_ACTION : Q;
  MAX_DELAY_ACTION : Q;
  KEEP_BROWSER_OPEN_ON_SUCCESS : bool;
  CSV_FIELDS : list string
}.

(** The values [BotConfig()] is built with. *)
Definition default_config : BotConfig := {|
  SIGNUP_URL := "https://app.calebandbrown.com/signup";
  NUMBERS_FILE := "numbers.txt";
  OUTPUT_CSV := "created_accounts_with_phone.csv";
  LOG_FILE := "caleb_playwright_pro_final.log";
  HEADLESS := false;
  MAX_NAV_RETRIES := 3;
  GOTO_TIMEOUT_MS := 45000;
  ACTION_TIMEOUT_MS := 20000;
  COUNTRIES := ["Egypt"; "Saudi Arabia"; "Singapore"; "France"; "Germany";
                "Italy"; "Spain"; "Netherlands"; "Sweden"; "Switzerland"; "Poland"];
  MIN_DELAY_ACTION := 5 # 100;
  MAX_DELAY_ACTION := 25 # 100;
  KEEP_BROWSER_OPEN_ON_SUCCESS := false;
  CSV_FIELDS := ["timestamp"; "phone_used"; "email"; "password";
                 "first_name"; "last_name"; "country"; "notes"]
|}.

Record AccountData := mk_account {
  first_name : string;
  last_name : string;
  email : string;
  password : string;
  country : string;
  phone : option string;
  timestamp : string
}.

(** Truthiness of an [Optional[str]]. *)
Definition phone_present (ph : option string) : bool :=
  match ph with
  | Some s => negb (String.eqb s "")
  | None => false
  end.

(** [ph or d] *)
Definition phone_or (ph : option string) (d : string) : string :=
  match ph with
  | Some s => if String.eqb s "" then d else s
  | None => d
  end.

(** ** read_numbers_file *)

(** [c.isspace()], on the ASCII characters: tab to carriage return, the
    four separators 28 to 31 and the space. These are what [str.strip()]
    removes. *)
Definition is_space (c : ascii) : bool :=
  let n := nat_of_ascii c in
  ((9 <=? n) && (n <=? 13)) || ((28 <=? n) && (n <=? 32)).

Fixpoint lstrip (s : string) : string :=
  match s with
  | EmptyString => EmptyString
  | String c rest => if is_space c then lstrip rest else s
  end.

Fixpoint rstrip (s : string) : string :=
  match s with
  | EmptyString => EmptyString
  | String c rest =>
      match rstrip rest with
      | EmptyString => if is_space c then EmptyString else String c EmptyString
      | kept => String c kept
      end
  end.

(** [s.strip()] *)
Definition strip (s : string) : string := rstrip (lstrip s).

Definition newline : ascii := ascii_of_nat 10.

(** [for line in f]: the lines of a text, each with its line end; the
    last one has none when the text does not end in one. *)
Fixpoint file_lines (text : string) : list string :=
  match text with
  | EmptyString => []
  | String c rest =>
      if Ascii.eqb c newline then String c EmptyString :: file_lines rest
      else match file_lines rest with
           | [] => [String c EmptyString]
           | line :: others => String c line :: others
           end
  end.

Definition nonempty (s : string) : bool := negb (String.eqb s "").

(** [[line.strip() for line in f if line.strip()]] *)
Definition stripped_lines (text : string) : list string :=
  map strip (filter (fun line => nonempty (strip line)) (file_lines text)).

(** The answer to [OpOpen file_path "r"] stands for the [with open(...)]
    block: it is the text of the file as Python reads it (decoded, line
    ends translated to the newline character), or the exception that
    opening or reading raises. *)
Definition read_numbers_file (file_path : string) : M (list string) :=
  try_except
    (text <- ext_call (OpOpen file_path "r") ;;
     let numbers := stripped_lines (as_str text) in
     log INFO "Loaded %d phone numbers from %s" ;;
     ret numbers)
    (fun e =>
       if String.eqb (exn_name e) "FileNotFoundError"
       then log WARNING "Numbers file not found: %s. Will run 1x without phone." ;;
            ret []
       else log ERROR "Error reading numbers file: %s" ;; ret []).

(** ** DataGenerator *)

Definition specials : list ascii := list_ascii_of_string "!@#$%&*()_+-=<>?@!$!".

Definition ascii_letters : string :=
  "abcdefghijklmnopqrstuvwxyzABCDEFGHIJKLMNOPQRSTUVWXYZ".

Definition digits : string := "0123456789".

Definition base_alphabet : list ascii := list_ascii_of_string (ascii_letters ++ digits).

(** [str(n)] *)
Definition str_of_N (n : N) : string := NilEmpty.string_of_uint (N.to_uint n).

Definition is_special (c : ascii) : bool := existsb (Ascii.eqb c) specials.

(** The three complexity fix-ups of [_generate_strong_password]; the last
    one draws the digit it appends. *)
Definition fix_upper (base : list ascii) : list ascii :=
  if existsb is_upper base then base else "S"%char :: skipn 1 base.

Definition fix_lower (base : list ascii) : list ascii :=
  if existsb is_lower base then base else (removelast base ++ ["a"%char])%list.

Definition fix_digit (base : list ascii) : M (list ascii) :=
  if existsb is_digit base then ret base
  else d <- randint 1 9 ;; ret (base ++ list_ascii_of_string (str_of_N d))%list.

Definition _generate_strong_password : M (list ascii) :=
  base_len <- randint 8 11 ;;
  base <- choices base_alphabet (N.to_nat base_len) ;;
  base <- fix_digit (fix_lower (fix_upper base)) ;;
  num_specials <- randint 3 6 ;;
  specials_part <- choices specials (N.to_nat num_specials) ;;
  insert_pos <- randint 1 (N.max 1 (N.of_nat (List.length base) - 1)) ;;
  let password :=
    (firstn (N.to_nat insert_pos) base ++ specials_part
       ++ skipn (N.to_nat insert_pos) base)%list in
  ret (firstn 18 password).

(** [s.lower().replace(" ", "")] *)
Fixpoint drop_spaces (s : string) : string :=
  match s with
  | EmptyString => EmptyString
  | String c rest => if Ascii.eqb c " " then drop_spaces rest else String c (drop_spaces rest)
  end.

Definition _generate_realistic_email (first last : string) : M string :=
  let f := drop_spaces (lower first) in
  let l := drop_spaces (lower last) in
  n1 <- randint 10 99 ;;
  n2 <- randint 1 9999 ;;
  n3 <- randint 1 99 ;;
  n4 <- randint 100 999 ;;
  let patterns := [f ++ "." ++ l ++ str_of_N n1; f ++ l ++ str_of_N n2;
                   f ++ "_" ++ l ++ str_of_N n3; f ++ str_of_N n4] in
  pattern <- choice_from patterns ;;
  domain <- choice_from ["gmail.com"; "outlook.com"; "hotmail.com"; "yahoo.com"] ;;
  ret (pattern ++ "@" ++ domain).

Definition generate_account_data (countries : list string) (phone_number : option string)
  : M AccountData :=
  first <- next_str ;;
  last <- next_str ;;
  email <- _generate_realistic_email first last ;;
  password <- _generate_strong_password ;;
  country <- choice_from countries ;;
  now <- next_str ;;
  log DEBUG "Generated data for: %s" ;;
  ret (mk_account first last email (string_of_list_ascii password) country
                  phone_number (now ++ "Z")).

(** ** CsvOutputWriter *)

Definition lookup (k : string) (d : Dict) : option string :=
  option_map snd (find (fun kv => String.eqb (fst kv) k) d).

Definition in_list (s : string) (l : list string) : bool := existsb (String.eqb s) l.

Definition ValueError : exn :=
  mk_exn KOther "ValueError" "dict contains fields not in fieldnames".

(** [csv.DictWriter(fh, fieldnames).writerow(data)]: a key outside
    [fieldnames] is refused, a missing one gives an empty cell. *)
Definition row_of (fieldnames : list string) (data : Dict) : list string :=
  map (fun k => match lookup k data with Some v => v | None => "" end) fieldnames.

Definition has_extra_keys (fieldnames : list string) (data : Dict) : bool :=
  existsb (fun kv => negb (in_list (fst kv) fieldnames)) data.

Definition file_rows (f : option (list (list string))) : list (list string) :=
  match f with Some rows => rows | None => [] end.

Section Writer.
Variable filename : string.
Variable fieldnames : list string.

Definition _initialize_file : M unit :=
  f <- read fs ;;
  match f with
  | Some _ => ret tt
  | None =>
      log INFO "Creating new output CSV: %s" ;;
      try_except
        (ext_call (OpOpen filename "w") ;;
         modify (set_fs (Some [])) ;;
         ext_call (OpWrite filename fieldnames) ;;
         modify (set_fs (Some [fieldnames])))
        (fun e =>
           if is_ioerror e
           then log ERROR "Failed to initialize CSV file: %s" ;; raise e
           else raise e)
  end.

Definition write_row (data : Dict) : M unit :=
  emit (EWriteRow data) ;;
  try_except
    (ext_call (OpOpen filename "a") ;;
     f <- read fs ;;
     modify (set_fs (Some (file_rows f))) ;;
     if has_extra_keys fieldnames data then raise ValueError
     else
       ext_call (OpWrite filename (row_of fieldnames data)) ;;
       modify (set_fs (Some (file_rows f ++ [row_of fieldnames data])%list)))
    (fun e =>
       if is_ioerror e
       then log ERROR "Failed to write row to CSV: %s"
       else log ERROR "Unhandled error writing CSV row: %s").
End Writer.

(** ** BrowserManager, the page objects and AccountCreator

    [cfg] is the [BotConfig] every component is built with;
    [desktop_chrome_ua] is Playwright's
    [devices['Desktop Chrome']['user_agent']], a constant of the library.
    Log events keep the format string of the call, not its arguments. *)

Definition blocked_resource_types : list string := ["image"; "media"; "font"].

Definition blocked_hosts : list string :=
  ["google-analytics.com"; "googletagmanager.com"; "hotjar.com";
   "facebook.net"; "doubleclick.net"; "bing.com"; "quantserve.com"].

(** What [route_handler] decides for a request. *)
Definition route_blocked (resource_type url : string) : bool :=
  in_list resource_type blocked_resource_types
  || existsb (fun host => contains host (lower url)) blocked_hosts.

(** [locator.first] *)
Definition first (sel : string) : string := sel ++ " >> nth=0".

Definition country_input : string := first "input[placeholder='Select country']".
Definition first_name_input : string := first "input[placeholder='Legal first name']".
Definition last_name_input : string := first "input[placeholder='Legal last name']".
Definition email_input : string := first "input[placeholder='Email address']".
Definition password_input : string := first "input[placeholder='Password']".
Definition confirm_pass_input : string := first "input[placeholder='Confirm password']".
Definition create_button : string := "button:has-text('Create account')".
Definition phone_input : string := first "input[placeholder='Phone number']".
Definition send_code_button : string := "button:has-text('Send code')".

Definition popup_selectors : list string :=
  ["button[aria-label='Close']"; "button:has-text('Close')";
   "button:has-text('Dismiss')"; "button:has-text('Not now')";
   "div[role='dialog'] button:has-text('Close')"].

Definition EOFError : exn := mk_exn KOther "EOFError" "EOF when reading a line".

Definition AttributeError : exn :=
  mk_exn KOther "AttributeError" "'NoneType' object has no attribute 'new_context'".

(** [min(2 * attempt, 8)] *)
Definition backoff (attempt : nat) : nat := Nat.min (2 * attempt) 8.

Definition browser_closed (e : exn) : bool :=
  contains "Target closed" (exn_msg e) || contains "Browser has been closed" (exn_msg e).

Section Bot.
Variable cfg : BotConfig.
Variable desktop_chrome_ua : string.

(** *** BrowserManager *)

Definition launch : M unit :=
  b <- read browser ;;
  match b with
  | Some _ => ret tt
  | None =>
      try_except
        (log INFO "Launching browser (Headless: %s)..." ;;
         ext_call (OpLaunch (HEADLESS cfg)) ;;
         h <- fresh_handle ;;
         modify (set_browser (Some h)))
        (fun e => log ERROR "Failed to launch browser: %s" ;; raise e)
  end.

Definition route_handler (resource_type url : string) : M unit :=
  try_except
    (if in_list resource_type blocked_resource_types
     then ext_call OpRouteAbort ;; ret tt
     else if existsb (fun host => contains host (lower url)) blocked_hosts
          then ext_call OpRouteAbort ;; ret tt
          else ext_call OpRouteContinue ;; ret tt)
    (fun _ => try_except (ext_call OpRouteContinue ;; ret tt) (fun _ => ret tt)).

Definition _setup_request_blocking (c : handle) : M unit :=
  try_except
    (ext_call (OpRoute c "**/*") ;;
     log DEBUG "Request blocking configured.")
    (fun e => log ERROR "Failed to setup request blocking: %s").

Definition shutdown : M unit :=
  b <- read browser ;;
  match b with
  | Some bh =>
      try_except
        (ext_call (OpBrowserClose bh) ;; log INFO "Browser shut down.")
        (fun e => log WARNING "Exception while closing browser: %s") ;;
      modify (set_browser None)
  | None => ret tt
  end.

(** Options of the first [browser.new_context(...)] and of the one
    after a relaunch. *)
Definition first_try_opts : ContextOpts :=
  mk_opts 1200 820 (Some true) (Some desktop_chrome_ua).

Definition retry_opts : ContextOpts := mk_opts 1200 820 None None.

Definition create_context (bh : handle) (opts : ContextOpts) : M handle :=
  ext_call (OpNewContext bh opts) ;;
  fresh_handle.

Definition new_context : M handle :=
  b <- read browser ;;
  match b with
  | None =>
      log ERROR "Browser not launched. Call launch() first." ;;
      raise (Exception "BrowserNotLaunched")
  | Some bh =>
      try_except
        (c <- create_context bh first_try_opts ;;
         _setup_request_blocking c ;;
         ret c)
        (fun e =>
           log ERROR "Failed to create new context: %s" ;;
           log WARNING "Attempting to relaunch browser..." ;;
           shutdown ;;
           launch ;;
           b' <- read browser ;;
           match b' with
           | None => raise AttributeError
           | Some bh' =>
               c <- create_context bh' retry_opts ;;
               _setup_request_blocking c ;;
               log INFO "Successfully created context after relaunch." ;;
               ret c
           end)
  end.

Definition close_context (c : handle) : M unit :=
  try_except
    (ext_call (OpContextClose c) ;; ret tt)
    (fun e => log WARNING "Exception while closing context: %s").

(** *** BasePage *)

Definition _optimize_loaded_page (p : handle) : M unit :=
  try_except
    (ext_call (OpEvaluate p ScriptOptimize) ;;
     jitter_sleep (5 # 100) (12 # 100) ;;
     log DEBUG "Page optimizations applied.")
    (fun e => log WARNING "Failed to apply page optimizations: %s").

(** One turn of the loop of [robust_goto]: [true] when the page is
    loaded (the loop returns), [false] after a failure and its
    back-off sleep. *)
Definition goto_attempt (p : handle) (url : string) (attempt : nat) : M bool :=
  try_except
    (ext_call (OpGoto p url (GOTO_TIMEOUT_MS cfg)) ;;
     try_except
       (ext_call (OpWaitLoadState p "networkidle" 2000) ;; ret tt)
       (fun e => if is_timeout e then ret tt else raise e) ;;
     _optimize_loaded_page p ;;
     ret true)
    (fun e =>
       if is_timeout e
       then
         log WARNING "Goto attempt %d timed out; backing off %ds" ;;
         j <- uniform 0 (1 # 2) ;;
         sleep (inject_Z (Z.of_nat (backoff attempt)) + j) ;;
         ret false
       else
         log ERROR "Goto attempt %d error: %s" ;;
         j <- uniform 0 (1 # 2) ;;
         sleep (1 + j) ;;
         ret false).

(** [for attempt in range(attempt, attempt + remaining)] *)
Fixpoint goto_loop (p : handle) (url : string) (attempt remaining : nat) : M bool :=
  match remaining with
  | 0 => ret false
  | S k =>
      loaded <- goto_attempt p url attempt ;;
      if loaded then ret true else goto_loop p url (S attempt) k
  end.

Definition robust_goto (p : handle) (url : string) : M bool :=
  loaded <- goto_loop p url 1 (MAX_NAV_RETRIES cfg) ;;
  if loaded then ret true
  else log ERROR "Navigation failed after %d attempts. Last error: %s" ;; ret false.

Definition close_common_popups (p : handle) : M unit :=
  for_each popup_selectors (fun sel =>
    try_except
      (n <- ext_call (OpCount p sel) ;;
       if 0 <? as_int n
       then ext_call (OpClick p (first sel) 1200) ;; jitter_sleep (3 # 100) (8 # 100)
       else ret tt)
      (fun _ => ret tt)).

(** [for ch in text: locator.type(ch, delay=random.randint(6, 18))] *)
Definition type_text (p : handle) (sel : string) (text : string) : M unit :=
  for_each (list_ascii_of_string text) (fun ch =>
    d <- randint 6 18 ;;
    ext_call (OpType p sel ch d) ;;
    ret tt).

(** *** SignUpPage *)

Definition navigate (p : handle) : M bool :=
  log INFO "Navigating to signup URL..." ;;
  robust_goto p (SIGNUP_URL cfg).

Definition option_selector (country : string) : string :=
  "div[role='option']:has-text('" ++ country ++ "'), .css-54kpfw:has-text('"
    ++ country ++ "')".

Definition _select_country_by_typing (p : handle) (country : string) : M bool :=
  try_except
    (ext_call (OpClick p country_input 2000) ;;
     jitter_sleep (2 # 100) (6 # 100) ;;
     ext_call (OpFill p country_input "" 800) ;;
     type_text p country_input country ;;
     jitter_sleep (2 # 100) (6 # 100) ;;
     ext_call (OpWaitFor p (first (option_selector country)) "visible" 3000) ;;
     ext_call (OpClick p (first (option_selector country)) (ACTION_TIMEOUT_MS cfg)) ;;
     jitter_sleep (2 # 100) (6 # 100) ;;
     ret true)
    (fun _ => ret false).

Definition _select_country_by_js (p : handle) (country : string) : M bool :=
  try_except
    (ext_call (OpClick p country_input 1200) ;;
     jitter_sleep (2 # 100) (5 # 100) ;;
     found <- ext_call (OpEvaluate p (ScriptSelectCountry country)) ;;
     if truthy found
     then jitter_sleep (2 # 100) (5 # 100) ;; ret true
     else ret false)
    (fun _ => ret false).

Definition select_country (p : handle) (country : string) : M bool :=
  log DEBUG "Selecting country: %s" ;;
  typed <- _select_country_by_typing p country ;;
  if typed then log INFO "Country select OK (typing): %s" ;; ret true
  else
    scripted <- _select_country_by_js p country ;;
    if scripted then log INFO "Country select OK (JS): %s" ;; ret true
    else log WARNING "Country select FAILED: %s" ;; ret false.

Definition fill_form (p : handle) (data : AccountData) : M bool :=
  try_except
    (close_common_popups p ;;
     jitter_sleep (5 # 100) (12 # 100) ;;
     selected <- select_country p (country data) ;;
     when (negb selected) (log WARNING "Country selection failed, proceeding anyway...") ;;
     jitter_sleep (4 # 100) (12 # 100) ;;
     ext_call (OpFill p first_name_input (first_name data) 3000) ;;
     jitter_sleep (2 # 100) (6 # 100) ;;
     ext_call (OpFill p last_name_input (last_name data) 3000) ;;
     jitter_sleep (2 # 100) (6 # 100) ;;
     ext_call (OpFill p email_input (email data) 3000) ;;
     jitter_sleep (2 # 100) (6 # 100) ;;
     ext_call (OpFill p password_input (password data) 3000) ;;
     jitter_sleep (2 # 100) (4 # 100) ;;
     ext_call (OpFill p confirm_pass_input (password data) 3000) ;;
     jitter_sleep (5 # 100) (12 # 100) ;;
     ret true)
    (fun e => log ERROR "Failed to fill signup form: %s" ;; ret false).

Definition submit_form (p : handle) : M bool :=
  try_except
    (ext_call (OpClick p create_button 5000) ;;
     log INFO "Clicked 'Create account' button." ;;
     ret true)
    (fun e => log ERROR "Error clicking Create account: %s" ;; ret false).

(** *** PhoneVerificationPage *)

Definition wait_for_page (p : handle) (timeout_ms : N) : M bool :=
  try_except
    (ext_call (OpWaitFor p phone_input "visible" timeout_ms) ;;
     log INFO "Phone verification page loaded." ;;
     ret true)
    (fun e =>
       if is_timeout e
       then log WARNING "Phone verification input not found." ;; ret false
       else raise e).

Definition submit_phone (p : handle) (phone_number : string) : M string :=
  try_except
    (ext_call (OpClick p phone_input 1200) ;;
     ext_call (OpFill p phone_input "" 1200) ;;
     jitter_sleep (2 # 100) (6 # 100) ;;
     type_text p phone_input phone_number ;;
     jitter_sleep (4 # 100) (8 # 100) ;;
     ext_call (OpClick p (first send_code_button) 3000) ;;
     log INFO "Clicked 'Send code' for phone %s. Waiting 10s..." ;;
     sleep 10 ;;
     ret "send_code_clicked_waited_10s")
    (fun e =>
       log ERROR "Error during phone verification step: %s" ;;
       ret ("phone_step_exception:" ++ exn_name e)).

(** *** AccountCreator

    [run_single_account] is, after its first statements, one
    [try]/[except]/[finally] statement, [attempt]; its three blocks are
    [attempt_body], [attempt_handler] and [attempt_finalizer]. The locals [notes] and [context], which the
    handler and the finalizer read, live in the world. *)

Definition pause_on_success : bool :=
  KEEP_BROWSER_OPEN_ON_SUCCESS cfg && negb (HEADLESS cfg).

(** [input()]: returns, or raises EOFError when stdin is closed. *)
Definition input : M unit :=
  try_except (ext_call OpInput ;; ret tt) (fun _ => raise EOFError).

(** "Handle post-submit logic": sets [notes]. *)
Definition post_submit (p : handle) (data : AccountData) : M unit :=
  if phone_present (phone data)
  then
    found <- wait_for_page p 8000 ;;
    if negb found
    then modify (set_notes "phone_input_not_found")
    else
      status <- submit_phone p (phone_or (phone data) "") ;;
      modify (set_notes status)
  else
    try_except
      (ext_call (OpWaitLoadState p "networkidle" 2000) ;; ret tt)
      (fun _ => ret tt) ;;
    content <- ext_call (OpContent p) ;;
    prompt <- (if contains "verify" (lower (as_str content)) then ret true
               else content' <- ext_call (OpContent p) ;;
                    ret (contains "check your email" (lower (as_str content')))) ;;
    if prompt
    then modify (set_notes "verification_prompt_detected_no_phone")
    else
      url <- next_str ;;
      if negb (String.eqb url (SIGNUP_URL cfg))
      then url' <- next_str ;;
           modify (set_notes ("navigated_to:" ++ before "?" url'))
      else modify (set_notes "unknown_post_submit_state_no_phone").

(** The steps after a successful submission. *)
Definition after_submit (p : handle) (data : AccountData) : M bool :=
  post_submit p data ;;
  log INFO "%s Finished signup for %s - Notes: %s" ;;
  if pause_on_success
  then
    log WARNING "%s KEEP_BROWSER_OPEN is True. Pausing execution." ;;
    emit (EPrint "--- Paused for {data.email}. Press Enter in console to continue... ---") ;;
    input ;;
    ret false
  else ret true.

(** The steps after a successful navigation. *)
Definition after_navigation (p : handle) (data : AccountData) : M bool :=
  filled <- fill_form p data ;;
  if negb filled
  then modify (set_notes "form_fill_failed") ;; raise (Exception "FormFillFailed")
  else
    submitted <- submit_form p ;;
    if negb submitted
    then modify (set_notes "submit_failed") ;; raise (Exception "SubmitFailed")
    else after_submit p data.

Definition attempt_body (data : AccountData) : M bool :=
  c <- new_context ;;
  modify (set_context (Some c)) ;;
  ext_call (OpNewPage c) ;;
  p <- fresh_handle ;;
  loaded <- navigate p ;;
  if negb loaded
  then modify (set_notes "nav_failed") ;; raise (Exception "NavigationFailed")
  else after_navigation p data.

Definition attempt_handler (e : exn) : M unit :=
  (if browser_closed e
   then
     log ERROR "%s Critical Playwright error: %s. Relaunching browser." ;;
     shutdown ;;
     launch
   else log ERROR "%s Unhandled exception in flow for %s: %s") ;;
  n <- read notes ;;
  when (String.eqb n "init") (modify (set_notes ("flow_exception:" ++ exn_name e))).

Definition outcome_record (data : AccountData) (n : string) : Dict :=
  [("timestamp", timestamp data); ("phone_used", phone_or (phone data) "");
   ("email", email data); ("password", password data);
   ("first_name", first_name data); ("last_name", last_name data);
   ("country", country data); ("notes", n)].

Definition output_writer_write_row : Dict -> M unit :=
  write_row (OUTPUT_CSV cfg) (CSV_FIELDS cfg).

Definition attempt_finalizer (data : AccountData) : M unit :=
  n <- read notes ;;
  output_writer_write_row (outcome_record data n) ;;
  c <- read context ;;
  match c with
  | Some ch => if negb pause_on_success then close_context ch else ret tt
  | None => ret tt
  end.

(** The [try]/[except]/[finally] statement: the value of the body when
    it returns, True after the handler, and the finalizer in every
    case. *)
Definition attempt (data : AccountData) : M bool :=
  finally
    (try_except (attempt_body data) (fun e => attempt_handler e ;; ret true))
    (attempt_finalizer data).

Definition run_single_account (phone_number : option string) : M bool :=
  modify (fun w => set_account_index (account_index w + 1) w) ;;
  data <- generate_account_data (COUNTRIES cfg) phone_number ;;
  modify (set_notes "init") ;;
  modify (set_context None) ;;
  log INFO "%s Starting signup for %s (Phone: %s)" ;;
  attempt data.

(** [for phone in phone_numbers: ...] *)
Fixpoint run_loop (phone_numbers : list string) : M unit :=
  match phone_numbers with
  | [] => ret tt
  | ph :: rest =>
      continue_loop <- run_single_account (Some ph) ;;
      if negb continue_loop
      then log INFO "Stopping loop (KEEP_BROWSER_OPEN)."
      else jitter_sleep (2 # 10) (6 # 10) ;; run_loop rest
  end.

Definition run (phone_numbers : list string) : M unit :=
  match phone_numbers with
  | [] =>
      log INFO "No phone numbers loaded. Running one account without a phone number." ;;
      run_single_account None ;;
      ret tt
  | _ =>
      log INFO "Starting batch job for %d phone numbers." ;;
      run_loop phone_numbers
  end.

(** The part of [main] inside [with sync_playwright()]. *)
Definition session (phone_numbers : list string) : M unit :=
  _initialize_file (OUTPUT_CSV cfg) (CSV_FIELDS cfg) ;;
  launch ;;
  run phone_numbers ;;
  log INFO "--- Bot session finished successfully ---".
End Bot.

(** ** Observations

    What the statements below read off a world: projections of the
    trace (newest event first) and the relations between the world
    before and after a computation. *)

(** Invocations of the output writer. *)
Fixpoint count_writes (t : list Event) : nat :=
  match t with
  | [] => 0
  | EWriteRow _ :: rest => S (count_writes rest)
  | _ :: rest => count_writes rest
  end.

(** The rows handed to the output writer. *)
Fixpoint written (t : list Event) : list Dict :=
  match t with
  | [] => []
  | EWriteRow d :: rest => d :: written rest
  | _ :: rest => written rest
  end.

(** The external calls made. *)
Fixpoint calls (t : list Event) : list Op :=
  match t with
  | [] => []
  | ECall op _ :: rest => op :: calls rest
  | _ :: rest => calls rest
  end.

(** The durations slept. *)
Fixpoint sleeps (t : list Event) : list Q :=
  match t with
  | [] => []
  | ESleep d :: rest => d :: sleeps rest
  | _ :: rest => sleeps rest
  end.

(** [m] leaves the world in relation [R] with the one it started from,
    whatever its outcome. *)
Definition stable (R : World -> World -> Prop) {A} (m : M A) : Prop :=
  forall w, R w (snd (m w)).

Definition keeping {B} (f : World -> B) : World -> World -> Prop :=
  fun w w' => f w' = f w.

(** The trace only grows. *)
Definition extends : World -> World -> Prop :=
  fun w w' => exists evs, trace w' = (evs ++ trace w)%list.

(** [m] returns a value from every world. *)
Definition never_raises {A} (m : M A) : Prop :=
  forall w, exists a, fst (m w) = Ok a.

(** What the page objects cannot touch, what the browser manager cannot
    touch, and what an attempt leaves alone before its finalizer. *)
Definition page_frame (w : World) :=
  (env w, browser w, next_handle w, account_index w, fs w, notes w, context w,
   count_writes (trace w)).

Definition manager_frame (w : World) :=
  (env w, account_index w, fs w, notes w, context w, count_writes (trace w)).

Definition sink_frame (w : World) :=
  (env w, account_index w, fs w, written (trace w)).

(** An environment given by the lists of its answers; past the end of a
    list every call succeeds with [None], every draw is 0 and every
    string is empty. *)
Definition scripted (answers : list Resp) (draws : list N) (strings : list string) : Env :=
  mk_env (fun n => nth n answers (Ret VNone))
         (fun n => nth n draws 0%N)
         (fun n => nth n strings "").

(** A world in which the output file already holds its header and one
    row, and an outcome record. *)
Definition existing_file : World :=
  set_fs (Some [CSV_FIELDS default_config; ["t"; "p"; "e"; "pw"; "f"; "l"; "c"; "n"]])
         (initial_world (scripted [] [] []) None).

Definition sample_row : Dict :=
  [("timestamp", "t2"); ("phone_used", ""); ("email", "e2"); ("password", "pw2");
   ("first_name", "f2"); ("last_name", "l2"); ("country", "c2"); ("notes", "nav_failed")].

(** Whether the environment lets the next [write_row] through: [open]
    succeeds, the record has no key outside the field names and the write
    succeeds. *)
Definition sink_accepts (fieldnames : list string) (data : Dict) (w : World) : bool :=
  negb (is_throw (ext (env w) (ext_pos w)))
  && negb (has_extra_keys fieldnames data)
  && negb (is_throw (ext (env w) (S (ext_pos w)))).

(** Draws under which [_generate_strong_password] builds the base
    "1111111A": length 8, seven times the character of index 53, then the
    one of index 26, three specials, insertion at position 1. *)
Definition no_upper_draws : list N := [0; 53; 53; 53; 53; 53; 53; 53; 26; 0; 0; 0; 0; 0]%N.

Definition count_specials (pw : list ascii) : nat := List.length (filter is_special pw).

(** Calls of [page.goto]. *)
Fixpoint goto_count (t : list Event) : nat :=
  match t with
  | [] => 0
  | ECall (OpGoto _ _ _) _ :: rest => S (goto_count rest)
  | _ :: rest => goto_count rest
  end.

(** The exception an answer carries. *)
Definition thrown (r : Resp) : exn :=
  match r with Throw e => e | Ret _ => Exception "" end.

(** [random.uniform(0, 0.5)] for the raw draw [r]. *)
Definition jitter (r : N) : Q := uniform_of 0 (1 # 2) r.

(** What [robust_goto] sleeps after [attempt] failed with [e]. *)
Definition failure_sleep (attempt : nat) (e : exn) (r : N) : Q :=
  if is_timeout e then inject_Z (Z.of_nat (backoff attempt)) + jitter r
  else 1 + jitter r.

(** An environment in which every page load times out. *)
Definition goto_timeout : exn := mk_exn KTimeout "TimeoutError" "Timeout 45000ms exceeded.".


(** Calls of [browser.new_context], with their options and outcome. *)
Fixpoint context_calls (t : list Event) : list (ContextOpts * Resp) :=
  match t with
  | [] => []
  | ECall (OpNewContext _ opts) r :: rest => (opts, r) :: context_calls rest
  | _ :: rest => context_calls rest
  end.

(** Calls of [chromium.launch]. *)
Fixpoint launch_count (t : list Event) : nat :=
  match t with
  | [] => 0
  | ECall (OpLaunch _) _ :: rest => S (launch_count rest)
  | _ :: rest => launch_count rest
  end.




(** The statements of [fill_form] that follow the country selection. *)
Definition fill_fields (p : handle) (data : AccountData) : M bool :=
  jitter_sleep (4 # 100) (12 # 100) ;;
  ext_call (OpFill p first_name_input (first_name data) 3000) ;;
  jitter_sleep (2 # 100) (6 # 100) ;;
  ext_call (OpFill p last_name_input (last_name data) 3000) ;;
  jitter_sleep (2 # 100) (6 # 100) ;;
  ext_call (OpFill p email_input (email data) 3000) ;;
  jitter_sleep (2 # 100) (6 # 100) ;;
  ext_call (OpFill p password_input (password data) 3000) ;;
  jitter_sleep (2 # 100) (4 # 100) ;;
  ext_call (OpFill p confirm_pass_input (password data) 3000) ;;
  jitter_sleep (5 # 100) (12 # 100) ;;
  ret true.

(** Calls of [fill] on the fields other than the country, with the text
    and the outcome. *)
Fixpoint field_fills (t : list Event) : list (string * string * Resp) :=
  match t with
  | [] => []
  | ECall (OpFill _ sel text _) r :: rest =>
      if String.eqb sel country_input then field_fills rest
      else (sel, text, r) :: field_fills rest
  | _ :: rest => field_fills rest
  end.

(** The next [n] answers of the environment are all returns. *)
Fixpoint answers_ok (e : Env) (pos n : nat) : bool :=
  match n with
  | 0 => true
  | S k => negb (is_throw (ext e pos)) && answers_ok e (S pos) k
  end.

(** The five field fills, in order, when they are answered from position
    [pos] on. *)
Definition filled_fields (data : AccountData) (e : Env) (pos : nat)
  : list (string * string * Resp) :=
  [(first_name_input, first_name data, ext e pos);
   (last_name_input, last_name data, ext e (1 + pos));
   (email_input, email data, ext e (2 + pos));
   (password_input, password data, ext e (3 + pos));
   (confirm_pass_input, password data, ext e (4 + pos))].

Definition element_missing : exn :=
  mk_exn KTimeout "TimeoutError" "Locator.click: Timeout 2000ms exceeded.".

(** A page on which no popup is open and the country field cannot be
    clicked, so that both selection strategies fail, while every other
    field can be filled. *)
Definition country_field_broken : Env :=
  scripted [Ret (VInt 0); Ret (VInt 0); Ret (VInt 0); Ret (VInt 0); Ret (VInt 0);
            Throw element_missing; Throw element_missing] [] [].

Definition sample_account : AccountData :=
  mk_account "Ada" "Byron" "ada.byron42@gmail.com" "S!!!aaaaaaa1" "Egypt" None
             "2024-01-01T00:00:00Z".
(** What the steps of [fill_form] before the fields leave alone. *)
Definition fills_kept (w : World) := (env w, field_fills (trace w)).

(** The events of typing [chars] into [sel] one character at a time,
    oldest first: the delay of each keystroke is drawn from position
    [rpos] on, its outcome answered from position [xpos] on. *)
Fixpoint type_events (p : handle) (sel : string) (chars : list ascii) (e : Env)
         (xpos rpos : nat) : list Event :=
  match chars with
  | [] => []
  | ch :: rest =>
      ECall (OpType p sel ch (randint_of 6 18 (rnd e rpos))) (ext e xpos)
      :: type_events p sel rest e (S xpos) (S rpos)
  end.

Fixpoint type_ops (p : handle) (sel : string) (chars : list ascii) (e : Env)
         (rpos : nat) : list Op :=
  match chars with
  | [] => []
  | ch :: rest =>
      OpType p sel ch (randint_of 6 18 (rnd e rpos)) :: type_ops p sel rest e (S rpos)
  end.

(** The world after [chars] were typed with success. *)
Definition typed_world (p : handle) (sel : string) (chars : list ascii) (w : World) : World :=
  set_trace (rev (type_events p sel chars (env w) (ext_pos w) (rnd_pos w)) ++ trace w)
    (set_rnd_pos (List.length chars + rnd_pos w)
       (set_ext_pos (List.length chars + ext_pos w) w)).

(** An environment in which every call succeeds at once. *)
Definition always_succeeds : Env :=
  scripted [] [] ["Ada"; "Byron"; "2024-01-01T00:00:00"].

Definition phone_timeout : exn :=
  mk_exn KTimeout "TimeoutError" "Locator.wait_for: Timeout 8000ms exceeded.".

Definition sample_phone_account : AccountData :=
  mk_account "Ada" "Byron" "ada.byron42@gmail.com" "S!!!aaaaaaa1" "Egypt"
             (Some "+15551234567") "2024-01-01T00:00:00Z".

(** Times the batch loop was stopped by the pause on success. *)
Fixpoint stop_count (t : list Event) : nat :=
  match t with
  | [] => 0
  | ELog INFO msg :: rest =>
      if String.eqb msg "Stopping loop (KEEP_BROWSER_OPEN)." then S (stop_count rest)
      else stop_count rest
  | _ :: rest => stop_count rest
  end.

(** What one attempt leaves alone apart from its own record: the attempt
    counter and the stops of the loop. *)
Definition batch_frame (w : World) :=
  (account_index w, written (trace w), stop_count (trace w)).

Definition closed_error : exn := mk_exn KOther "Error" "Target closed".

Definition launch_error : exn :=
  mk_exn KOther "Error" "BrowserType.launch: Failed to launch chromium".

(** A session whose browser dies while the first page is opened and
    cannot be launched again: the context is created, [new_page] raises
    "Target closed", closing the browser works, [launch] raises. *)
Definition relaunch_fails : World :=
  set_next_handle 1
    (set_browser (Some 0)
       (initial_world
          (scripted [Ret VNone; Ret VNone; Throw closed_error; Ret VNone; Throw launch_error]
                    [] ["Ada"; "Byron"; "2024-01-01T00:00:00"])
          (Some [CSV_FIELDS default_config]))).
(** A launched browser in an environment in which every call succeeds. *)
Definition browser_ready : World :=
  set_next_handle 1 (set_browser (Some 0) (initial_world always_succeeds None)).

(** The tags [post_submit] can leave in the notes, the failure of a stage
    together with the exception that reports it, and the tags an outcome
    record may carry according to the specification. *)
Definition post_submit_tag (n : string) : Prop :=
  In n ["phone_input_not_found"; "send_code_clicked_waited_10s";
        "verification_prompt_detected_no_phone"; "unknown_post_submit_state_no_phone"]
  \/ (exists url, n = ("navigated_to:" ++ url)%string)
  \/ (exists type_name, n = ("phone_step_exception:" ++ type_name)%string).

Definition stage_failure (n : string) (e : exn) : Prop :=
  (n = "nav_failed" /\ e = Exception "NavigationFailed")
  \/ (n = "form_fill_failed" /\ e = Exception "FormFillFailed")
  \/ (n = "submit_failed" /\ e = Exception "SubmitFailed").

Definition outcome_tag (n : string) : Prop :=
  In n ["nav_failed"; "form_fill_failed"; "submit_failed"]
  \/ post_submit_tag n
  \/ (exists type_name, n = ("flow_exception:" ++ type_name)%string).

(** What the steps of an attempt leave alone before the notes are set. *)
Definition notes_frame (w : World) := (env w, notes w, written (trace w)).

(** The answer [chromium.launch] gets in the handler of an attempt that
    failed in world [w]: the first one, or the second when there is a
    browser to close first. *)
Definition relaunch_answer (w : World) : Resp :=
  ext (env w) ((match browser w with Some _ => 1 | None => 0 end) + ext_pos w).

(** What the finalizer leaves alone in the browser manager. *)
Definition manager_state (w : World) := (launch_count (trace w), browser w).

(** A session whose browser dies while the first page is opened and is
    launched again with success. *)
Definition relaunch_succeeds : World :=
  set_notes "init"
    (set_next_handle 1
       (set_browser (Some 0)
          (initial_world
             (scripted [Ret VNone; Ret VNone; Throw closed_error] []
                       ["Ada"; "Byron"; "2024-01-01T00:00:00"])
             (Some [CSV_FIELDS default_config])))).

(** A session whose browser dies while the signup page loads: the three
    calls of [page.goto] raise "Target closed". *)
Definition closed_while_loading : World :=
  set_next_handle 1
    (set_browser (Some 0)
       (initial_world
          (scripted [Ret VNone; Ret VNone; Ret VNone;
                     Throw closed_error; Throw closed_error; Throw closed_error] []
                    ["Ada"; "Byron"; "2024-01-01T00:00:00"])
          (Some [CSV_FIELDS default_config]))).

(** One number per line. *)
Fixpoint unlines (l : list string) : string :=
  match l with
  | [] => EmptyString
  | x :: rest => x ++ String newline (unlines rest)
  end.

(** A number as [read_numbers_file] returns it. *)
Definition clean_number (s : string) : Prop :=
  s <> "" /\ strip s = s /\ ~ In newline (list_ascii_of_string s).

(** A numbers file with blank lines, spaces around a number and no line
    end after the last one. *)
Definition numbers_text : string :=
  String (ascii_of_nat 10)
    ("  +15551234567 " ++ String (ascii_of_nat 9) (String (ascii_of_nat 10)
       (String (ascii_of_nat 10) "+15557654321"))).

(** The double quote. *)
Definition quote : ascii := ascii_of_nat 34.

(** A character that needs no quoting in a CSV cell. *)
Definition csv_plain (c : ascii) : bool :=
  negb (is_space c) && negb (Ascii.eqb c ",") && negb (Ascii.eqb c quote).


(** What the data generator cannot touch. *)
Definition generator_frame (w : World) :=
  (env w, str_pos w, trace w, browser w, next_handle w, account_index w, fs w,
   notes w, context w).

(** A configuration without countries. *)
Definition no_countries_config : BotConfig := {|
  SIGNUP_URL := SIGNUP_URL default_config;
  NUMBERS_FILE := NUMBERS_FILE default_config;
  OUTPUT_CSV := OUTPUT_CSV default_config;
  LOG_FILE := LOG_FILE default_config;
  HEADLESS := HEADLESS default_config;
  MAX_NAV_RETRIES := MAX_NAV_RETRIES default_config;
  GOTO_TIMEOUT_MS := GOTO_TIMEOUT_MS default_config;
  ACTION_TIMEOUT_MS := ACTION_TIMEOUT_MS default_config;
  COUNTRIES := [];
  MIN_DELAY_ACTION := MIN_DELAY_ACTION default_config;
  MAX_DELAY_ACTION := MAX_DELAY_ACTION default_config;
  KEEP_BROWSER_OPEN_ON_SUCCESS := KEEP_BROWSER_OPEN_ON_SUCCESS default_config;
  CSV_FIELDS := CSV_FIELDS default_config
|}.


(** What [route_handler] decides for a request, as the call it makes. *)
Definition route_decision (resource_type url : string) : Op :=
  if route_blocked resource_type url then OpRouteAbort else OpRouteContinue.

(** An answer to [wait_for_load_state] that [robust_goto] lives with: a
    return or a timeout. *)
Definition wait_tolerated (r : Resp) : bool :=
  match r with
  | Ret _ => true
  | Throw e => is_timeout e
  end.

(** A page whose first load fails and whose second load returns, without
    ever reaching network idle. *)
Definition loads_at_second_try : Env :=
  scripted [Throw goto_timeout; Ret VNone; Throw goto_timeout] [] [].

Definition network_error : exn := mk_exn KOther "Error" "net::ERR_CONNECTION_RESET".

(** A page that loads every time while the wait for network idle raises
    an error that is not a timeout. *)
Definition idle_wait_breaks : Env :=
  mk_env (fun n => if Nat.even n then Ret VNone else Throw network_error)
         (fun _ => 0%N) (fun _ => "").



(** The first exception among the next [n] answers of the environment. *)
Fixpoint first_failure (e : Env) (pos n : nat) : option exn :=
  match n with
  | 0 => None
  | S k =>
      match ext e pos with
      | Throw x => Some x
      | Ret _ => first_failure e (S pos) k
      end
  end.

(** What the steps of a page object leave alone: the answers to come and
    the notes. *)
Definition step_frame (w : World) := (env w, notes w).



Definition page_crashed : exn := mk_exn KOther "Error" "Page crashed".

(** The phone number of a record, as its row shows it. *)
Definition phone_used (d : Dict) : option string := lookup "phone_used" d.

(** The contexts closed, newest first. *)
Fixpoint context_closes (t : list Event) : list handle :=
  match t with
  | [] => []
  | ECall (OpContextClose c) _ :: rest => c :: context_closes rest
  | _ :: rest => context_closes rest
  end.

(** The context an attempt holds and the contexts closed so far. *)
Definition context_frame (w : World) := (context w, context_closes (trace w)).

(** What a failed start of the session leaves alone: no attempt is
    counted, no record written, no context asked for. *)
Definition idle_frame (w : World) :=
  (account_index w, written (trace w), context_calls (trace w)).

Definition disk_full : exn := mk_exn KOSError "OSError" "No space left on device".

(** A first run on a full disk: the output file can be opened, its
    header cannot be written. *)
Definition header_write_fails : World :=
  initial_world (scripted [Ret VNone; Throw disk_full] [] []) None.

(** The output file and the number of records handed to the writer. *)
Definition sink_state (w : World) := (fs w, count_writes (trace w)).

(** The file only grows, by at most one row per record handed to the
    writer. *)
Definition appends_only : World -> World -> Prop :=
  fun w w' =>
    exists added,
      file_rows (fs w') = (file_rows (fs w) ++ added)%list
      /\ List.length added + count_writes (trace w) <= count_writes (trace w').

(** The keystrokes sent with [locator.type], newest first: the selector,
    the character and the delay in milliseconds. *)
Fixpoint keystrokes (t : list Event) : list (string * ascii * N) :=
  match t with
  | [] => []
  | ECall (OpType _ sel ch delay) _ :: rest => (sel, ch, delay) :: keystrokes rest
  | _ :: rest => keystrokes rest
  end.

(** An environment in which no external call raises. *)
Definition never_throws (e : Env) : Prop := forall n, is_throw (ext e n) = false.

(** The answers to come and the browser held. *)
Definition calm_frame (w : World) := (env w, browser w).

Definition success_tag : string := "send_code_clicked_waited_10s".

(** The notes as the handler of an attempt leaves them after [e]. *)
Definition notes_after (e : exn) (n : string) : string :=
  if String.eqb n "init" then "flow_exception:" ++ exn_name e else n.

(** A signup page on which the submit button cannot be clicked. *)
Definition submit_blocked : World :=
  set_notes "init"
    (set_next_handle 1
       (set_browser (Some 0)
          (initial_world
             (scripted [Ret VNone; Ret VNone; Ret VNone; Ret VNone; Ret VNone; Ret VNone;
                        Ret (VInt 0); Ret (VInt 0); Ret (VInt 0); Ret (VInt 0); Ret (VInt 0);
                        Throw element_missing; Throw element_missing;
                        Ret VNone; Ret VNone; Ret VNone; Ret VNone; Ret VNone;
                        Throw element_missing] [] [])
             (Some [CSV_FIELDS default_config])))).

(** The browsers closed, newest first. *)
Fixpoint browser_closes (t : list Event) : list handle :=
  match t with
  | [] => []
  | ECall (OpBrowserClose b) _ :: rest => b :: browser_closes rest
  | _ :: rest => browser_closes rest
  end.

Definition closed_browsers (w : World) := browser_closes (trace w).

(** The answers to the clicks on the "Create account" button, newest
    first. *)
Fixpoint create_clicks (t : list Event) : list Resp :=
  match t with
  | [] => []
  | ECall (OpClick _ sel _) r :: rest =>
      if String.eqb sel create_button then r :: create_clicks rest else create_clicks rest
  | _ :: rest => create_clicks rest
  end.

(** What was done to the form: the fields filled and the clicks on the
    submit button. *)
Definition form_touched (w : World) := (field_fills (trace w), create_clicks (trace w)).

Definition submit_state (w : World) := create_clicks (trace w).

(** [t] ends with [suffix]. *)
Fixpoint ends_with (suffix t : string) : bool :=
  String.eqb t suffix
  || match t with
     | EmptyString => false
     | String _ rest => ends_with suffix rest
     end.

(** The scripts evaluated in the page, with their outcome, newest
    first. *)
Fixpoint evaluated (t : list Event) : list (Script * Resp) :=
  match t with
  | [] => []
  | ECall (OpEvaluate _ script) r :: rest => (script, r) :: evaluated rest
  | _ :: rest => evaluated rest
  end.

Definition scripts_run (w : World) := evaluated (trace w).

(** The base [_generate_strong_password] draws in world [w]: its length,
    then its characters. *)
Definition drawn_base (w : World) : Res (list ascii) :=
  fst (choices base_alphabet (N.to_nat (randint_of 8 11 (rnd (env w) (rnd_pos w))))
               (set_rnd_pos (S (rnd_pos w)) w)).

(** Whether the fix-ups leave an uppercase letter in a base. *)
Definition keeps_upper (base : list ascii) : bool :=
  existsb is_lower (fix_upper base) || existsb is_upper (removelast (fix_upper base)).

(** * Properties *)

Open Scope list_scope.

(** ** Reasoning about computations *)

Lemma bind_ok {A B} (m : M A) (k : A -> M B) w a w1 :
  m w = (Ok a, w1) -> bind m k w = k a w1.
Proof. intros E. unfold bind. rewrite E. reflexivity. Qed.

Lemma bind_raise {A B} (m : M A) (k : A -> M B) w e w1 :
  m w = (Raise e, w1) -> bind m k w = (Raise e, w1).
Proof. intros E. unfold bind. rewrite E. reflexivity. Qed.

Lemma bind_inv {A B} (m : M A) (k : A -> M B) w r w' :
  bind m k w = (r, w') ->
  (exists a w1, m w = (Ok a, w1) /\ k a w1 = (r, w'))
  \/ (exists e, m w = (Raise e, w') /\ r = Raise e).
Proof.
  unfold bind. destruct (m w) as [[a|e] w1]; intros E.
  - left. eauto.
  - right. inversion E; subst. eauto.
Qed.

Lemma try_except_ok {A} (m : M A) (h : exn -> M A) w a w1 :
  m w = (Ok a, w1) -> try_except m h w = (Ok a, w1).
Proof. intros E. unfold try_except. rewrite E. reflexivity. Qed.

Lemma try_except_raise {A} (m : M A) (h : exn -> M A) w e w1 :
  m w = (Raise e, w1) -> try_except m h w = h e w1.
Proof. intros E. unfold try_except. rewrite E. reflexivity. Qed.

#[export] Instance keeping_preorder {B} (f : World -> B) : PreOrder (keeping f).
Proof.
  split.
  - intros w. reflexivity.
  - intros a b c H1 H2. unfold keeping in *. congruence.
Qed.

#[export] Instance extends_preorder : PreOrder extends.
Proof.
  split.
  - intros w. exists []. reflexivity.
  - intros a b c [e1 H1] [e2 H2]. exists (e2 ++ e1)%list.
    rewrite H2, H1. apply app_assoc.
Qed.

Section Stable.
Context (R : World -> World -> Prop) `{PreOrder _ R}.

Lemma stable_ret {A} (a : A) : stable R (ret a).
Proof. intro w; simpl; reflexivity. Qed.

Lemma stable_raise {A} (e : exn) : stable R (@raise A e).
Proof. intro w; simpl; reflexivity. Qed.

Lemma stable_read {A} (f : World -> A) : stable R (read f).
Proof. intro w; simpl; reflexivity. Qed.

Lemma stable_bind {A B} (m : M A) (k : A -> M B) :
  stable R m -> (forall a, stable R (k a)) -> stable R (bind m k).
Proof.
  intros Hm Hk w. unfold bind. specialize (Hm w).
  destruct (m w) as [[a|e] w1]; simpl in *.
  - etransitivity; [exact Hm | apply Hk].
  - exact Hm.
Qed.

Lemma stable_try_except {A} (m : M A) (h : exn -> M A) :
  stable R m -> (forall e, stable R (h e)) -> stable R (try_except m h).
Proof.
  intros Hm Hh w. unfold try_except. specialize (Hm w).
  destruct (m w) as [[a|e] w1]; simpl in *.
  - exact Hm.
  - etransitivity; [exact Hm | apply Hh].
Qed.

Lemma stable_finally {A} (m : M A) (fin : M unit) :
  stable R m -> stable R fin -> stable R (finally m fin).
Proof.
  intros Hm Hf w. unfold finally. specialize (Hm w).
  destruct (m w) as [r w1]; simpl in *. specialize (Hf w1).
  destruct (fin w1) as [[[]|e] w2]; simpl in *; etransitivity; eauto.
Qed.

Lemma stable_for_each {A} (l : list A) (body : A -> M unit) :
  (forall x, stable R (body x)) -> stable R (for_each l body).
Proof.
  intros Hb. induction l as [|x l IH]; simpl.
  - apply stable_ret.
  - apply stable_bind; auto.
Qed.

Lemma stable_choices {A} (l : list A) (n : nat) :
  stable R (choice_from l) -> stable R (choices l n).
Proof.
  intros Hc. induction n as [|n IH]; simpl.
  - apply stable_ret.
  - apply stable_bind; [exact Hc | intro c].
    apply stable_bind; [exact IH | intro cs]. apply stable_ret.
Qed.

Lemma stable_goto_loop cfg p url :
  (forall n, stable R (goto_attempt cfg p url n)) ->
  forall k n, stable R (goto_loop cfg p url n k).
Proof.
  intros Ha k. induction k as [|k IH]; intros n; simpl.
  - apply stable_ret.
  - apply stable_bind; [apply Ha | intros [|]]; [apply stable_ret | apply IH].
Qed.
End Stable.

Lemma stable_emit_extends ev : stable extends (emit ev).
Proof. intro w. exists [ev]. reflexivity. Qed.

Lemma stable_ext_call_extends op : stable extends (ext_call op).
Proof. intro w. eexists [_]. reflexivity. Qed.

Section Total.
Lemma total_ret {A} (a : A) : never_raises (ret a).
Proof. intro w. exists a. reflexivity. Qed.

Lemma total_bind {A B} (m : M A) (k : A -> M B) :
  never_raises m -> (forall a, never_raises (k a)) -> never_raises (bind m k).
Proof.
  intros Hm Hk w. unfold bind. destruct (Hm w) as [a Ha].
  destruct (m w) as [[a'|e] w1]; simpl in Ha; [ | discriminate ].
  apply Hk.
Qed.

Lemma total_try_except {A} (m : M A) (h : exn -> M A) :
  (forall e, never_raises (h e)) -> never_raises (try_except m h).
Proof.
  intros Hh w. unfold try_except.
  destruct (m w) as [[a|e] w1]; [ exists a; reflexivity | apply Hh ].
Qed.

Lemma total_for_each {A} (l : list A) (body : A -> M unit) :
  (forall x, never_raises (body x)) -> never_raises (for_each l body).
Proof.
  intros Hb. induction l as [|x l IH]; simpl.
  - apply total_ret.
  - apply total_bind; auto.
Qed.

Lemma total_choices {A} (l : list A) (n : nat) :
  l <> [] -> never_raises (choices l n).
Proof.
  intros Hl. induction n as [|n IH]; simpl.
  - apply total_ret.
  - apply total_bind; [ | intro c; apply total_bind; [exact IH | intro; apply total_ret] ].
    destruct l; [congruence | ]. intro w. eexists. reflexivity.
Qed.

Lemma total_goto_loop cfg p url :
  (forall n, never_raises (goto_attempt cfg p url n)) ->
  forall k n, never_raises (goto_loop cfg p url n k).
Proof.
  intros Ha k. induction k as [|k IH]; intros n; simpl.
  - apply total_ret.
  - apply total_bind; [apply Ha | intros [|]]; [apply total_ret | apply IH].
Qed.
End Total.

Create HintDb procs.

#[export] Hint Unfold when log sleep jitter_sleep uniform randint choice choice_from
  launch shutdown _setup_request_blocking create_context new_context close_context
  _optimize_loaded_page goto_attempt robust_goto close_common_popups type_text navigate
  _select_country_by_typing _select_country_by_js select_country fill_form submit_form
  wait_for_page submit_phone input post_submit after_submit after_navigation attempt_body
  attempt_handler route_handler fix_digit _generate_strong_password
  _generate_realistic_email generate_account_data : procs.

Ltac tc := try (solve [typeclasses eauto]).

Ltac prim := solve [ let w := fresh "w" in intro w; cbn; reflexivity ].

Ltac prim_extends :=
  solve [ apply stable_emit_extends | apply stable_ext_call_extends
        | let w := fresh "w" in intro w; exists []; reflexivity ].

Ltac prim_total := solve [ let w := fresh "w" in intro w; eexists; reflexivity ].

(** Stability of a computation, by its structure. *)
Ltac stab :=
  repeat first
    [ apply stable_ret; tc
    | apply stable_raise; tc
    | apply stable_read; tc
    | apply stable_bind; tc; [ | intro ]
    | apply stable_try_except; tc; [ | intro ]
    | apply stable_finally; tc
    | apply stable_for_each; tc; intro
    | apply stable_choices; tc
    | apply stable_goto_loop; tc; intro
    | match goal with
      | |- stable _ (if ?b then _ else _) => destruct b
      | |- stable _ (match ?x with _ => _ end) => destruct x
      end
    | prim
    | prim_extends
    | progress autounfold with procs ].

(** Absence of exceptions, by the structure of a computation. *)
Ltac total :=
  repeat first
    [ apply total_ret
    | apply total_bind; [ | intro ]
    | apply total_try_except; intro
    | apply total_for_each; intro
    | apply total_goto_loop; intro
    | apply total_choices; discriminate
    | match goal with
      | |- never_raises (if ?b then _ else _) => destruct b
      | |- never_raises (match ?x with _ => _ end) => destruct x
      end
    | prim_total
    | progress autounfold with procs ].

(** ** CsvOutputWriter *)

(** C8: when the output file exists, constructing the writer changes
    nothing (no header is written again); a write keeps the rows that are
    there and adds at most one, exactly the row of the record when opening
    and writing succeed; the header is what [_initialize_file] writes into
    a file that did not exist. *)
Theorem output_initialization_idempotent filename fieldnames rows data w :
  fs w = Some rows ->
  _initialize_file filename fieldnames w = (Ok tt, w)
  /\ (exists added,
        fs (snd (write_row filename fieldnames data w)) = Some (rows ++ added)
        /\ List.length added <= 1
        /\ (is_throw (ext (env w) (ext_pos w)) = false ->
            is_throw (ext (env w) (S (ext_pos w))) = false ->
            has_extra_keys fieldnames data = false ->
            added = [row_of fieldnames data]))
  /\ (forall w0, fs w0 = None ->
        is_throw (ext (env w0) (ext_pos w0)) = false ->
        is_throw (ext (env w0) (S (ext_pos w0))) = false ->
        fs (snd (_initialize_file filename fieldnames w0)) = Some [fieldnames]).
Proof.
  intros Hfs. split; [ | split ].
  - unfold _initialize_file, bind, read. rewrite Hfs. reflexivity.
  - unfold write_row, bind, try_except, emit, ext_call, read, modify, log, emit, raise; cbn.
    rewrite Hfs.
    destruct (ext (env w) (ext_pos w)) as [v|e]; cbn.
    + destruct (has_extra_keys fieldnames data); cbn.
      * exists []. rewrite app_nil_r.
        split; [ destruct (is_ioerror ValueError); cbn; first [ assumption | reflexivity ] | ].
        split; [ auto | intros; discriminate ].
      * destruct (ext (env w) (S (ext_pos w))) as [v'|e']; cbn.
        -- exists [row_of fieldnames data]. auto.
        -- exists []. rewrite app_nil_r.
           split; [ destruct (is_ioerror e'); cbn; first [ assumption | reflexivity ] | ].
           split; [ auto | intros; discriminate ].
    + exists []. rewrite app_nil_r.
      split; [ destruct (is_ioerror e); cbn; first [ assumption | reflexivity ] | ].
      split; [ auto | intros; discriminate ].
  - intros w0 Hnone H1 H2.
    unfold _initialize_file, bind, try_except, emit, ext_call, read, modify, log, emit, raise; cbn.
    rewrite Hnone; cbn.
    destruct (ext (env w0) (ext_pos w0)) as [v|e]; [ | discriminate ]; cbn.
    destruct (ext (env w0) (S (ext_pos w0))) as [v'|e']; [ | discriminate ]; cbn.
    reflexivity.
Qed.

Lemma output_initialization_idempotent_witness :
  _initialize_file (OUTPUT_CSV default_config) (CSV_FIELDS default_config) existing_file
    = (Ok tt, existing_file)
  /\ fs (snd (write_row (OUTPUT_CSV default_config) (CSV_FIELDS default_config)
                        sample_row existing_file))
     = Some [CSV_FIELDS default_config; ["t"; "p"; "e"; "pw"; "f"; "l"; "c"; "n"];
             ["t2"; ""; "e2"; "pw2"; "f2"; "l2"; "c2"; "nav_failed"]]
  /\ fs (snd (_initialize_file (OUTPUT_CSV default_config) (CSV_FIELDS default_config)
                               (initial_world (scripted [] [] []) None)))
     = Some [CSV_FIELDS default_config].
Proof.
  destruct (output_initialization_idempotent (OUTPUT_CSV default_config)
              (CSV_FIELDS default_config) _ sample_row existing_file eq_refl)
    as [Hinit [[added [Hfs [_ Hadd]]] Hcreate]].
  split; [ exact Hinit | split ].
  - rewrite Hfs, (Hadd eq_refl eq_refl eq_refl). reflexivity.
  - apply (Hcreate (initial_world (scripted [] [] []) None) eq_refl eq_refl eq_refl).
Defined.

(** C10: [write_row] returns normally from every world and for every
    record; when opening or appending raises, the exception is logged, the
    rows of the file stay as they were (the record is lost), and so the
    finalizer of an attempt never raises either. *)
Theorem write_row_never_propagates filename fieldnames data w :
  (exists w',
      write_row filename fieldnames data w = (Ok tt, w')
      /\ if sink_accepts fieldnames data w
         then fs w' = Some (file_rows (fs w) ++ [row_of fieldnames data])
         else file_rows (fs w') = file_rows (fs w)
              /\ exists msg rest, trace w' = ELog ERROR msg :: rest)
  /\ forall cfg account, never_raises (attempt_finalizer cfg account).
Proof.
  split.
  - unfold write_row, sink_accepts, bind, try_except, emit, ext_call, read, modify,
      log, emit, raise; cbn.
    destruct (ext (env w) (ext_pos w)) as [v|e]; cbn.
    + destruct (has_extra_keys fieldnames data); cbn.
      * destruct (is_ioerror ValueError); cbn; eexists; (split; [reflexivity | ]);
          cbn; split; eauto.
      * destruct (ext (env w) (S (ext_pos w))) as [v'|e']; cbn.
        -- eexists; split; reflexivity.
        -- destruct (is_ioerror e'); cbn; eexists; (split; [reflexivity | ]);
             cbn; split; eauto.
    + destruct (is_ioerror e); cbn; eexists; (split; [reflexivity | ]);
        cbn; split; eauto.
  - intros cfg account. unfold attempt_finalizer, output_writer_write_row, write_row.
    total.
Qed.

(** ** DataGenerator *)

Lemma randint_of_bounds a b r : (a <= b)%N -> (a <= randint_of a b r <= b)%N.
Proof.
  intros Hab. unfold randint_of.
  assert (Hk : (r mod (b - a + 1) < b - a + 1)%N) by (apply N.mod_lt; lia).
  revert Hk. generalize (r mod (b - a + 1))%N. intros k Hk. lia.
Qed.

Lemma choice_from_spec {A} (l : list A) w :
  l <> [] ->
  exists c, choice_from l w = (Ok c, set_rnd_pos (S (rnd_pos w)) w) /\ In c l.
Proof.
  intros Hl. destruct l as [|d l']; [congruence | ].
  unfold choice_from, choice, bind, draw, ret. cbv beta iota.
  eexists. split; [reflexivity | ].
  unfold choice_of. apply nth_In.
  assert (Hk : (rnd (env w) (rnd_pos w) mod N.of_nat (List.length (d :: l'))
                < N.of_nat (List.length (d :: l')))%N) by (apply N.mod_lt; simpl; lia).
  revert Hk. generalize (rnd (env w) (rnd_pos w) mod N.of_nat (List.length (d :: l')))%N.
  intros k Hk. lia.
Qed.

Lemma choices_spec {A} (l : list A) (n : nat) w :
  l <> [] ->
  exists cs w', choices l n w = (Ok cs, w')
                /\ List.length cs = n /\ Forall (fun c => In c l) cs.
Proof.
  intros Hl. revert w. induction n as [|n IH]; intros w.
  - exists [], w. repeat split. constructor.
  - destruct (choice_from_spec l w Hl) as [c [Ec Hc]].
    destruct (IH (set_rnd_pos (S (rnd_pos w)) w)) as [cs [w' [E [Hlen Hall]]]].
    exists (c :: cs), w'. split; [ | split ].
    + change (choices l (S n)) with (c <- choice_from l ;; cs <- choices l n ;; ret (c :: cs)).
      rewrite (bind_ok _ _ _ _ _ Ec), (bind_ok _ _ _ _ _ E). reflexivity.
    + simpl. congruence.
    + constructor; assumption.
Qed.

Lemma digit_of_randint r :
  exists c, list_ascii_of_string (str_of_N (randint_of 1 9 r)) = [c] /\ is_digit c = true.
Proof.
  unfold randint_of.
  assert (H : (r mod (9 - 1 + 1) < 9)%N) by (apply N.mod_lt; lia).
  remember (r mod (9 - 1 + 1))%N as k eqn:Ek. clear Ek.
  assert (Hk : k = N.of_nat (N.to_nat k)) by lia.
  assert (Hn : N.to_nat k < 9) by lia.
  rewrite Hk. generalize dependent (N.to_nat k). intros n _ Hn.
  do 9 (destruct n as [|n]; [ eexists; split; reflexivity | ]).
  lia.
Qed.

Lemma fix_upper_length base : 1 <= List.length base -> List.length (fix_upper base) = List.length base.
Proof.
  intros H. unfold fix_upper. destruct (existsb is_upper base); [reflexivity | ].
  change (List.length ("S"%char :: skipn 1 base)) with (S (List.length (skipn 1 base))).
  rewrite length_skipn. lia.
Qed.

Lemma fix_lower_spec base :
  1 <= List.length base ->
  List.length (fix_lower base) = List.length base /\ existsb is_lower (fix_lower base) = true.
Proof.
  intros H. unfold fix_lower. destruct (existsb is_lower base) eqn:E; [auto | ].
  split.
  - rewrite length_app, removelast_firstn_len, length_firstn. simpl. lia.
  - rewrite existsb_app. simpl. apply orb_true_r.
Qed.

Lemma fix_digit_spec base w :
  exists base' w', fix_digit base w = (Ok base', w')
    /\ List.length base <= List.length base' <= S (List.length base)
    /\ existsb is_digit base' = true
    /\ (existsb is_lower base = true -> existsb is_lower base' = true).
Proof.
  unfold fix_digit. destruct (existsb is_digit base) eqn:E.
  - exists base, w. repeat split; auto.
  - unfold randint, bind, draw, ret; cbv beta iota.
    destruct (digit_of_randint (rnd (env w) (rnd_pos w))) as [c [Hc Hd]].
    rewrite Hc. eexists _, _. split; [reflexivity | ]. repeat split.
    + rewrite length_app. simpl. lia.
    + rewrite length_app. simpl. lia.
    + rewrite existsb_app. simpl. rewrite Hd. apply orb_true_r.
    + intros Hl. rewrite existsb_app, Hl. reflexivity.
Qed.

Lemma filter_all {A} (f : A -> bool) (l : list A) :
  Forall (fun x => f x = true) l -> filter f l = l.
Proof.
  induction 1 as [|x l Hx _ IH]; simpl; [reflexivity | ]. rewrite Hx, IH. reflexivity.
Qed.

Lemma existsb_split {A} (f : A -> bool) (n : nat) (l mid : list A) :
  existsb f l = true -> existsb f (firstn n l ++ mid ++ skipn n l) = true.
Proof.
  intros H. rewrite <- (firstn_skipn n l), existsb_app in H.
  rewrite !existsb_app. destruct (existsb f (firstn n l)); simpl in *; [reflexivity | ].
  rewrite H. apply orb_true_r.
Qed.

(** The guarantees of [_generate_strong_password] that do hold for every
    draw: it returns, the length is between 11 and 18, and there are a
    lowercase letter, a digit and at least three special characters. *)
Lemma password_guarantees w :
  exists pw w', _generate_strong_password w = (Ok pw, w')
    /\ 11 <= List.length pw <= 18
    /\ existsb is_lower pw = true
    /\ existsb is_digit pw = true
    /\ 3 <= count_specials pw.
Proof.
  unfold _generate_strong_password.
  unfold randint at 1. unfold bind at 1 2, draw, ret; cbv beta iota.
  set (w1 := set_rnd_pos (S (rnd_pos w)) w).
  pose proof (randint_of_bounds 8 11 (rnd (env w) (rnd_pos w)) ltac:(lia)) as Hlen.
  set (base_len := randint_of 8 11 (rnd (env w) (rnd_pos w))) in *.
  destruct (choices_spec base_alphabet (N.to_nat base_len) w1 ltac:(discriminate))
    as [base [w2 [E2 [Hb _]]]].
  unfold bind at 1. rewrite E2.
  assert (Hb1 : 1 <= List.length base) by lia.
  pose proof (fix_upper_length base Hb1) as Hu.
  destruct (fix_lower_spec (fix_upper base) ltac:(lia)) as [Hl Hlow].
  destruct (fix_digit_spec (fix_lower (fix_upper base)) w2) as [b3 [w3 [E3 [Hl3 [Hdig Hlow3]]]]].
  unfold bind at 1. rewrite E3.
  unfold randint at 1. unfold bind at 1 2, draw, ret; cbv beta iota.
  pose proof (randint_of_bounds 3 6 (rnd (env w3) (rnd_pos w3)) ltac:(lia)) as Hns.
  set (num_specials := randint_of 3 6 (rnd (env w3) (rnd_pos w3))) in *.
  destruct (choices_spec specials (N.to_nat num_specials)
              (set_rnd_pos (S (rnd_pos w3)) w3) ltac:(discriminate))
    as [sp [w4 [E4 [Hsp Hall]]]].
  unfold bind at 1. rewrite E4.
  unfold randint, bind, draw, ret; cbv beta iota.
  set (pos := N.to_nat _).
  eexists _, _. split; [reflexivity | ].
  assert (Hlenpw : List.length (firstn pos b3 ++ sp ++ skipn pos b3)
                   = List.length b3 + List.length sp).
  { rewrite !length_app.
    pose proof (f_equal (@List.length ascii) (firstn_skipn pos b3)) as Hfs.
    rewrite length_app in Hfs. lia. }
  rewrite firstn_all2 by lia.
  split; [lia | ]. split; [ | split ].
  - apply existsb_split. apply Hlow3, Hlow.
  - apply existsb_split. exact Hdig.
  - unfold count_specials. rewrite !filter_app, !length_app.
    rewrite (filter_all is_special sp).
    + lia.
    + eapply Forall_impl; [ | exact Hall ]. intros c Hc. unfold is_special.
      apply existsb_exists. exists c. split; [exact Hc | apply Ascii.eqb_refl].
Qed.

(** C9, at the draws [no_upper_draws]: the base "1111111A" has an
    uppercase letter, so no 'S' is put in front; it has no lowercase
    letter, so its last character, the only uppercase one, is replaced by
    'a'. The password returned has no uppercase letter. *)
Theorem password_without_uppercase :
  exists w',
    _generate_strong_password (initial_world (scripted [] no_upper_draws []) None)
      = (Ok (list_ascii_of_string "1!!!111111a"), w')
    /\ existsb is_upper (list_ascii_of_string "1!!!111111a") = false.
Proof. eexists. split; vm_compute; reflexivity. Qed.

(** ** BasePage.robust_goto *)

Lemma jitter_bounds r : (0 <= jitter r)%Q /\ (jitter r <= 1 # 2)%Q.
Proof.
  unfold jitter, uniform_of, unit_fraction.
  assert (Hk : (r mod 2 ^ 53 < 2 ^ 53)%N) by (apply N.mod_lt; discriminate).
  revert Hk. generalize (r mod 2 ^ 53)%N. intros k Hk.
  assert (Hz : (0 <= Z.of_N k < 2 ^ 53)%Z) by lia.
  revert Hz. generalize (Z.of_N k). intros z Hz.
  unfold Qle, Qplus, Qmult, Qminus, Qopp; cbn in *. destruct z; lia.
Qed.



(** While the back-off still grows (attempts 1 to 3 and their
    successors), the sleeps of successive timeouts are ordered even with
    their jitter. *)
Lemma timeout_sleeps_ordered n e e' r r' :
  is_timeout e = true -> is_timeout e' = true -> n <= 3 ->
  (failure_sleep n e r <= failure_sleep (S n) e' r')%Q.
Proof.
  intros He He' Hn. unfold failure_sleep. rewrite He, He'.
  destruct (jitter_bounds r) as [_ Hj]. destruct (jitter_bounds r') as [Hj' _].
  assert (Hb : backoff (S n) = backoff n + 2) by (unfold backoff; lia).
  rewrite Hb, Nat2Z.inj_add, inject_Z_plus.
  rewrite <- Qplus_assoc. apply Qplus_le_compat; [apply Qle_refl | ].
  apply Qle_trans with (1 # 2)%Q; [assumption | ].
  apply Qle_trans with (inject_Z (Z.of_nat 2) + 0)%Q; [ unfold Qle; cbn; lia | ].
  apply Qplus_le_compat; [apply Qle_refl | assumption].
Qed.

Lemma goto_attempt_fails cfg p url n w e :
  ext (env w) (ext_pos w) = Throw e ->
  exists w',
    goto_attempt cfg p url n w = (Ok false, w')
    /\ env w' = env w /\ ext_pos w' = S (ext_pos w) /\ rnd_pos w' = S (rnd_pos w)
    /\ goto_count (trace w') = S (goto_count (trace w))
    /\ sleeps (trace w') = failure_sleep n e (rnd (env w) (rnd_pos w)) :: sleeps (trace w).
Proof.
  intros E. unfold goto_attempt, try_except, bind at 1, ext_call. rewrite E. cbv beta iota.
  unfold failure_sleep, jitter.
  destruct (is_timeout e); eexists; (split; [reflexivity | ]); cbn; auto.
Qed.






(** ** BrowserManager *)








(** ** SignUpPage.fill_form *)

Lemma never_raises_ok {A} (m : M A) w :
  never_raises m -> exists a, m w = (Ok a, snd (m w)).
Proof.
  intros H. destruct (H w) as [a Ha]. exists a.
  destruct (m w) as [r w1]. simpl in *. congruence.
Qed.

Lemma extends_In w w' ev : extends w w' -> In ev (trace w) -> In ev (trace w').
Proof. intros [evs H] Hin. rewrite H. apply in_or_app. right. exact Hin. Qed.

Lemma fill_form_unfold cfg p data :
  fill_form cfg p data
  = try_except
      (close_common_popups p ;;
       jitter_sleep (5 # 100) (12 # 100) ;;
       selected <- select_country cfg p (country data) ;;
       when (negb selected) (log WARNING "Country selection failed, proceeding anyway...") ;;
       fill_fields p data)
      (fun e => log ERROR "Failed to fill signup form: %s" ;; ret false).
Proof. reflexivity. Qed.

(** Symbolic execution of a loop-free computation whose world has been
    taken apart: [run] normalises up to the next answer of the environment
    [ex], leaving the arithmetic on random draws alone, and [next_step]
    splits on that answer. *)
Ltac run := lazy -[uniform_of randint_of choice_of Qplus inject_Z is_ioerror is_timeout].

Ltac next_step ex :=
  match goal with
  | |- context [match ex ?n with _ => _ end] =>
      let E := fresh "E" in destruct (ex n) eqn:E; run
  end.

(** The fields: the outcome is [True] when the five fills are answered
    by returns, an exception otherwise, raised by the last fill made. *)
Lemma fill_fields_outcome p data w :
  if answers_ok (env w) (ext_pos w) 5
  then exists w', fill_fields p data w = (Ok true, w')
         /\ field_fills (trace w')
            = rev (filled_fields data (env w) (ext_pos w)) ++ field_fills (trace w)
  else exists e w', fill_fields p data w = (Raise e, w')
         /\ exists sel text rest, field_fills (trace w') = (sel, text, Throw e) :: rest.
Proof.
  destruct w as [[ex rn st] xp rp sp t b nh ai f n c].
  run. repeat next_step ex;
    first [ eexists; split; reflexivity
          | eexists _, _; split; [reflexivity | eexists _, _, _; reflexivity] ].
Qed.

Lemma select_country_both_fail cfg p c w wa wb :
  _select_country_by_typing cfg p c (snd (log DEBUG "Selecting country: %s" w)) = (Ok false, wa) ->
  _select_country_by_js p c wa = (Ok false, wb) ->
  select_country cfg p c w
  = (Ok false, snd (log WARNING "Country select FAILED: %s" wb)).
Proof.
  intros Ht Hj. unfold select_country.
  unfold bind at 1. unfold log at 1, emit at 1. cbv beta iota.
  unfold log, emit in Ht. simpl snd in Ht.
  rewrite (bind_ok _ _ _ _ _ Ht). cbv beta iota.
  rewrite (bind_ok _ _ _ _ _ Hj). reflexivity.
Qed.


Lemma bind_split {A B C} (m1 m2 : M unit) (m3 : M A) (m4 : A -> M B) (m5 : M C) w :
  (m1 ;; m2 ;; x <- m3 ;; m4 x ;; m5) w
  = ((m1 ;; m2 ;; x <- m3 ;; m4 x) ;; m5) w.
Proof.
  unfold bind.
  destruct (m1 w) as [[a|e] w1]; [ | reflexivity ].
  destruct (m2 w1) as [[a2|e] w2]; [ | reflexivity ].
  destruct (m3 w2) as [[a3|e] w3]; [ | reflexivity ].
  destruct (m4 a3 w3) as [[a4|e] w4]; reflexivity.
Qed.

Lemma fill_form_prefix_kept cfg p data :
  stable (keeping fills_kept)
    (close_common_popups p ;;
     jitter_sleep (5 # 100) (12 # 100) ;;
     selected <- select_country cfg p (country data) ;;
     when (negb selected) (log WARNING "Country selection failed, proceeding anyway...")).
Proof. stab. Qed.

Lemma fill_form_prefix_total cfg p data :
  never_raises
    (close_common_popups p ;;
     jitter_sleep (5 # 100) (12 # 100) ;;
     selected <- select_country cfg p (country data) ;;
     when (negb selected) (log WARNING "Country selection failed, proceeding anyway...")).
Proof. total. Qed.

Lemma fill_fields_extends p data : stable extends (fill_fields p data).
Proof. unfold fill_fields. stab. Qed.

Lemma after_submit_form_extends cfg p data submitted :
  stable extends
    (if negb submitted
     then modify (set_notes "submit_failed") ;; raise (Exception "SubmitFailed")
     else after_submit cfg p data).
Proof. stab. Qed.

(** [fill_form] returns False only when one of the five field fills
    raised, whatever happened to the country. *)
Lemma fill_form_false cfg p data w w' :
  fill_form cfg p data w = (Ok false, w') ->
  exists sel text e rest, field_fills (trace w') = (sel, text, Throw e) :: rest.
Proof.
  rewrite fill_form_unfold. unfold try_except. rewrite bind_split.
  destruct (never_raises_ok _ w (fill_form_prefix_total cfg p data)) as [[] E].
  rewrite (bind_ok _ _ _ _ _ E).
  pose proof (fill_fields_outcome p data
                (snd ((close_common_popups p ;;
                       jitter_sleep (5 # 100) (12 # 100) ;;
                       selected <- select_country cfg p (country data) ;;
                       when (negb selected)
                         (log WARNING "Country selection failed, proceeding anyway...")) w)))
    as Hf.
  destruct (answers_ok _ _ 5).
  - destruct Hf as [w3 [Ef _]]. rewrite Ef. discriminate.
  - destruct Hf as [e [w3 [Ef [sel [text [rest Hfills]]]]]]. rewrite Ef.
    intros H. inversion H; subst. exists sel, text, e, rest. exact Hfills.
Qed.

(** C5: when both country strategies return False, [fill_form] logs the
    warning and goes on: its result is True exactly when the five field
    fills are answered by returns, and then the fields were filled in
    order with the account's values and [after_navigation] goes on to
    click the submit button. In general [fill_form] never raises, and it
    returns False only when a field fill raised. *)
Theorem fill_form_country_failure_not_fatal cfg p data w wa wb :
  let w1 := snd (jitter_sleep (5 # 100) (12 # 100) (snd (close_common_popups p w))) in
  let w2 := snd (log WARNING "Country selection failed, proceeding anyway..."
                     (snd (log WARNING "Country select FAILED: %s" wb))) in
  _select_country_by_typing cfg p (country data)
      (snd (log DEBUG "Selecting country: %s" w1)) = (Ok false, wa) ->
  _select_country_by_js p (country data) wa = (Ok false, wb) ->
  (exists w',
      fill_form cfg p data w = (Ok (answers_ok (env w2) (ext_pos w2) 5), w')
      /\ In (ELog WARNING "Country selection failed, proceeding anyway...") (trace w')
      /\ (answers_ok (env w2) (ext_pos w2) 5 = true ->
          field_fills (trace w')
          = rev (filled_fields data (env w2) (ext_pos w2)) ++ field_fills (trace w)
          /\ exists r, In (ECall (OpClick p create_button 5000) r)
                          (trace (snd (after_navigation cfg p data w)))))
  /\ never_raises (fill_form cfg p data)
  /\ (forall w', fill_form cfg p data w = (Ok false, w') ->
        exists sel text e rest, field_fills (trace w') = (sel, text, Throw e) :: rest).
Proof.
  intros w1 w2 Ht Hj. split; [ | split; [ total | apply fill_form_false ] ].
  assert (Epre : (close_common_popups p ;;
                  jitter_sleep (5 # 100) (12 # 100) ;;
                  selected <- select_country cfg p (country data) ;;
                  when (negb selected)
                    (log WARNING "Country selection failed, proceeding anyway...")) w
                 = (Ok tt, w2)).
  { destruct (never_raises_ok (close_common_popups p) w ltac:(total)) as [[] E0].
    rewrite (bind_ok _ _ _ _ _ E0).
    assert (E1 : jitter_sleep (5 # 100) (12 # 100) (snd (close_common_popups p w))
                 = (Ok tt, w1)) by reflexivity.
    rewrite (bind_ok _ _ _ _ _ E1).
    rewrite (bind_ok _ _ _ _ _ (select_country_both_fail _ _ _ _ _ _ Ht Hj)).
    reflexivity. }
  pose proof (fill_form_prefix_kept cfg p data w) as Hkept.
  rewrite Epre in Hkept. simpl snd in Hkept. unfold keeping, fills_kept in Hkept.
  inversion Hkept as [[Henv Hfills]].
  pose proof (fill_fields_outcome p data w2) as Hf.
  pose proof (fill_fields_extends p data w2) as Hext.
  assert (Hwarn : In (ELog WARNING "Country selection failed, proceeding anyway...")
                     (trace w2)) by (left; reflexivity).
  rewrite fill_form_unfold. unfold try_except. rewrite bind_split.
  rewrite (bind_ok _ _ _ _ _ Epre).
  destruct (answers_ok (env w2) (ext_pos w2) 5).
  - destruct Hf as [w' [Ef Hff]]. rewrite Ef in *. simpl snd in Hext.
    exists w'. split; [reflexivity | ]. split; [ exact (extends_In _ _ _ Hext Hwarn) | ].
    intros _. split; [ rewrite Hff; f_equal; exact Hfills | ].
    assert (Eform : fill_form cfg p data w = (Ok true, w')).
    { rewrite fill_form_unfold. unfold try_except. rewrite bind_split.
      rewrite (bind_ok _ _ _ _ _ Epre), Ef. reflexivity. }
    unfold after_navigation. rewrite (bind_ok _ _ _ _ _ Eform). cbv beta iota.
    change (negb true) with false. cbv iota.
    exists (ext (env w') (ext_pos w')).
    assert (Hsub : extends (snd (submit_form p w'))
                     (snd ((submitted <- submit_form p ;;
                            if negb submitted
                            then modify (set_notes "submit_failed") ;;
                                 raise (Exception "SubmitFailed")
                            else after_submit cfg p data) w'))).
    { unfold bind. destruct (submit_form p w') as [[b|e] ws] eqn:Es; simpl snd.
      - apply after_submit_form_extends.
      - reflexivity. }
    apply (extends_In _ _ _ Hsub).
    unfold submit_form, try_except, bind, ext_call, log, emit, ret.
    destruct (ext (env w') (ext_pos w')); simpl; auto.
  - destruct Hf as [e [w' [Ef _]]]. rewrite Ef in *. simpl snd in Hext.
    eexists. split; [reflexivity | ]. split; [ | discriminate ].
    right. exact (extends_In _ _ _ Hext Hwarn).
Qed.

Lemma fill_form_country_failure_not_fatal_witness :
  exists w',
    fill_form default_config 2 sample_account (initial_world country_field_broken None)
      = (Ok true, w')
    /\ In (ELog WARNING "Country selection failed, proceeding anyway...") (trace w')
    /\ exists r, In (ECall (OpClick 2 create_button 5000) r)
                    (trace (snd (after_navigation default_config 2 sample_account
                                   (initial_world country_field_broken None)))).
Proof.
  pose (w := initial_world country_field_broken None).
  pose (w1 := snd (jitter_sleep (5 # 100) (12 # 100) (snd (close_common_popups 2 w)))).
  pose (wa := snd (_select_country_by_typing default_config 2 (country sample_account)
                     (snd (log DEBUG "Selecting country: %s" w1)))).
  pose (wb := snd (_select_country_by_js 2 (country sample_account) wa)).
  destruct (fill_form_country_failure_not_fatal default_config 2 sample_account w wa wb)
    as [[w' [E [Hw Hfilled]]] _].
  - vm_compute. reflexivity.
  - vm_compute. reflexivity.
  - exists w'. split; [exact E | ]. split; [exact Hw | ].
    apply (Hfilled eq_refl).
Defined.

(** ** PhoneVerificationPage *)

Lemma answers_ok_split e n : forall m pos,
  answers_ok e pos (n + m) = answers_ok e pos n && answers_ok e (n + pos) m.
Proof.
  induction n as [|n IH]; intros m pos; simpl.
  - reflexivity.
  - rewrite IH, andb_assoc. replace (n + S pos) with (S (n + pos)) by lia. reflexivity.
Qed.

Lemma calls_app t1 t2 : calls (t1 ++ t2) = calls t1 ++ calls t2.
Proof.
  induction t1 as [|ev t1 IH]; simpl; [reflexivity | ].
  destruct ev; simpl; rewrite ?IH; reflexivity.
Qed.

Lemma calls_type_events p sel chars e : forall xpos rpos,
  calls (rev (type_events p sel chars e xpos rpos)) = rev (type_ops p sel chars e rpos).
Proof.
  induction chars as [|ch rest IH]; intros xpos rpos; simpl; [reflexivity | ].
  rewrite calls_app, IH. reflexivity.
Qed.

Lemma type_text_typed p sel text w :
  answers_ok (env w) (ext_pos w) (List.length (list_ascii_of_string text)) = true ->
  type_text p sel text w = (Ok tt, typed_world p sel (list_ascii_of_string text) w).
Proof.
  unfold type_text. generalize (list_ascii_of_string text). intros chars. revert w.
  induction chars as [|ch rest IH]; intros w Hok.
  - destruct w. reflexivity.
  - simpl in Hok. apply andb_true_iff in Hok. destruct Hok as [Hhead Hrest].
    destruct w as [[ex rn st] xp rp sp t b nh ai f n c].
    cbn [env ext ext_pos] in *.
    destruct (ex xp) as [v|e] eqn:E; [ | discriminate ].
    change (for_each (ch :: rest) ?body) with (body ch ;; for_each rest body).
    unfold bind at 1. unfold randint, bind at 1 2 3, draw, ext_call, ret.
    cbn [env ext rnd ext_pos rnd_pos trace set_rnd_pos set_ext_pos set_trace].
    rewrite E. cbv beta iota.
    rewrite IH by exact Hrest.
    unfold typed_world, set_trace, set_rnd_pos, set_ext_pos.
    cbn [env ext rnd ext_pos rnd_pos trace str_pos browser next_handle account_index
         fs notes context type_events List.length rev].
    rewrite E. f_equal. f_equal; try lia.
    rewrite <- app_assoc. reflexivity.
Qed.

Lemma bind_assoc3 {A1 A2 A3 A} (m1 : M A1) (m2 : M A2) (m3 : M A3) (k : M A) w :
  (m1 ;; m2 ;; m3 ;; k) w = ((m1 ;; m2 ;; m3) ;; k) w.
Proof.
  unfold bind.
  destruct (m1 w) as [[a|e] w1]; [ | reflexivity ].
  destruct (m2 w1) as [[a2|e] w2]; [ | reflexivity ].
  destruct (m3 w2) as [[a3|e] w3]; reflexivity.
Qed.

(** A branch in which the environment raises although the answers are
    assumed to be returns. *)
Ltac refute_answer H ex :=
  exfalso; simpl in H;
  repeat match goal with E : ex _ = _ |- _ => rewrite E in H end;
  simpl in H; discriminate H.

Lemma phone_field_cleared p w :
  answers_ok (env w) (ext_pos w) 2 = true ->
  exists w1 d,
    (ext_call (OpClick p phone_input 1200) ;;
     ext_call (OpFill p phone_input "" 1200) ;;
     jitter_sleep (2 # 100) (6 # 100)) w = (Ok tt, w1)
    /\ env w1 = env w /\ ext_pos w1 = 2 + ext_pos w /\ rnd_pos w1 = S (rnd_pos w)
    /\ notes w1 = notes w
    /\ trace w1 = ESleep d
                  :: ECall (OpFill p phone_input "" 1200) (ext (env w) (S (ext_pos w)))
                  :: ECall (OpClick p phone_input 1200) (ext (env w) (ext_pos w))
                  :: trace w.
Proof.
  intros H. destruct w as [[ex rn st] xp rp sp t b nh ai f n c].
  run. repeat next_step ex; try refute_answer H ex.
  eexists _, _. repeat split; reflexivity.
Qed.

Lemma send_code_clicked p w :
  answers_ok (env w) (ext_pos w) 1 = true ->
  exists w3 d,
    (jitter_sleep (4 # 100) (8 # 100) ;;
     ext_call (OpClick p (first send_code_button) 3000) ;;
     log INFO "Clicked 'Send code' for phone %s. Waiting 10s..." ;;
     sleep 10 ;;
     ret "send_code_clicked_waited_10s") w = (Ok "send_code_clicked_waited_10s", w3)
    /\ notes w3 = notes w
    /\ trace w3 = ESleep 10
                  :: ELog INFO "Clicked 'Send code' for phone %s. Waiting 10s..."
                  :: ECall (OpClick p (first send_code_button) 3000) (ext (env w) (ext_pos w))
                  :: ESleep d :: trace w.
Proof.
  intros H. destruct w as [[ex rn st] xp rp sp t b nh ai f n c].
  run. repeat next_step ex; try refute_answer H ex.
  eexists _, _. repeat split; reflexivity.
Qed.

Lemma submit_phone_sends p ph w :
  answers_ok (env w) (ext_pos w) (2 + (List.length (list_ascii_of_string ph) + 1)) = true ->
  exists w' rest,
    submit_phone p ph w = (Ok "send_code_clicked_waited_10s", w')
    /\ trace w' = ESleep 10 :: rest
    /\ calls (trace w')
       = rev (OpClick p phone_input 1200 :: OpFill p phone_input "" 1200
              :: type_ops p phone_input (list_ascii_of_string ph) (env w) (S (rnd_pos w))
              ++ [OpClick p (first send_code_button) 3000])
         ++ calls (trace w)
    /\ notes w' = notes w.
Proof.
  intros H. rewrite !answers_ok_split in H.
  apply andb_true_iff in H. destruct H as [H2 H]. apply andb_true_iff in H.
  destruct H as [Hn H1].
  destruct (phone_field_cleared p w H2) as [w1 [d1 [E1 [Henv [Hext [Hrnd [Hnotes Htr]]]]]]].
  assert (E2 : type_text p phone_input ph w1
               = (Ok tt, typed_world p phone_input (list_ascii_of_string ph) w1)).
  { apply type_text_typed. rewrite Henv, Hext. exact Hn. }
  destruct (send_code_clicked p (typed_world p phone_input (list_ascii_of_string ph) w1))
    as [w3 [d3 [E3 [Hnotes3 Htr3]]]].
  { unfold typed_world. cbn [env ext_pos set_trace set_rnd_pos set_ext_pos].
    rewrite Henv, Hext. exact H1. }
  exists w3. eexists. split; [ | split; [ exact Htr3 | split ] ].
  - unfold submit_phone, try_except. rewrite bind_assoc3.
    rewrite (bind_ok _ _ _ _ _ E1), (bind_ok _ _ _ _ _ E2), E3. reflexivity.
  - rewrite Htr3. unfold typed_world.
    cbn [trace set_trace set_rnd_pos set_ext_pos env ext_pos rnd_pos calls].
    rewrite calls_app, calls_type_events, Htr, Henv, Hrnd.
    cbn [calls rev]. rewrite rev_app_distr. cbn [rev app].
    rewrite <- !app_assoc. reflexivity.
  - rewrite Hnotes3. unfold typed_world. cbn [notes set_trace set_rnd_pos set_ext_pos].
    exact Hnotes.
Qed.

Lemma wait_for_page_found p timeout_ms w :
  answers_ok (env w) (ext_pos w) 1 = true ->
  exists w1,
    wait_for_page p timeout_ms w = (Ok true, w1)
    /\ env w1 = env w /\ ext_pos w1 = S (ext_pos w) /\ rnd_pos w1 = rnd_pos w
    /\ notes w1 = notes w
    /\ calls (trace w1) = OpWaitFor p phone_input "visible" timeout_ms :: calls (trace w).
Proof.
  intros H. destruct w as [[ex rn st] xp rp sp t b nh ai f n c].
  run. repeat next_step ex; try refute_answer H ex.
  eexists. repeat split; reflexivity.
Qed.

Lemma wait_for_page_not_found p timeout_ms w e :
  ext (env w) (ext_pos w) = Throw e -> is_timeout e = true ->
  exists w1,
    wait_for_page p timeout_ms w = (Ok false, w1)
    /\ calls (trace w1) = OpWaitFor p phone_input "visible" timeout_ms :: calls (trace w).
Proof.
  intros H Ht. destruct w as [[ex rn st] xp rp sp t b nh ai f n c].
  destruct e as [[] name msg]; try discriminate Ht.
  simpl in H. unfold wait_for_page, try_except, bind, ext_call.
  cbn [env ext ext_pos]. rewrite H.
  eexists. split; reflexivity.
Qed.

(** C7: with a phone number, [post_submit] waits 8000 ms for the phone
    input. On a timeout the notes become [phone_input_not_found] and
    nothing else is done on the page. When the input shows up and the
    actions succeed, it is clicked and cleared, the number is typed
    character by character, "Send code" is clicked, and the last thing done
    before the notes are set to the tag returned is the 10-second sleep.
    With the queue ["+15551234567"] and an environment in which everything
    succeeds, the session leaves the header and one row in the output
    file, with that phone number and that tag. *)
Theorem phone_subflow_outcomes cfg ua p data ph :
  phone data = Some ph -> ph <> "" ->
  (forall w e,
      ext (env w) (ext_pos w) = Throw e -> is_timeout e = true ->
      exists w',
        post_submit cfg p data w = (Ok tt, w')
        /\ notes w' = "phone_input_not_found"
        /\ calls (trace w') = OpWaitFor p phone_input "visible" 8000 :: calls (trace w))
  /\ (forall w,
        answers_ok (env w) (ext_pos w) (4 + List.length (list_ascii_of_string ph)) = true ->
        exists w' rest,
          post_submit cfg p data w = (Ok tt, w')
          /\ notes w' = "send_code_clicked_waited_10s"
          /\ trace w' = ESleep 10 :: rest
          /\ calls (trace w')
             = rev (OpWaitFor p phone_input "visible" 8000
                    :: OpClick p phone_input 1200 :: OpFill p phone_input "" 1200
                    :: type_ops p phone_input (list_ascii_of_string ph) (env w) (S (rnd_pos w))
                    ++ [OpClick p (first send_code_button) 3000])
               ++ calls (trace w))
  /\ (let out := session default_config ua ["+15551234567"]
                         (initial_world always_succeeds None) in
      fst out = Ok tt
      /\ fs (snd out)
         = Some [CSV_FIELDS default_config;
                 ["2024-01-01T00:00:00Z"; "+15551234567"; "ada.byron10@gmail.com";
                  "S!!!aaaaaaa1"; "Ada"; "Byron"; "Egypt"; "send_code_clicked_waited_10s"]]).
Proof.
  intros Hph Hne.
  assert (Hpresent : phone_present (phone data) = true).
  { rewrite Hph. simpl. apply negb_true_iff, String.eqb_neq. exact Hne. }
  assert (Hor : phone_or (phone data) "" = ph).
  { rewrite Hph. simpl. apply String.eqb_neq in Hne. rewrite Hne. reflexivity. }
  split; [ | split ].
  - intros w e He Ht.
    destruct (wait_for_page_not_found p 8000 w e He Ht) as [w1 [E1 Hcalls]].
    exists (set_notes "phone_input_not_found" w1).
    unfold post_submit. rewrite Hpresent, (bind_ok _ _ _ _ _ E1).
    split; [reflexivity | ]. split; [reflexivity | exact Hcalls].
  - intros w H.
    replace (4 + List.length (list_ascii_of_string ph))
      with (1 + (2 + (List.length (list_ascii_of_string ph) + 1))) in H by lia.
    rewrite answers_ok_split in H. apply andb_true_iff in H. destruct H as [H1 Hrest].
    destruct (wait_for_page_found p 8000 w H1)
      as [w1 [E1 [Henv [Hext [Hrnd [Hnotes Hcalls]]]]]].
    destruct (submit_phone_sends p ph w1) as [w2 [rest [E2 [Htr [Hcalls2 Hnotes2]]]]].
    { rewrite Henv, Hext. exact Hrest. }
    exists (set_notes "send_code_clicked_waited_10s" w2), rest.
    unfold post_submit. rewrite Hpresent, (bind_ok _ _ _ _ _ E1). cbv beta iota.
    change (negb true) with false. cbv iota.
    rewrite Hor, (bind_ok _ _ _ _ _ E2).
    split; [reflexivity | ]. split; [reflexivity | ]. split; [exact Htr | ].
    cbn [trace set_notes]. rewrite Hcalls2, Hcalls, Henv, Hrnd.
    cbn [rev]. rewrite <- !app_assoc. reflexivity.
  - vm_compute. split; reflexivity.
Qed.

Lemma phone_subflow_outcomes_witness :
  exists w' rest,
    post_submit default_config 2 sample_phone_account (initial_world always_succeeds None)
      = (Ok tt, w')
    /\ notes w' = "send_code_clicked_waited_10s"
    /\ trace w' = ESleep 10 :: rest.
Proof.
  destruct (phone_subflow_outcomes default_config "UA" 2 sample_phone_account
              "+15551234567" eq_refl ltac:(discriminate))
    as [_ [Hsent _]].
  destruct (Hsent (initial_world always_succeeds None) eq_refl)
    as [w' [rest [E [Hnotes [Htr _]]]]].
  exists w', rest. auto.
Defined.

(** ** AccountCreator *)

Lemma written_count t : List.length (written t) = count_writes t.
Proof.
  induction t as [|ev t IH]; simpl; [reflexivity | ].
  destruct ev; simpl; rewrite ?IH; reflexivity.
Qed.

Lemma generate_account_data_total countries phone_number :
  countries <> [] -> never_raises (generate_account_data countries phone_number).
Proof.
  intros H. destruct countries as [|c l]; [congruence | ].
  unfold generate_account_data. total.
Qed.

Lemma generate_account_data_kept countries phone_number :
  stable (keeping batch_frame) (generate_account_data countries phone_number).
Proof. stab. Qed.

Lemma attempt_body_kept cfg ua data :
  stable (keeping batch_frame) (attempt_body cfg ua data).
Proof. stab. Qed.

Lemma attempt_handler_kept cfg e :
  stable (keeping batch_frame) (attempt_handler cfg e).
Proof. stab. Qed.

Lemma write_row_recorded filename fieldnames data w :
  exists w',
    write_row filename fieldnames data w = (Ok tt, w')
    /\ written (trace w') = data :: written (trace w)
    /\ account_index w' = account_index w
    /\ stop_count (trace w') = stop_count (trace w)
    /\ notes w' = notes w /\ context w' = context w /\ browser w' = browser w
    /\ next_handle w' = next_handle w.
Proof.
  destruct w as [[ex rn st] xp rp sp t b nh ai f n c].
  unfold write_row.
  destruct (has_extra_keys fieldnames data) eqn:X;
    run; repeat next_step ex;
    repeat match goal with |- context [is_ioerror ?e] => destruct (is_ioerror e); run end;
    eexists; repeat split; reflexivity.
Qed.

(** The finalizer hands exactly one record to the writer, the outcome
    record with the notes of the moment, and never raises. *)
Lemma attempt_finalizer_records cfg data w :
  exists w',
    attempt_finalizer cfg data w = (Ok tt, w')
    /\ written (trace w') = outcome_record data (notes w) :: written (trace w)
    /\ account_index w' = account_index w
    /\ stop_count (trace w') = stop_count (trace w)
    /\ browser w' = browser w /\ next_handle w' = next_handle w.
Proof.
  unfold attempt_finalizer, output_writer_write_row.
  unfold bind at 1, read at 1. cbv beta iota.
  destruct (write_row_recorded (OUTPUT_CSV cfg) (CSV_FIELDS cfg)
              (outcome_record data (notes w)) w)
    as [w1 [E [Hw [Hi [Hs [Hn [Hc [Hb Hh]]]]]]]].
  rewrite (bind_ok _ _ _ _ _ E). unfold bind at 1, read at 1. cbv beta iota.
  destruct (context w1) as [ch|]; [ destruct (negb (pause_on_success cfg)) | ];
    try (exists w1; repeat split; assumption).
  destruct w1 as [[ex rn st] xp rp sp t b nh ai f n c].
  unfold close_context, try_except, bind, ext_call, log, emit, ret.
  cbn [env ext ext_pos trace] in *.
  destruct (ex xp); eexists; (split; [reflexivity | ]); cbn; repeat split; assumption.
Qed.

Lemma finally_runs {A} (m : M A) (fin : M unit) w w1 r w2 :
  m w = (r, w1) -> fin w1 = (Ok tt, w2) -> finally m fin w = (r, w2).
Proof. intros Em Ef. unfold finally. rewrite Em, Ef. reflexivity. Qed.

(** One attempt: one record, whatever the outcome. *)
Lemma attempt_records cfg ua data w :
  exists n,
    written (trace (snd (attempt cfg ua data w))) = outcome_record data n :: written (trace w)
    /\ account_index (snd (attempt cfg ua data w)) = account_index w
    /\ stop_count (trace (snd (attempt cfg ua data w))) = stop_count (trace w).
Proof.
  unfold attempt.
  destruct (try_except (attempt_body cfg ua data)
              (fun e => attempt_handler cfg e ;; ret true) w) as [r w1] eqn:E.
  assert (Hk : batch_frame w1 = batch_frame w).
  { pose proof (stable_try_except (keeping batch_frame) _ _
                  (attempt_body_kept cfg ua data)
                  (fun e => stable_bind (keeping batch_frame) _ _
                              (attempt_handler_kept cfg e)
                              (fun _ => stable_ret (keeping batch_frame) true)) w) as H.
    rewrite E in H. exact H. }
  unfold batch_frame in Hk. inversion Hk as [[Hi Hw Hs]].
  destruct (attempt_finalizer_records cfg data w1) as [w2 [Ef [Hw2 [Hi2 [Hs2 _]]]]].
  rewrite (finally_runs _ _ _ _ _ _ E Ef). simpl snd.
  exists (notes w1). rewrite Hw2, Hi2, Hs2, Hw, Hi, Hs. auto.
Qed.

Lemma never_raises_not_raise {A} (m : M A) w e w' :
  never_raises m -> m w = (Raise e, w') -> False.
Proof. intros H E. destruct (H w) as [a Ha]. rewrite E in Ha. discriminate. Qed.

Lemma kept_step {A B} (f : World -> B) (m : M A) w r w' :
  stable (keeping f) m -> m w = (r, w') -> f w' = f w.
Proof. intros H E. specialize (H w). rewrite E in H. exact H. Qed.

Lemma run_single_account_unfold cfg ua phone_number :
  run_single_account cfg ua phone_number
  = (modify (fun w => set_account_index (account_index w + 1) w) ;;
     data <- generate_account_data (COUNTRIES cfg) phone_number ;;
     modify (set_notes "init") ;;
     modify (set_context None) ;;
     log INFO "%s Starting signup for %s (Phone: %s)" ;;
     attempt cfg ua data).
Proof. reflexivity. Qed.

Lemma run_single_account_records cfg ua phone_number w r w' :
  COUNTRIES cfg <> [] ->
  run_single_account cfg ua phone_number w = (r, w') ->
  count_writes (trace w') = S (count_writes (trace w))
  /\ account_index w' = S (account_index w)
  /\ stop_count (trace w') = stop_count (trace w).
Proof.
  intros Hc E. rewrite run_single_account_unfold in E.
  apply bind_inv in E. destruct E as [[a [w0 [E0 E]]] | [e [E0 _]]]; [ | discriminate E0 ].
  assert (F0 : batch_frame w0
               = (account_index w + 1, written (trace w), stop_count (trace w))).
  { inversion E0; subst. reflexivity. }
  apply bind_inv in E. destruct E as [[data [w1 [Eg E]]] | [e [Eg _]]];
    [ | exact (False_ind _ (never_raises_not_raise _ _ _ _
                              (generate_account_data_total _ _ Hc) Eg)) ].
  pose proof (kept_step batch_frame _ _ _ _
                (generate_account_data_kept (COUNTRIES cfg) phone_number) Eg) as F1.
  apply bind_inv in E. destruct E as [[a2 [w2 [E2 E]]] | [e [E2 _]]]; [ | discriminate E2 ].
  assert (F2 : batch_frame w2 = batch_frame w1)
    by (eapply kept_step; [ | exact E2 ]; stab).
  apply bind_inv in E. destruct E as [[a3 [w3 [E3 E]]] | [e [E3 _]]]; [ | discriminate E3 ].
  assert (F3 : batch_frame w3 = batch_frame w2)
    by (eapply kept_step; [ | exact E3 ]; stab).
  apply bind_inv in E. destruct E as [[a4 [w4 [E4 E]]] | [e [E4 _]]]; [ | discriminate E4 ].
  assert (F4 : batch_frame w4 = batch_frame w3)
    by (eapply kept_step; [ | exact E4 ]; stab).
  destruct (attempt_records cfg ua data w4) as [n [Hw' [Hi' Hs']]].
  rewrite E in Hw', Hi', Hs'. simpl snd in Hw', Hi', Hs'.
  assert (F : batch_frame w4
              = (account_index w + 1, written (trace w), stop_count (trace w)))
    by congruence.
  unfold batch_frame in F. inversion F as [[Hi Hw Hs]].
  rewrite <- !written_count, Hw', Hi', Hs', Hw, Hi, Hs.
  split; [reflexivity | ]. split; [lia | reflexivity].
Qed.

Lemma run_loop_cons cfg ua ph rest :
  run_loop cfg ua (ph :: rest)
  = (continue_loop <- run_single_account cfg ua (Some ph) ;;
     if negb continue_loop
     then log INFO "Stopping loop (KEEP_BROWSER_OPEN)."
     else jitter_sleep (2 # 10) (6 # 10) ;; run_loop cfg ua rest).
Proof. reflexivity. Qed.

Lemma run_loop_counts cfg ua queue :
  COUNTRIES cfg <> [] ->
  forall w r w',
    run_loop cfg ua queue w = (r, w') ->
    count_writes (trace w') = count_writes (trace w) + (account_index w' - account_index w)
    /\ account_index w <= account_index w' <= account_index w + List.length queue
    /\ (queue <> [] -> account_index w < account_index w')
    /\ stop_count (trace w) <= stop_count (trace w')
    /\ (r = Ok tt -> stop_count (trace w') = stop_count (trace w) ->
        account_index w' = account_index w + List.length queue).
Proof.
  intros Hc. induction queue as [|ph rest IH]; intros w r w' E.
  - inversion E; subst. simpl.
    split; [lia | ]. split; [lia | ]. split; [congruence | ]. split; [lia | ].
    intros; lia.
  - rewrite run_loop_cons in E. apply bind_inv in E.
    destruct E as [[c [w1 [E1 E]]] | [e [E1 Hr]]].
    + destruct (run_single_account_records _ _ _ _ _ _ Hc E1) as [Hw [Hi Hs]].
      destruct c; simpl negb in E; cbv iota in E.
      * apply bind_inv in E.
        destruct E as [[[] [w2 [E2 E]]] | [e [E2 _]]];
          [ | exact (False_ind _ (never_raises_not_raise _ _ _ _ ltac:(total) E2)) ].
        assert (F2 : batch_frame w2 = batch_frame w1)
          by (eapply kept_step; [ | exact E2 ]; stab).
        unfold batch_frame in F2. inversion F2 as [[Hi2 Hw2 Hs2]].
        apply (f_equal (@List.length Dict)) in Hw2. rewrite !written_count in Hw2.
        destruct (IH _ _ _ E) as [Hw' [Hi' [_ [Hs' Hall]]]].
        simpl List.length.
        split; [lia | ]. split; [lia | ]. split; [intros; lia | ]. split; [lia | ].
        intros Hr Hstop. specialize (Hall Hr). lia.
      * inversion E; subst; clear E.
        cbn [trace set_trace count_writes account_index].
        replace (stop_count (ELog INFO "Stopping loop (KEEP_BROWSER_OPEN)." :: trace w1))
          with (S (stop_count (trace w1))) by reflexivity.
        simpl List.length.
        split; [lia | ]. split; [lia | ]. split; [intros; lia | ]. split; [lia | ].
        intros; lia.
    + subst r.
      destruct (run_single_account_records _ _ _ _ _ _ Hc E1) as [Hw [Hi Hs]].
      simpl List.length.
      split; [lia | ]. split; [lia | ]. split; [intros; lia | ]. split; [lia | ].
      intros; discriminate.
Qed.

Lemma run_nil cfg ua :
  run cfg ua []
  = (log INFO "No phone numbers loaded. Running one account without a phone number." ;;
     run_single_account cfg ua None ;;
     ret tt).
Proof. reflexivity. Qed.

Lemma run_cons cfg ua ph rest :
  run cfg ua (ph :: rest)
  = (log INFO "Starting batch job for %d phone numbers." ;;
     run_loop cfg ua (ph :: rest)).
Proof. reflexivity. Qed.

(** C1, as the code has it. Every attempt that is started hands exactly
    one record to the output writer, on every exit path, so a batch writes
    as many records as it ran attempts ([account_index] counts them). An
    empty queue gives one attempt; otherwise there are between one
    attempt and as many as the queue is long, and exactly as many when
    the batch ends normally and was not stopped by the pause on success.
    An exception that escapes an attempt (a failed relaunch of the
    browser) ends the batch early, after that attempt's record. *)
Theorem one_record_per_attempt cfg ua queue w :
  COUNTRIES cfg <> [] ->
  let out := run cfg ua queue w in
  let attempts := account_index (snd out) - account_index w in
  count_writes (trace (snd out)) = count_writes (trace w) + attempts
  /\ 1 <= attempts <= Nat.max 1 (List.length queue)
  /\ (queue = [] -> attempts = 1)
  /\ (queue <> [] -> fst out = Ok tt ->
      stop_count (trace (snd out)) = stop_count (trace w) ->
      attempts = List.length queue).
Proof.
  intros Hc. cbv zeta. destruct (run cfg ua queue w) as [r w'] eqn:E.
  simpl fst. simpl snd. destruct queue as [|ph rest].
  - rewrite run_nil in E. apply bind_inv in E.
    destruct E as [[a [w0 [E0 E]]] | [e [E0 _]]]; [ | discriminate E0 ].
    assert (F0 : batch_frame w0 = batch_frame w)
      by (eapply kept_step; [ | exact E0 ]; stab).
    unfold batch_frame in F0. inversion F0 as [[Hi0 Hw0 Hs0]].
    apply (f_equal (@List.length Dict)) in Hw0. rewrite !written_count in Hw0.
    apply bind_inv in E. destruct E as [[c [w1 [E1 E]]] | [e [E1 Hr]]].
    + inversion E; subst; clear E.
      destruct (run_single_account_records _ _ _ _ _ _ Hc E1) as [Hw [Hi Hs]].
      simpl. split; [lia | ]. split; [lia | ]. split; [intros; lia | congruence].
    + destruct (run_single_account_records _ _ _ _ _ _ Hc E1) as [Hw [Hi Hs]].
      simpl. split; [lia | ]. split; [lia | ]. split; [intros; lia | congruence].
  - rewrite run_cons in E. apply bind_inv in E.
    destruct E as [[a [w0 [E0 E]]] | [e [E0 _]]]; [ | discriminate E0 ].
    assert (F0 : batch_frame w0 = batch_frame w)
      by (eapply kept_step; [ | exact E0 ]; stab).
    unfold batch_frame in F0. inversion F0 as [[Hi0 Hw0 Hs0]].
    apply (f_equal (@List.length Dict)) in Hw0. rewrite !written_count in Hw0.
    destruct (run_loop_counts cfg ua (ph :: rest) Hc _ _ _ E)
      as [Hw [Hi [Hpos [Hs Hall]]]].
    specialize (Hpos ltac:(discriminate)). simpl List.length in *.
    split; [lia | ]. split; [lia | ]. split; [intros; discriminate | ].
    intros _ Hr Hstop. specialize (Hall Hr). lia.
Qed.

Lemma one_record_per_attempt_witness :
  let out := run default_config "UA" ["+15551234567"] browser_ready in
  count_writes (trace (snd out))
  = count_writes (trace browser_ready)
    + (account_index (snd out) - account_index browser_ready).
Proof.
  exact (proj1 (one_record_per_attempt default_config "UA" ["+15551234567"] browser_ready
                  ltac:(discriminate))).
Defined.

(** The claim as stated fails: with a queue of two numbers and the pause
    on success off, the batch that loses its browser and cannot launch it
    again writes one record, not two. *)
Lemma fewer_records_than_queue :
  let queue := ["+15551234567"; "+15557654321"] in
  let out := run default_config "UA" queue relaunch_fails in
  pause_on_success default_config = false
  /\ stop_count (trace (snd out)) = 0
  /\ fst out = Raise launch_error
  /\ count_writes (trace (snd out)) = 1
  /\ count_writes (trace (snd out)) <> List.length queue.
Proof. vm_compute. repeat split. discriminate. Qed.

(** *** The notes of an attempt *)

Lemma new_context_notes cfg ua : stable (keeping notes_frame) (new_context cfg ua).
Proof. stab. Qed.

Lemma navigate_notes cfg p : stable (keeping notes_frame) (navigate cfg p).
Proof. stab. Qed.

Lemma navigate_total cfg p : never_raises (navigate cfg p).
Proof. total. Qed.

Lemma fill_form_notes cfg p data : stable (keeping notes_frame) (fill_form cfg p data).
Proof. stab. Qed.

Lemma fill_form_total cfg p data : never_raises (fill_form cfg p data).
Proof. total. Qed.

Lemma submit_form_notes p : stable (keeping notes_frame) (submit_form p).
Proof. stab. Qed.

Lemma submit_form_total p : never_raises (submit_form p).
Proof. total. Qed.

Lemma wait_for_page_notes p t : stable (keeping notes_frame) (wait_for_page p t).
Proof. stab. Qed.

Lemma submit_phone_notes p ph : stable (keeping notes_frame) (submit_phone p ph).
Proof. stab. Qed.

Lemma submit_phone_total p ph : never_raises (submit_phone p ph).
Proof. total. Qed.

Ltac bind_ok_in E :=
  apply bind_inv in E;
  let a := fresh "a" in let w := fresh "w" in let E' := fresh "E" in
  destruct E as [[a [w [E' E]]] | [? [E' ?]]]; [ | discriminate ].

(** The status [submit_phone] returns. *)
Lemma submit_phone_status p ph w s w' :
  submit_phone p ph w = (Ok s, w') ->
  s = "send_code_clicked_waited_10s" \/ exists type_name, s = ("phone_step_exception:" ++ type_name)%string.
Proof.
  unfold submit_phone, try_except.
  match goal with |- context [match ?m w with _ => _ end] => destruct (m w) as [[s0|e] w1] eqn:E end.
  - intros H. inversion H; subst; clear H. left.
    do 8 bind_ok_in E. inversion E. reflexivity.
  - intros H. right. exists (exn_name e).
    unfold bind, log, emit, ret in H. inversion H. reflexivity.
Qed.

Ltac solve_post_tag :=
  first [ left; simpl; tauto
        | right; left; eexists; reflexivity
        | right; right; eexists; reflexivity ].

Ltac run_page :=
  lazy -[uniform_of randint_of choice_of Qplus inject_Z is_ioerror is_timeout
         contains lower before String.eqb as_str append post_submit_tag notes_frame].

Lemma post_submit_notes cfg p data w r w' :
  post_submit cfg p data w = (r, w') ->
  match r with
  | Ok _ => post_submit_tag (notes w')
  | Raise _ => notes_frame w' = notes_frame w
  end.
Proof.
  unfold post_submit. destruct (phone_present (phone data)).
  - intros E. apply bind_inv in E.
    destruct E as [[found [w1 [E1 E]]] | [e [E1 Hr]]].
    + destruct found; simpl negb in E; cbv iota in E.
      * apply bind_inv in E.
        destruct E as [[s [w2 [E2 E]]] | [e [E2 _]]];
          [ | exact (False_ind _ (never_raises_not_raise _ _ _ _
                                    (submit_phone_total _ _) E2)) ].
        inversion E; subst; clear E. cbn [notes set_notes].
        destruct (submit_phone_status _ _ _ _ _ E2) as [Hs | [t Hs]]; subst s.
        -- left. simpl. tauto.
        -- right. right. exists t. reflexivity.
      * inversion E; subst; clear E. left. simpl. tauto.
    + subst r. exact (kept_step notes_frame _ _ _ _ (wait_for_page_notes p 8000) E1).
  - destruct w as [[ex rn st] xp rp sp t b nh ai f n c].
    run_page.
    repeat match goal with
           | |- context [match ex ?n with _ => _ end] => destruct (ex n); run_page
           | |- context [contains ?a ?b] => destruct (contains a b); run_page
           | |- context [String.eqb ?a ?b] => destruct (String.eqb a b); run_page
           end.
    all: intros H; inversion H; subst; clear H; try reflexivity; solve_post_tag.
Qed.

Lemma attempt_body_unfold cfg ua data :
  attempt_body cfg ua data
  = (c <- new_context cfg ua ;;
     modify (set_context (Some c)) ;;
     ext_call (OpNewPage c) ;;
     p <- fresh_handle ;;
     loaded <- navigate cfg p ;;
     if negb loaded
     then modify (set_notes "nav_failed") ;; raise (Exception "NavigationFailed")
     else after_navigation cfg p data).
Proof. reflexivity. Qed.

Lemma after_navigation_unfold cfg p data :
  after_navigation cfg p data
  = (filled <- fill_form cfg p data ;;
     if negb filled
     then modify (set_notes "form_fill_failed") ;; raise (Exception "FormFillFailed")
     else
       submitted <- submit_form p ;;
       if negb submitted
       then modify (set_notes "submit_failed") ;; raise (Exception "SubmitFailed")
       else after_submit cfg p data).
Proof. reflexivity. Qed.

Lemma after_submit_unfold cfg p data :
  after_submit cfg p data
  = (post_submit cfg p data ;;
     log INFO "%s Finished signup for %s - Notes: %s" ;;
     if pause_on_success cfg
     then
       log WARNING "%s KEEP_BROWSER_OPEN is True. Pausing execution." ;;
       emit (EPrint "--- Paused for {data.email}. Press Enter in console to continue... ---") ;;
       input ;;
       ret false
     else ret true).
Proof. reflexivity. Qed.

Lemma notes_kept {A} (m : M A) w r w' :
  stable (keeping notes_frame) m -> m w = (r, w') -> notes w' = notes w.
Proof.
  intros H E. pose proof (kept_step notes_frame m w r w' H E) as F.
  unfold notes_frame in F. inversion F. reflexivity.
Qed.

Lemma input_outcome w r w' :
  input w = (r, w') -> notes w' = notes w /\ (r = Ok tt \/ r = Raise EOFError).
Proof.
  destruct w as [[ex rn st] xp rp sp t b nh ai f n c].
  run. destruct (ex xp); run; intros H; inversion H; subst; auto.
Qed.

Lemma after_submit_notes cfg p data w r w' :
  notes w = "init" ->
  after_submit cfg p data w = (r, w') ->
  match r with
  | Ok _ => post_submit_tag (notes w')
  | Raise e => notes w' = "init" \/ (post_submit_tag (notes w') /\ e = EOFError)
  end.
Proof.
  intros Hn E. rewrite after_submit_unfold in E. apply bind_inv in E.
  destruct E as [[a [w1 [E1 E]]] | [e [E1 Hr]]].
  - pose proof (post_submit_notes _ _ _ _ _ _ E1) as Htag. cbv iota in Htag.
    apply bind_inv in E. destruct E as [[a2 [w2 [E2 E]]] | [e [E2 _]]]; [ | discriminate E2 ].
    assert (H2 : notes w2 = notes w1) by (eapply notes_kept; [ | exact E2 ]; stab).
    destruct (pause_on_success cfg).
    + apply bind_inv in E. destruct E as [[a3 [w3 [E3 E]]] | [e [E3 _]]]; [ | discriminate E3 ].
      assert (H3 : notes w3 = notes w2) by (eapply notes_kept; [ | exact E3 ]; stab).
      apply bind_inv in E. destruct E as [[a4 [w4 [E4 E]]] | [e [E4 _]]]; [ | discriminate E4 ].
      assert (H4 : notes w4 = notes w3) by (eapply notes_kept; [ | exact E4 ]; stab).
      apply bind_inv in E. destruct E as [[a5 [w5 [E5 E]]] | [e [E5 Hr]]].
      * destruct (input_outcome _ _ _ E5) as [H5 _].
        inversion E; subst; clear E. rewrite H5, H4, H3, H2. exact Htag.
      * destruct (input_outcome _ _ _ E5) as [H5 [Hok | Hraise]]; [discriminate Hok | ].
        subst r. inversion Hraise; subst. right. rewrite H5, H4, H3, H2. auto.
    + inversion E; subst; clear E. rewrite H2. exact Htag.
  - subst r. pose proof (post_submit_notes _ _ _ _ _ _ E1) as Hk. cbv iota in Hk.
    unfold notes_frame in Hk. injection Hk as _ Hnotes _. left. congruence.
Qed.

Lemma after_navigation_notes cfg p data w r w' :
  notes w = "init" ->
  after_navigation cfg p data w = (r, w') ->
  match r with
  | Ok _ => post_submit_tag (notes w')
  | Raise e => notes w' = "init" \/ stage_failure (notes w') e
               \/ (post_submit_tag (notes w') /\ e = EOFError)
  end.
Proof.
  intros Hn E. rewrite after_navigation_unfold in E. apply bind_inv in E.
  destruct E as [[filled [w1 [E1 E]]] | [e [E1 _]]];
    [ | exact (False_ind _ (never_raises_not_raise _ _ _ _ (fill_form_total _ _ _) E1)) ].
  pose proof (notes_kept _ _ _ _ (fill_form_notes cfg p data) E1) as H1.
  destruct filled; simpl negb in E; cbv iota in E.
  - apply bind_inv in E.
    destruct E as [[submitted [w2 [E2 E]]] | [e [E2 _]]];
      [ | exact (False_ind _ (never_raises_not_raise _ _ _ _ (submit_form_total _) E2)) ].
    pose proof (notes_kept _ _ _ _ (submit_form_notes p) E2) as H2.
    destruct submitted; simpl negb in E; cbv iota in E.
    + pose proof (after_submit_notes cfg p data w2 r w' ltac:(congruence) E) as H.
      destruct r; [exact H | ]. destruct H as [H | H]; auto.
    + inversion E; subst; clear E. right. left. right. right. split; reflexivity.
  - inversion E; subst; clear E. right. left. right. left. split; reflexivity.
Qed.

(** What the notes are when the body of an attempt ends: a post-submit
    tag when it returns; when it raises, still the placeholder, or the tag
    of the failed stage with the exception of that stage, or a post-submit
    tag when [input()] raised after the classification. *)
Lemma attempt_body_notes cfg ua data w r w' :
  notes w = "init" ->
  attempt_body cfg ua data w = (r, w') ->
  match r with
  | Ok _ => post_submit_tag (notes w')
  | Raise e => notes w' = "init" \/ stage_failure (notes w') e
               \/ (post_submit_tag (notes w') /\ e = EOFError)
  end.
Proof.
  intros Hn E. rewrite attempt_body_unfold in E. apply bind_inv in E.
  destruct E as [[c [w1 [E1 E]]] | [e [E1 Hr]]].
  - pose proof (notes_kept _ _ _ _ (new_context_notes cfg ua) E1) as H1.
    apply bind_inv in E. destruct E as [[a2 [w2 [E2 E]]] | [e [E2 _]]]; [ | discriminate E2 ].
    assert (H2 : notes w2 = notes w1) by (eapply notes_kept; [ | exact E2 ]; stab).
    apply bind_inv in E. destruct E as [[a3 [w3 [E3 E]]] | [e [E3 Hr]]].
    + assert (H3 : notes w3 = notes w2) by (eapply notes_kept; [ | exact E3 ]; stab).
      apply bind_inv in E. destruct E as [[p [w4 [E4 E]]] | [e [E4 _]]]; [ | discriminate E4 ].
      assert (H4 : notes w4 = notes w3) by (eapply notes_kept; [ | exact E4 ]; stab).
      apply bind_inv in E.
      destruct E as [[loaded [w5 [E5 E]]] | [e [E5 _]]];
        [ | exact (False_ind _ (never_raises_not_raise _ _ _ _ (navigate_total _ _) E5)) ].
      pose proof (notes_kept _ _ _ _ (navigate_notes cfg p) E5) as H5.
      destruct loaded; simpl negb in E; cbv iota in E.
      * exact (after_navigation_notes cfg p data w5 r w' ltac:(congruence) E).
      * inversion E; subst; clear E. right. left. left. split; reflexivity.
    + subst r. left.
      assert (H3 : notes w' = notes w2) by (eapply notes_kept; [ | exact E3 ]; stab).
      congruence.
  - subst r. left. pose proof (notes_kept _ _ _ _ (new_context_notes cfg ua) E1). congruence.
Qed.

(** The handler on a browser-closed exception raised before any notes
    were set: the browser, if any, is closed, [launch] is called, and
    the notes are fixed up only when the launch returns. *)
Lemma handler_relaunches cfg e w1 :
  browser_closed e = true -> notes w1 = "init" ->
  exists r w2,
    (attempt_handler cfg e ;; ret true) w1 = (r, w2)
    /\ launch_count (trace w2) = S (launch_count (trace w1))
    /\ (forall b, browser w1 = Some b -> In (OpBrowserClose b) (calls (trace w2)))
    /\ written (trace w2) = written (trace w1)
    /\ account_index w2 = account_index w1
    /\ (if is_throw (relaunch_answer w1)
        then r = Raise (thrown (relaunch_answer w1))
        else r = Ok true /\ notes w2 = ("flow_exception:" ++ exn_name e)%string
             /\ browser w2 = Some (next_handle w1)).
Proof.
  intros Hc Hn. destruct w1 as [[ex rn st] xp rp sp t b nh ai f n c].
  simpl in Hn. subst n. unfold attempt_handler. rewrite Hc.
  destruct b as [bh|]; run; repeat next_step ex;
    (eexists _, _; split; [reflexivity | ]);
    (split; [reflexivity | ]);
    (split; [ intros b0 Hb; first [discriminate Hb | inversion Hb; subst; simpl; auto] | ]);
    (split; [reflexivity | ]); (split; [reflexivity | ]);
    repeat split; reflexivity.
Qed.

Lemma attempt_handler_unfold cfg e :
  (attempt_handler cfg e ;; ret true)
  = ((if browser_closed e
      then
        log ERROR "%s Critical Playwright error: %s. Relaunching browser." ;;
        shutdown ;;
        launch cfg
      else log ERROR "%s Unhandled exception in flow for %s: %s") ;;
     n <- read notes ;;
     when (String.eqb n "init")
          (modify (set_notes ("flow_exception:" ++ exn_name e)%string))) ;;
    ret true.
Proof. reflexivity. Qed.

(** When the handler returns, the notes are the tag of the exception if
    they were still the placeholder, and what they were otherwise. *)
Lemma handler_notes cfg e w1 b w2 :
  (attempt_handler cfg e ;; ret true) w1 = (Ok b, w2) ->
  notes w2 = if String.eqb (notes w1) "init"
             then ("flow_exception:" ++ exn_name e)%string else notes w1.
Proof.
  intros E. rewrite attempt_handler_unfold in E.
  apply bind_inv in E. destruct E as [[a [w3 [E3 E]]] | [e0 [_ Hr]]]; [ | discriminate Hr ].
  inversion E; subst; clear E.
  apply bind_inv in E3. destruct E3 as [[a1 [w4 [E4 E]]] | [e0 [_ Hr]]]; [ | discriminate Hr ].
  assert (H4 : notes w4 = notes w1) by (eapply notes_kept; [ | exact E4 ]; stab).
  unfold bind, read, when in E. rewrite H4 in E.
  destruct (String.eqb (notes w1) "init"); inversion E; subst; simpl; congruence.
Qed.

Lemma finally_inv {A} (m : M A) (fin : M unit) w r w' :
  never_raises fin ->
  finally m fin w = (r, w') ->
  exists w1, m w = (r, w1) /\ fin w1 = (Ok tt, w').
Proof.
  intros Hf E. unfold finally in E. destruct (m w) as [r0 w1].
  destruct (never_raises_ok fin w1 Hf) as [[] Ef]. rewrite Ef in E.
  inversion E; subst. exists w1. split; [reflexivity | exact Ef].
Qed.

Lemma attempt_unfold cfg ua data :
  attempt cfg ua data
  = finally
      (try_except (attempt_body cfg ua data) (fun e => attempt_handler cfg e ;; ret true))
      (attempt_finalizer cfg data).
Proof. reflexivity. Qed.

Lemma attempt_finalizer_total cfg data : never_raises (attempt_finalizer cfg data).
Proof. unfold attempt_finalizer, output_writer_write_row, write_row. total. Qed.

Lemma post_submit_tag_not_init n : post_submit_tag n -> String.eqb n "init" = false.
Proof.
  intros [H | [[u H] | [t H]]].
  - simpl in H. decompose [or] H; subst; try reflexivity. contradiction.
  - subst. reflexivity.
  - subst. reflexivity.
Qed.

(** The part of C2 that holds: an attempt that returns leaves in its
    record one of the tags of the specification, never the placeholder. *)
Lemma attempt_notes_tagged cfg ua data w b w' :
  notes w = "init" ->
  attempt cfg ua data w = (Ok b, w') ->
  exists n,
    written (trace w') = outcome_record data n :: written (trace w) /\ outcome_tag n.
Proof.
  intros Hn E. rewrite attempt_unfold in E.
  destruct (finally_inv _ _ _ _ _ (attempt_finalizer_total cfg data) E) as [w1 [Et Ef]].
  destruct (attempt_finalizer_records cfg data w1) as [w2 [Ef' [Hw2 _]]].
  rewrite Ef in Ef'. inversion Ef'; subst w2; clear Ef'.
  exists (notes w1). unfold try_except in Et.
  destruct (attempt_body cfg ua data w) as [[b0|e] wb] eqn:Eb.
  - inversion Et; subst; clear Et.
    pose proof (attempt_body_notes _ _ _ _ _ _ Hn Eb) as Htag. cbv iota in Htag.
    pose proof (kept_step batch_frame _ _ _ _ (attempt_body_kept cfg ua data) Eb) as Hk.
    unfold batch_frame in Hk. injection Hk as _ Hw _.
    split; [ congruence | right; left; exact Htag ].
  - pose proof (attempt_body_notes _ _ _ _ _ _ Hn Eb) as Htag. cbv iota in Htag.
    pose proof (kept_step batch_frame _ _ _ _ (attempt_body_kept cfg ua data) Eb) as Hk.
    unfold batch_frame in Hk. injection Hk as _ Hw _.
    pose proof (handler_notes _ _ _ _ _ Et) as Hnotes.
    assert (Hkh : batch_frame w1 = batch_frame wb).
    { eapply kept_step; [ | exact Et ].
      apply stable_bind; [ typeclasses eauto | apply attempt_handler_kept | intro; stab ]. }
    unfold batch_frame in Hkh. injection Hkh as _ Hwh _.
    split; [ congruence | ].
    destruct Htag as [Hi | [Hs | [Hp He]]].
    + rewrite Hi in Hnotes. simpl in Hnotes. right. right. eexists. exact Hnotes.
    + destruct Hs as [[Hs _] | [[Hs _] | [Hs _]]]; rewrite Hs in Hnotes; simpl in Hnotes;
        left; rewrite Hnotes; simpl; tauto.
    + rewrite (post_submit_tag_not_init _ Hp) in Hnotes. right. left. congruence.
Qed.

Lemma attempt_finalizer_manager cfg data :
  stable (keeping manager_state) (attempt_finalizer cfg data).
Proof. unfold attempt_finalizer, output_writer_write_row, write_row. stab. Qed.

Lemma attempt_finalizer_extends cfg data : stable extends (attempt_finalizer cfg data).
Proof. unfold attempt_finalizer, output_writer_write_row, write_row. stab. Qed.

Lemma extends_calls w w' op : extends w w' -> In op (calls (trace w)) -> In op (calls (trace w')).
Proof.
  intros [evs H] Hin. rewrite H, calls_app. apply in_or_app. right. exact Hin.
Qed.

Lemma stage_exceptions_not_closed n e : stage_failure n e -> browser_closed e = false.
Proof. intros [[_ H] | [[_ H] | [_ H]]]; subst; reflexivity. Qed.

(** C4, as the code has it: when the exception that reaches the handler
    of an attempt says that the browser was closed, the browser is shut
    down and [launch] is called before the attempt ends, and the outcome
    record is written in every case. When the launch returns, the attempt
    returns True for the batch to go on, the record carries the
    [flow_exception] tag of the exception and the manager holds the new
    browser; when the launch raises, its exception leaves the attempt. *)
Theorem browser_closed_recovery cfg ua data w e w1 :
  notes w = "init" ->
  attempt_body cfg ua data w = (Raise e, w1) ->
  browser_closed e = true ->
  let out := attempt cfg ua data w in
  launch_count (trace (snd out)) = S (launch_count (trace w1))
  /\ (forall b, browser w1 = Some b -> In (OpBrowserClose b) (calls (trace (snd out))))
  /\ count_writes (trace (snd out)) = S (count_writes (trace w))
  /\ (is_throw (relaunch_answer w1) = false ->
      fst out = Ok true
      /\ written (trace (snd out))
         = outcome_record data ("flow_exception:" ++ exn_name e)%string :: written (trace w)
      /\ browser (snd out) = Some (next_handle w1))
  /\ (is_throw (relaunch_answer w1) = true ->
      fst out = Raise (thrown (relaunch_answer w1))).
Proof.
  intros Hn Eb Hc. cbv zeta.
  assert (Hinit : notes w1 = "init").
  { pose proof (attempt_body_notes _ _ _ _ _ _ Hn Eb) as H. cbv iota in H.
    destruct H as [H | [H | [_ H]]]; [ exact H | | ].
    - rewrite (stage_exceptions_not_closed _ _ H) in Hc. discriminate.
    - subst e. discriminate Hc. }
  destruct (handler_relaunches cfg e w1 Hc Hinit)
    as [r [w2 [Eh [Hl [Hclose [Hw [Hi Hout]]]]]]].
  destruct (attempt_finalizer_records cfg data w2) as [w3 [Ef [Hw3 _]]].
  pose proof (kept_step manager_state _ _ _ _ (attempt_finalizer_manager cfg data) Ef) as Hm.
  unfold manager_state in Hm. injection Hm as Hl3 Hb3.
  pose proof (attempt_finalizer_extends cfg data w2) as Hext. rewrite Ef in Hext.
  simpl snd in Hext.
  pose proof (kept_step batch_frame _ _ _ _ (attempt_body_kept cfg ua data) Eb) as Hk.
  unfold batch_frame in Hk. injection Hk as _ Hwb _.
  assert (E : attempt cfg ua data w = (r, w3)).
  { rewrite attempt_unfold. apply finally_runs with (w1 := w2); [ | exact Ef ].
    rewrite (try_except_raise _ _ _ _ _ Eb). exact Eh. }
  rewrite E. simpl fst. simpl snd.
  split; [ congruence | ]. split; [ | split ].
  - intros b Hb. apply (extends_calls _ _ _ Hext). exact (Hclose b Hb).
  - rewrite <- !written_count, Hw3, Hw, Hwb. reflexivity.
  - split; intros Hr; rewrite Hr in Hout.
    + destruct Hout as [Hok [Hnotes Hbr]]. split; [exact Hok | ].
      split; [ rewrite Hw3, Hnotes, Hw, Hwb; reflexivity | congruence ].
    + exact Hout.
Qed.

Lemma browser_closed_recovery_witness :
  let w1 := snd (attempt_body default_config "UA" sample_phone_account relaunch_succeeds) in
  let out := attempt default_config "UA" sample_phone_account relaunch_succeeds in
  is_throw (relaunch_answer w1) = false
  /\ fst out = Ok true
  /\ written (trace (snd out))
     = outcome_record sample_phone_account ("flow_exception:" ++ exn_name closed_error)%string
       :: written (trace relaunch_succeeds)
  /\ browser (snd out) = Some (next_handle w1).
Proof.
  cbv zeta.
  assert (Ht : is_throw (relaunch_answer
                 (snd (attempt_body default_config "UA" sample_phone_account
                                    relaunch_succeeds))) = false)
    by (vm_compute; reflexivity).
  split; [ exact Ht | ].
  refine (proj1 (proj2 (proj2 (proj2
    (browser_closed_recovery default_config "UA" sample_phone_account
       relaunch_succeeds closed_error
       (snd (attempt_body default_config "UA" sample_phone_account relaunch_succeeds))
       _ _ _)))) Ht).
  - reflexivity.
  - vm_compute. reflexivity.
  - reflexivity.
Defined.

(** The claim as stated fails: the three page loads raise "Target closed",
    [robust_goto] swallows them, and the attempt ends with [nav_failed]
    and without any shutdown or launch of the browser. *)
Lemma closed_while_loading_not_relaunched :
  let out := run_single_account default_config "UA" (Some "+15551234567")
                                closed_while_loading in
  fst out = Ok true
  /\ In (ECall (OpGoto 2 (SIGNUP_URL default_config) 45000) (Throw closed_error))
        (trace (snd out))
  /\ browser_closed closed_error = true
  /\ launch_count (trace (snd out)) = 0
  /\ ~ In (OpBrowserClose 0) (calls (trace (snd out)))
  /\ map (lookup "notes") (written (trace (snd out))) = [Some "nav_failed"].
Proof.
  vm_compute.
  split; [reflexivity | ]. split; [ | split; [reflexivity | split; [reflexivity | split] ] ].
  - repeat first [ left; reflexivity | right ].
  - intros H. repeat (destruct H as [H | H]; [ discriminate H | ]). exact H.
  - reflexivity.
Qed.

(** C2, at the world [relaunch_fails]: [new_page] raises "Target closed"
    before any notes are set, the handler calls [launch], which raises,
    so the fix-up of the notes that follows is skipped; the finalizer
    writes the record with the placeholder "init". *)
Theorem placeholder_notes_persisted :
  let out := run_single_account default_config "UA" (Some "+15551234567") relaunch_fails in
  fst out = Raise launch_error
  /\ map (lookup "notes") (written (trace (snd out))) = [Some "init"]
  /\ fs (snd out)
     = Some [CSV_FIELDS default_config;
             ["2024-01-01T00:00:00Z"; "+15551234567"; "ada.byron10@gmail.com";
              "S!!!aaaaaaa1"; "Ada"; "Byron"; "Egypt"; "init"]]
  /\ ~ outcome_tag "init".
Proof.
  split; [ vm_compute; reflexivity | ]. split; [ vm_compute; reflexivity | ].
  split; [ vm_compute; reflexivity | ].
  intros [H | [[H | [[u H] | [t H]]] | [t H]]]; simpl in H;
    try discriminate H; decompose [or] H; try discriminate; contradiction.
Qed.

(** ** read_numbers_file *)

Lemma rstrip_keeps_head c rest :
  is_space c = false -> rstrip (String c rest) = String c (rstrip rest).
Proof. intros H. simpl. rewrite H. destruct (rstrip rest); reflexivity. Qed.

Lemma rstrip_idempotent s : rstrip (rstrip s) = rstrip s.
Proof.
  induction s as [|c rest IH]; [reflexivity | ].
  simpl. destruct (rstrip rest) as [|d kept] eqn:E.
  - destruct (is_space c) eqn:Hc; [reflexivity | ]. simpl. rewrite Hc. reflexivity.
  - change (rstrip (String c (String d kept)))
      with (match rstrip (String d kept) with
            | EmptyString => if is_space c then EmptyString else String c EmptyString
            | k => String c k
            end).
    rewrite IH. reflexivity.
Qed.

Lemma lstrip_head s :
  lstrip s = EmptyString \/ exists c rest, lstrip s = String c rest /\ is_space c = false.
Proof.
  induction s as [|c rest IH]; [left; reflexivity | ].
  simpl. destruct (is_space c) eqn:Hc; [exact IH | right; eauto].
Qed.

Lemma strip_idempotent s : strip (strip s) = strip s.
Proof.
  unfold strip. destruct (lstrip_head s) as [E | [c [rest [E Hc]]]]; rewrite E.
  - reflexivity.
  - rewrite (rstrip_keeps_head _ _ Hc). simpl lstrip. rewrite Hc.
    rewrite <- (rstrip_keeps_head _ _ Hc). apply rstrip_idempotent.
Qed.

Lemma chars_app a b :
  list_ascii_of_string (a ++ b)%string = list_ascii_of_string a ++ list_ascii_of_string b.
Proof. induction a as [|c a IH]; simpl; [reflexivity | rewrite IH; reflexivity]. Qed.

Lemma lstrip_chars s c : In c (list_ascii_of_string (lstrip s)) -> In c (list_ascii_of_string s).
Proof.
  induction s as [|d rest IH]; simpl; [auto | ].
  destruct (is_space d); simpl; auto.
Qed.

Lemma rstrip_chars s c : In c (list_ascii_of_string (rstrip s)) -> In c (list_ascii_of_string s).
Proof.
  revert c. induction s as [|d rest IH]; intros c; simpl; [auto | ].
  destruct (rstrip rest) as [|e kept].
  - destruct (is_space d); simpl; tauto.
  - intros [H | H]; [left; exact H | right; apply IH; exact H].
Qed.

Lemma strip_chars s c : In c (list_ascii_of_string (strip s)) -> In c (list_ascii_of_string s).
Proof. intros H. apply lstrip_chars, rstrip_chars. exact H. Qed.

Lemma rstrip_line_end s : rstrip (s ++ String newline EmptyString)%string = rstrip s.
Proof.
  induction s as [|c rest IH]; [reflexivity | ].
  change (rstrip (String c rest ++ String newline EmptyString)%string)
    with (match rstrip (rest ++ String newline EmptyString)%string with
          | EmptyString => if is_space c then EmptyString else String c EmptyString
          | k => String c k
          end).
  rewrite IH. reflexivity.
Qed.

Lemma lstrip_line_end s :
  lstrip (s ++ String newline EmptyString)%string = (lstrip s ++ String newline EmptyString)%string
  \/ (lstrip (s ++ String newline EmptyString)%string = EmptyString /\ lstrip s = EmptyString).
Proof.
  induction s as [|c rest IH]; [right; split; reflexivity | ].
  simpl. destruct (is_space c); [exact IH | left; reflexivity].
Qed.

Lemma strip_line_end s : strip (s ++ String newline EmptyString)%string = strip s.
Proof.
  unfold strip. destruct (lstrip_line_end s) as [E | [E E']].
  - rewrite E. apply rstrip_line_end.
  - rewrite E, E'. reflexivity.
Qed.

(** A line of a text is free of line ends, apart from the one that may
    close it. *)
Lemma file_lines_shape text :
  Forall (fun line =>
            exists body, ~ In newline (list_ascii_of_string body)
                         /\ (line = body \/ line = (body ++ String newline EmptyString)%string))
         (file_lines text).
Proof.
  induction text as [|c rest IH]; [constructor | ].
  simpl. destruct (Ascii.eqb c newline) eqn:Hc.
  - constructor; [ | exact IH ]. apply Ascii.eqb_eq in Hc. subst c.
    exists EmptyString. split; [simpl; tauto | right; reflexivity].
  - apply Ascii.eqb_neq in Hc. destruct (file_lines rest) as [|line others].
    + constructor; [ | constructor ]. exists (String c EmptyString). split; [ | left; reflexivity ].
      simpl. intros [H | []]. congruence.
    + inversion IH as [|? ? [body [Hb Hl]] Hrest]; subst. constructor; [ | exact Hrest ].
      exists (String c body). split.
      * simpl. intros [H | H]; [congruence | tauto].
      * destruct Hl as [-> | ->]; [left | right]; reflexivity.
Qed.

Lemma nonempty_true s : nonempty s = true <-> s <> "".
Proof.
  unfold nonempty. rewrite negb_true_iff. split.
  - intros H. apply String.eqb_neq. exact H.
  - intros H. apply String.eqb_neq. exact H.
Qed.

Lemma stripped_lines_clean text : Forall clean_number (stripped_lines text).
Proof.
  unfold stripped_lines. apply Forall_map. apply Forall_forall.
  intros line Hin. apply filter_In in Hin. destruct Hin as [Hin Hne].
  pose proof (file_lines_shape text) as Hshape. rewrite Forall_forall in Hshape.
  destruct (Hshape line Hin) as [body [Hb Hl]].
  split; [ apply nonempty_true; exact Hne | split; [ apply strip_idempotent | ] ].
  intros Hnl. apply Hb.
  destruct Hl as [-> | ->].
  - apply strip_chars. exact Hnl.
  - rewrite strip_line_end in Hnl. apply strip_chars. exact Hnl.
Qed.

Lemma file_lines_unlines x rest :
  ~ In newline (list_ascii_of_string x) ->
  file_lines (x ++ String newline rest)%string = (x ++ String newline EmptyString)%string :: file_lines rest.
Proof.
  induction x as [|c x IH]; intros Hx.
  - simpl. reflexivity.
  - simpl in Hx.
    assert (Hc : Ascii.eqb c newline = false) by (apply Ascii.eqb_neq; intros E; apply Hx; auto).
    change (file_lines (String c x ++ String newline rest)%string)
      with (if Ascii.eqb c newline then String c EmptyString :: file_lines (x ++ String newline rest)%string
            else match file_lines (x ++ String newline rest)%string with
                 | [] => [String c EmptyString]
                 | line :: others => String c line :: others
                 end).
    rewrite Hc, IH by tauto. reflexivity.
Qed.

Lemma stripped_lines_unlines numbers :
  Forall clean_number numbers -> stripped_lines (unlines numbers) = numbers.
Proof.
  induction 1 as [|x rest [Hne [Hs Hnl]] _ IH]; [reflexivity | ].
  unfold stripped_lines in *. simpl unlines. rewrite (file_lines_unlines _ _ Hnl).
  simpl filter. rewrite strip_line_end, Hs.
  destruct (nonempty x) eqn:E; [ | apply nonempty_true in Hne; congruence ].
  simpl map. rewrite strip_line_end, Hs, IH. reflexivity.
Qed.

Lemma read_numbers_file_value file_path w :
  fst (read_numbers_file file_path w)
  = Ok (match ext (env w) (ext_pos w) with
        | Ret v => stripped_lines (as_str v)
        | Throw _ => []
        end).
Proof.
  unfold read_numbers_file, try_except, bind, ext_call, log, emit, ret.
  destruct (ext (env w) (ext_pos w)) as [v|e]; [reflexivity | ].
  destruct (String.eqb (exn_name e) "FileNotFoundError"); reflexivity.
Qed.


(** X2: the numbers file round trip. When a file holds the numbers that
    [read_numbers_file] returned, one per line, reading it returns the
    same list: nothing is lost, reordered or merged. *)
Theorem numbers_file_round_trip file_path file_path' w w2 numbers :
  fst (read_numbers_file file_path w) = Ok numbers ->
  ext (env w2) (ext_pos w2) = Ret (VStr (unlines numbers)) ->
  fst (read_numbers_file file_path' w2) = Ok numbers.
Proof.
  intros H1 H2. rewrite read_numbers_file_value in H1. rewrite read_numbers_file_value, H2.
  simpl as_str. f_equal. apply stripped_lines_unlines.
  assert (Hn : numbers = match ext (env w) (ext_pos w) with
                         | Ret v => stripped_lines (as_str v)
                         | Throw _ => []
                         end) by congruence.
  rewrite Hn. destruct (ext (env w) (ext_pos w)); [apply stripped_lines_clean | constructor].
Qed.

Lemma numbers_file_round_trip_witness :
  fst (read_numbers_file "numbers.txt"
         (initial_world (scripted [Ret (VStr numbers_text)] [] []) None))
  = Ok ["+15551234567"; "+15557654321"]
  /\ fst (read_numbers_file "copy.txt"
            (initial_world
               (scripted [Ret (VStr (unlines ["+15551234567"; "+15557654321"]))] [] [])
               None))
     = Ok ["+15551234567"; "+15557654321"].
Proof.
  split; [reflexivity | ].
  apply (numbers_file_round_trip "numbers.txt" "copy.txt"
           (initial_world (scripted [Ret (VStr numbers_text)] [] []) None)).
  - reflexivity.
  - reflexivity.
Defined.

(** ** DataGenerator: what every draw gives *)

Lemma choices_members {A} (l : list A) (n : nat) w cs w' :
  choices l n w = (Ok cs, w') -> Forall (fun c => In c l) cs.
Proof.
  destruct l as [|d l'].
  - destruct n; simpl; intros E; [ inversion E; constructor | discriminate E ].
  - intros E.
    destruct (choices_spec (d :: l') n w ltac:(discriminate)) as [cs' [w2 [E' [_ H]]]].
    rewrite E in E'. inversion E'; subst. exact H.
Qed.

Lemma Forall_firstn {A} (P : A -> Prop) n l : Forall P l -> Forall P (firstn n l).
Proof.
  intros H. rewrite Forall_forall in *. intros x Hx. apply H.
  rewrite <- (firstn_skipn n l). apply in_or_app. left. exact Hx.
Qed.

Lemma Forall_skipn {A} (P : A -> Prop) n l : Forall P l -> Forall P (skipn n l).
Proof.
  intros H. rewrite Forall_forall in *. intros x Hx. apply H.
  rewrite <- (firstn_skipn n l). apply in_or_app. right. exact Hx.
Qed.

Lemma Forall_removelast {A} (P : A -> Prop) l : Forall P l -> Forall P (removelast l).
Proof.
  intros H. rewrite removelast_firstn_len. apply Forall_firstn. exact H.
Qed.

Lemma In_alphabet_bool c l : existsb (Ascii.eqb c) l = true -> In c l.
Proof.
  intros H. apply existsb_exists in H. destruct H as [x [Hx E]].
  apply Ascii.eqb_eq in E. subst. exact Hx.
Qed.

Lemma digit_in_alphabet r :
  Forall (fun c => In c base_alphabet)
         (list_ascii_of_string (str_of_N (randint_of 1 9 r))).
Proof.
  unfold randint_of.
  assert (H : (r mod (9 - 1 + 1) < 9)%N) by (apply N.mod_lt; lia).
  remember (r mod (9 - 1 + 1))%N as k eqn:Ek. clear Ek.
  assert (Hk : k = N.of_nat (N.to_nat k)) by lia.
  assert (Hn : N.to_nat k < 9) by lia.
  rewrite Hk. generalize dependent (N.to_nat k). intros n _ Hn.
  do 9 (destruct n as [|n];
        [ constructor; [ apply In_alphabet_bool; reflexivity | constructor ] | ]).
  lia.
Qed.

Lemma fix_upper_alphabet base :
  Forall (fun c => In c base_alphabet) base ->
  Forall (fun c => In c base_alphabet) (fix_upper base).
Proof.
  intros H. unfold fix_upper. destruct (existsb is_upper base); [exact H | ].
  constructor; [ apply In_alphabet_bool; reflexivity | apply Forall_skipn; exact H ].
Qed.

Lemma fix_lower_alphabet base :
  Forall (fun c => In c base_alphabet) base ->
  Forall (fun c => In c base_alphabet) (fix_lower base).
Proof.
  intros H. unfold fix_lower. destruct (existsb is_lower base); [exact H | ].
  apply Forall_app. split; [ apply Forall_removelast; exact H | ].
  constructor; [ apply In_alphabet_bool; reflexivity | constructor ].
Qed.

Lemma fix_digit_alphabet base w base' w' :
  Forall (fun c => In c base_alphabet) base ->
  fix_digit base w = (Ok base', w') ->
  Forall (fun c => In c base_alphabet) base'.
Proof.
  intros H. unfold fix_digit. destruct (existsb is_digit base).
  - intros E. inversion E; subst. exact H.
  - unfold randint, bind, draw, ret. intros E. inversion E; subst.
    apply Forall_app. split; [exact H | apply digit_in_alphabet].
Qed.

Lemma password_alphabet w pw w' :
  _generate_strong_password w = (Ok pw, w') ->
  Forall (fun c => In c (base_alphabet ++ specials)) pw.
Proof.
  unfold _generate_strong_password. intros E.
  apply bind_inv in E. destruct E as [[base_len [w1 [_ E]]] | [e [_ Hr]]]; [ | discriminate Hr ].
  apply bind_inv in E. destruct E as [[base [w2 [E2 E]]] | [e [_ Hr]]]; [ | discriminate Hr ].
  apply choices_members in E2.
  apply bind_inv in E. destruct E as [[b3 [w3 [E3 E]]] | [e [_ Hr]]]; [ | discriminate Hr ].
  apply fix_digit_alphabet in E3;
    [ | apply fix_lower_alphabet, fix_upper_alphabet; exact E2 ].
  apply bind_inv in E. destruct E as [[ns [w4 [_ E]]] | [e [_ Hr]]]; [ | discriminate Hr ].
  apply bind_inv in E. destruct E as [[sp [w5 [E5 E]]] | [e [_ Hr]]]; [ | discriminate Hr ].
  apply choices_members in E5.
  apply bind_inv in E. destruct E as [[pos [w6 [_ E]]] | [e [_ Hr]]]; [ | discriminate Hr ].
  assert (Hpw : pw = firstn 18 (firstn (N.to_nat pos) b3 ++ sp ++ skipn (N.to_nat pos) b3))
    by (unfold ret in E; congruence).
  rewrite Hpw. apply Forall_firstn.
  assert (Hb : Forall (fun c => In c (base_alphabet ++ specials)) b3)
    by (eapply Forall_impl; [ | exact E3 ]; intros c Hc; apply in_or_app; left; exact Hc).
  assert (Hs : Forall (fun c => In c (base_alphabet ++ specials)) sp)
    by (eapply Forall_impl; [ | exact E5 ]; intros c Hc; apply in_or_app; right; exact Hc).
  repeat (apply Forall_app; split);
    [ apply Forall_firstn | | apply Forall_skipn ]; assumption.
Qed.

(** X3: every password [_generate_strong_password] returns, for every
    draw: it does return one; its length is between 11 and 18; it has a
    lowercase letter, a digit and at least three special characters; all
    its characters are ASCII letters, digits or characters of the special
    set, so none is white space, a comma or a double quote and the
    password needs no quoting in the CSV row. *)
Theorem password_shape w :
  exists pw w',
    _generate_strong_password w = (Ok pw, w')
    /\ 11 <= List.length pw <= 18
    /\ existsb is_lower pw = true
    /\ existsb is_digit pw = true
    /\ 3 <= count_specials pw
    /\ Forall (fun c => In c (base_alphabet ++ specials)) pw
    /\ forallb csv_plain pw = true.
Proof.
  destruct (password_guarantees w) as [pw [w' [E [Hlen [Hl [Hd Hs]]]]]].
  exists pw, w'. pose proof (password_alphabet _ _ _ E) as Ha.
  split; [exact E | ]. split; [exact Hlen | ]. split; [exact Hl | ].
  split; [exact Hd | ]. split; [exact Hs | ]. split; [exact Ha | ].
  apply forallb_forall. intros c Hc. rewrite Forall_forall in Ha.
  assert (Hall : forallb csv_plain (base_alphabet ++ specials) = true) by reflexivity.
  rewrite forallb_forall in Hall. apply Hall, Ha, Hc.
Qed.










Lemma email_generator_frame first last :
  stable (keeping generator_frame) (_generate_realistic_email first last).
Proof. stab. Qed.

Lemma password_generator_frame : stable (keeping generator_frame) _generate_strong_password.
Proof. stab. Qed.

Lemma email_total first last : never_raises (_generate_realistic_email first last).
Proof. total. Qed.

Lemma password_total : never_raises _generate_strong_password.
Proof. total. Qed.

(** What [generate_account_data] returns and what it leaves alone. *)
Lemma generate_account_data_outcome countries phone_number w :
  (countries <> [] ->
   exists data w',
     generate_account_data countries phone_number w = (Ok data, w')
     /\ phone data = phone_number
     /\ In (country data) countries
     /\ first_name data = strs (env w) (str_pos w)
     /\ last_name data = strs (env w) (S (str_pos w))
     /\ timestamp data = (strs (env w) (S (S (str_pos w))) ++ "Z")%string
     /\ trace w' = ELog DEBUG "Generated data for: %s" :: trace w
     /\ (browser w', account_index w', fs w') = (browser w, account_index w, fs w))
  /\ (countries = [] ->
      exists w', generate_account_data countries phone_number w = (Raise IndexError, w')
                 /\ trace w' = trace w
                 /\ (browser w', account_index w', fs w')
                    = (browser w, account_index w, fs w)).
Proof.
  set (w1 := set_str_pos (S (str_pos w)) w).
  set (w2 := set_str_pos (S (str_pos w1)) w1).
  destruct (never_raises_ok _ w2
              (email_total (strs (env w) (str_pos w)) (strs (env w1) (str_pos w1))))
    as [email Ee].
  pose proof (email_generator_frame (strs (env w) (str_pos w))
                (strs (env w1) (str_pos w1)) w2) as Fe.
  set (w3 := snd (_generate_realistic_email _ _ w2)) in *.
  destruct (never_raises_ok _ w3 password_total) as [pw Ep].
  pose proof (password_generator_frame w3) as Fp.
  set (w4 := snd (_generate_strong_password w3)) in *.
  assert (F : generator_frame w4 = generator_frame w2)
    by (unfold keeping in *; congruence).
  unfold generator_frame in F. injection F as Henv Hstr Htr Hb Hnh Hai Hfs Hn Hc.
  assert (Estart : forall k : AccountData -> M AccountData,
            (first <- next_str ;; last <- next_str ;;
             email <- _generate_realistic_email first last ;;
             password <- _generate_strong_password ;;
             country <- choice_from countries ;;
             now <- next_str ;;
             log DEBUG "Generated data for: %s" ;;
             ret (mk_account first last email (string_of_list_ascii password) country
                             phone_number (now ++ "Z")%string)) w
            = (country <- choice_from countries ;;
               now <- next_str ;;
               log DEBUG "Generated data for: %s" ;;
               ret (mk_account (strs (env w) (str_pos w)) (strs (env w1) (str_pos w1))
                               email (string_of_list_ascii pw) country
                               phone_number (now ++ "Z")%string)) w4).
  { intros _. unfold bind at 1. unfold next_str at 1. cbv beta iota. fold w1.
    unfold bind at 1. unfold next_str at 1. cbv beta iota. fold w2.
    rewrite (bind_ok _ _ _ _ _ Ee). rewrite (bind_ok _ _ _ _ _ Ep). reflexivity. }
  unfold generate_account_data. rewrite (Estart (fun d => ret d)). clear Estart.
  split.
  - intros Hne. destruct (choice_from_spec countries w4 Hne) as [c' [Ec Hin]].
    rewrite (bind_ok _ _ _ _ _ Ec).
    eexists _, _. split; [reflexivity | ].
    cbn [phone country first_name last_name timestamp trace browser account_index fs
         set_trace set_str_pos set_rnd_pos env str_pos].
    rewrite Henv, Hstr, Htr, Hb, Hai, Hfs.
    repeat split; try reflexivity. exact Hin.
  - intros ->. exists w4. split; [reflexivity | ]. split; [exact Htr | ].
    rewrite Hb, Hai, Hfs. reflexivity.
Qed.

(** X5: [generate_account_data] with a non-empty list of countries
    returns an account whose phone is the number it was given, unchanged,
    whose country is one of the list, whose names are the two Faker gave
    and whose timestamp is the clock's with "Z" appended; it logs one
    DEBUG line and touches nothing else. With an empty list it raises
    the IndexError of [random.choice]. *)
Theorem generate_account_data_fields countries phone_number w :
  (countries <> [] ->
   exists data w',
     generate_account_data countries phone_number w = (Ok data, w')
     /\ phone data = phone_number
     /\ In (country data) countries
     /\ first_name data = strs (env w) (str_pos w)
     /\ last_name data = strs (env w) (S (str_pos w))
     /\ timestamp data = (strs (env w) (S (S (str_pos w))) ++ "Z")%string
     /\ trace w' = ELog DEBUG "Generated data for: %s" :: trace w
     /\ (browser w', account_index w', fs w') = (browser w, account_index w, fs w))
  /\ (countries = [] ->
      exists w', generate_account_data countries phone_number w = (Raise IndexError, w')
                 /\ trace w' = trace w
                 /\ (browser w', account_index w', fs w')
                    = (browser w, account_index w, fs w)).
Proof.
  destruct (generate_account_data_outcome countries phone_number w) as [Hsome Hnone].
  split; [ intros Hne; exact (Hsome Hne) | intros Hnil; exact (Hnone Hnil) ].
Qed.

(** X6: with an empty COUNTRIES list every attempt dies before its
    [try] statement: [run_single_account] counts the attempt, raises
    IndexError, and writes no record, logs nothing and makes no external
    call; the batch raises at its first attempt, whatever the queue. *)
Theorem run_single_account_without_countries cfg ua phone_number w :
  COUNTRIES cfg = [] ->
  (exists w',
      run_single_account cfg ua phone_number w = (Raise IndexError, w')
      /\ account_index w' = S (account_index w)
      /\ trace w' = trace w
      /\ (browser w', fs w') = (browser w, fs w))
  /\ forall queue,
       fst (run cfg ua queue w) = Raise IndexError
       /\ count_writes (trace (snd (run cfg ua queue w))) = count_writes (trace w)
       /\ calls (trace (snd (run cfg ua queue w))) = calls (trace w).
Proof.
  intros Hc.
  assert (Hone : forall ph w0, exists w',
             run_single_account cfg ua ph w0 = (Raise IndexError, w')
             /\ account_index w' = S (account_index w0)
             /\ trace w' = trace w0
             /\ (browser w', fs w') = (browser w0, fs w0)).
  { intros ph w0. rewrite run_single_account_unfold.
    unfold bind at 1. unfold modify at 1. cbv beta iota.
    set (w1 := set_account_index _ w0).
    destruct (generate_account_data_outcome (COUNTRIES cfg) ph w1) as [_ Hg].
    destruct (Hg Hc) as [w' [Eg [Ht F]]].
    rewrite (bind_raise _ _ _ _ _ Eg). exists w'. split; [reflexivity | ].
    injection F as Hb Hai Hfs.
    rewrite Hai, Hb, Hfs, Ht. subst w1. cbn. split; [lia | split; reflexivity]. }
  split; [apply Hone | ].
  intros [|ph rest].
  - set (w0 := set_trace
                 (ELog INFO "No phone numbers loaded. Running one account without a phone number."
                  :: trace w) w).
    destruct (Hone None w0) as [w' [E [_ [Ht _]]]].
    assert (Er : run cfg ua [] w = (Raise IndexError, w')).
    { rewrite run_nil.
      rewrite (bind_ok (log INFO "No phone numbers loaded. Running one account without a phone number.")
                 _ w tt w0 eq_refl).
      rewrite (bind_raise _ _ _ _ _ E). reflexivity. }
    rewrite Er. simpl fst. simpl snd. rewrite Ht. subst w0. cbn. auto.
  - set (w0 := set_trace (ELog INFO "Starting batch job for %d phone numbers." :: trace w) w).
    destruct (Hone (Some ph) w0) as [w' [E [_ [Ht _]]]].
    assert (Er : run cfg ua (ph :: rest) w = (Raise IndexError, w')).
    { rewrite run_cons.
      rewrite (bind_ok (log INFO "Starting batch job for %d phone numbers.") _ w tt w0 eq_refl).
      rewrite run_loop_cons, (bind_raise _ _ _ _ _ E). reflexivity. }
    rewrite Er. simpl fst. simpl snd. rewrite Ht. subst w0. cbn. auto.
Qed.

Lemma run_single_account_without_countries_witness :
  fst (run no_countries_config "UA" ["+15551234567"] browser_ready) = Raise IndexError
  /\ count_writes (trace (snd (run no_countries_config "UA" ["+15551234567"] browser_ready)))
     = 0.
Proof.
  destruct (run_single_account_without_countries no_countries_config "UA" None
              browser_ready eq_refl) as [_ H].
  destruct (H ["+15551234567"]) as [Hr [Hw _]]. split; [exact Hr | exact Hw].
Defined.

(** ** BrowserManager: launch, shutdown and the route handler *)

(** X7: the life cycle of the browser. [shutdown] never raises, also
    when [browser.close] does; it calls [browser.close] exactly when a
    browser is held, and no browser is held afterwards, so a second
    [shutdown] does nothing. [launch] does nothing when a browser is
    held; otherwise it makes one call of [chromium.launch], holds the new
    browser when the call returns, and raises the very exception of the
    call, holding no browser, when it raises. *)
Theorem browser_life_cycle cfg w :
  (exists w',
      shutdown w = (Ok tt, w')
      /\ browser w' = None
      /\ calls (trace w')
         = match browser w with
           | Some b => OpBrowserClose b :: calls (trace w)
           | None => calls (trace w)
           end
      /\ shutdown w' = (Ok tt, w'))
  /\ (browser w <> None -> launch cfg w = (Ok tt, w))
  /\ (browser w = None ->
      exists w',
        calls (trace w') = OpLaunch (HEADLESS cfg) :: calls (trace w)
        /\ match ext (env w) (ext_pos w) with
           | Ret _ => launch cfg w = (Ok tt, w')
                      /\ browser w' = Some (next_handle w)
                      /\ next_handle w' = S (next_handle w)
           | Throw e => launch cfg w = (Raise e, w') /\ browser w' = None
           end).
Proof.
  destruct w as [[ex rn st] xp rp sp t b nh ai f n c].
  split; [ | split ].
  - destruct b as [bh|]; unfold shutdown; run.
    + destruct (ex xp); eexists; repeat split; reflexivity.
    + eexists; repeat split; reflexivity.
  - destruct b as [bh|]; [ intros _; reflexivity | intros H; exfalso; apply H; reflexivity ].
  - cbn [browser]. intros ->. unfold launch; run.
    destruct (ex xp); eexists; repeat split; reflexivity.
Qed.

(** X8: the fail-safe of the route handler. The handler never raises
    and makes one call when it returns: [abort] for a blocked request,
    [continue_] for any other. When that call raises it calls
    [continue_] once more and swallows what this one raises: a blocked
    request whose [abort] fails is let through. *)
Theorem route_handler_failsafe resource_type url w :
  exists w',
    route_handler resource_type url w = (Ok tt, w')
    /\ calls (trace w')
       = match ext (env w) (ext_pos w) with
         | Ret _ => [route_decision resource_type url]
         | Throw _ => [OpRouteContinue; route_decision resource_type url]
         end ++ calls (trace w).
Proof.
  destruct w as [[ex rn st] xp rp sp t b nh ai f n c].
  unfold route_handler, route_decision, route_blocked.
  destruct (in_list resource_type blocked_resource_types);
    [ | destruct (existsb (fun host => contains host (lower url)) blocked_hosts) ];
    run; repeat next_step ex; eexists; split; reflexivity.
Qed.

(** ** BasePage: the page load and the popups *)

Lemma goto_attempt_loads cfg p url n w :
  is_throw (ext (env w) (ext_pos w)) = false ->
  wait_tolerated (ext (env w) (S (ext_pos w))) = true ->
  exists w',
    goto_attempt cfg p url n w = (Ok true, w')
    /\ goto_count (trace w') = S (goto_count (trace w))
    /\ In (OpEvaluate p ScriptOptimize) (calls (trace w')).
Proof.
  destruct w as [[ex rn st] xp rp sp t b nh ai f nt c].
  cbn [env ext ext_pos]. intros H1 H2.
  unfold goto_attempt, _optimize_loaded_page. run.
  destruct (ex xp) as [v|e]; [ | discriminate H1 ]. run.
  destruct (ex (S xp)) as [v1|e1]; run.
  - destruct (ex (S (S xp))); run; eexists; (split; [reflexivity | ]);
      (split; [reflexivity | ]); simpl; auto.
  - simpl in H2. rewrite H2. run.
    destruct (ex (S (S xp))); run; eexists; (split; [reflexivity | ]);
      (split; [reflexivity | ]); simpl; auto.
Qed.

Lemma goto_loop_succ cfg p url n k :
  goto_loop cfg p url n (S k)
  = (loaded <- goto_attempt cfg p url n ;;
     if loaded then ret true else goto_loop cfg p url (S n) k).
Proof. reflexivity. Qed.

Lemma goto_loop_loads cfg p url k : forall m n w,
  (forall i, i < k -> is_throw (ext (env w) (ext_pos w + i)) = true) ->
  is_throw (ext (env w) (ext_pos w + k)) = false ->
  wait_tolerated (ext (env w) (S (ext_pos w + k))) = true ->
  exists w',
    goto_loop cfg p url n (k + S m) w = (Ok true, w')
    /\ goto_count (trace w') = goto_count (trace w) + S k
    /\ In (OpEvaluate p ScriptOptimize) (calls (trace w')).
Proof.
  induction k as [|k IH]; intros m n w Hfail Hload Hwait.
  - rewrite Nat.add_0_r in Hload, Hwait.
    destruct (goto_attempt_loads cfg p url n w Hload Hwait) as [w' [E [Hc Hin]]].
    exists w'. change (0 + S m) with (S m). rewrite goto_loop_succ, (bind_ok _ _ _ _ _ E).
    split; [reflexivity | ]. split; [lia | exact Hin].
  - pose proof (Hfail 0 ltac:(lia)) as H0. rewrite Nat.add_0_r in H0.
    destruct (ext (env w) (ext_pos w)) as [v|e] eqn:E; [discriminate | ].
    destruct (goto_attempt_fails cfg p url n w e E)
      as [w1 [E1 [Henv [Hext [Hrnd [Hcount Hsleeps]]]]]].
    destruct (IH m (S n) w1) as [w' [E' [Hcount' Hin]]].
    + intros i Hi. rewrite Henv, Hext.
      replace (S (ext_pos w) + i) with (ext_pos w + S i) by lia. apply Hfail. lia.
    + rewrite Henv, Hext.
      replace (S (ext_pos w) + k) with (ext_pos w + S k) by lia. exact Hload.
    + rewrite Henv, Hext.
      replace (S (ext_pos w) + k) with (ext_pos w + S k) by lia. exact Hwait.
    + exists w'. change (S k + S m) with (S (k + S m)).
      rewrite goto_loop_succ, (bind_ok _ _ _ _ _ E1).
      split; [exact E' | ]. split; [lia | exact Hin].
Qed.

(** X9: [robust_goto] stops at the first load that works. When the
    first [k] calls of [page.goto] raise, the next one returns and the
    wait for network idle returns or times out, with [k] below
    MAX_NAV_RETRIES, it returns True after exactly [k + 1] calls of
    [page.goto], and the page was handed to [_optimize_loaded_page]. *)
Theorem robust_goto_stops_at_first_load cfg p url w k :
  k < MAX_NAV_RETRIES cfg ->
  (forall i, i < k -> is_throw (ext (env w) (ext_pos w + i)) = true) ->
  is_throw (ext (env w) (ext_pos w + k)) = false ->
  wait_tolerated (ext (env w) (S (ext_pos w + k))) = true ->
  exists w',
    robust_goto cfg p url w = (Ok true, w')
    /\ goto_count (trace w') = goto_count (trace w) + S k
    /\ In (OpEvaluate p ScriptOptimize) (calls (trace w')).
Proof.
  intros Hk Hfail Hload Hwait.
  destruct (goto_loop_loads cfg p url k (MAX_NAV_RETRIES cfg - S k) 1 w Hfail Hload Hwait)
    as [w' [E H]].
  replace (k + S (MAX_NAV_RETRIES cfg - S k)) with (MAX_NAV_RETRIES cfg) in E by lia.
  exists w'. unfold robust_goto. rewrite (bind_ok _ _ _ _ _ E). split; [reflexivity | exact H].
Qed.

Lemma robust_goto_stops_at_first_load_witness :
  exists w',
    robust_goto default_config 2 (SIGNUP_URL default_config)
                (initial_world loads_at_second_try None) = (Ok true, w')
    /\ goto_count (trace w') = 2.
Proof.
  destruct (robust_goto_stops_at_first_load default_config 2 (SIGNUP_URL default_config)
              (initial_world loads_at_second_try None) 1)
    as [w' [E [Hc _]]].
  - simpl. lia.
  - intros i Hi. destruct i as [|i]; [reflexivity | lia].
  - reflexivity.
  - reflexivity.
  - exists w'. split; [exact E | exact Hc].
Defined.

Lemma goto_attempt_wait_error cfg p url n w e :
  is_throw (ext (env w) (ext_pos w)) = false ->
  ext (env w) (S (ext_pos w)) = Throw e ->
  is_timeout e = false ->
  exists w',
    goto_attempt cfg p url n w = (Ok false, w')
    /\ env w' = env w /\ ext_pos w' = S (S (ext_pos w))
    /\ goto_count (trace w') = S (goto_count (trace w))
    /\ calls (trace w')
       = OpWaitLoadState p "networkidle" 2000 :: OpGoto p url (GOTO_TIMEOUT_MS cfg)
         :: calls (trace w).
Proof.
  destruct w as [[ex rn st] xp rp sp t b nh ai f nt c].
  cbn [env ext ext_pos]. intros H1 H2 H3.
  unfold goto_attempt, try_except, bind, ext_call, raise, ret.
  cbn [env ext ext_pos set_trace set_ext_pos trace]. 
  destruct (ex xp) as [v|e0]; [ | discriminate H1 ]. cbv beta iota.
  cbn [env ext ext_pos set_trace set_ext_pos trace]. rewrite H2. cbv beta iota.
  rewrite H3. cbv beta iota. rewrite H3.
  eexists. split; [reflexivity | ]. cbn. auto.
Qed.

(** X10: a load that returns is thrown away when the wait for network
    idle raises anything but a timeout: the attempt counts as failed.
    When every load returns and every such wait raises a non-timeout
    error, [robust_goto] returns False after MAX_NAV_RETRIES calls of
    [page.goto], none of which raised, and [_optimize_loaded_page] is
    never reached. *)
Theorem robust_goto_idle_wait_error cfg p url w :
  (forall i, i < MAX_NAV_RETRIES cfg ->
             is_throw (ext (env w) (ext_pos w + 2 * i)) = false
             /\ is_throw (ext (env w) (S (ext_pos w + 2 * i))) = true
             /\ is_timeout (thrown (ext (env w) (S (ext_pos w + 2 * i)))) = false) ->
  exists w',
    robust_goto cfg p url w = (Ok false, w')
    /\ goto_count (trace w') = goto_count (trace w) + MAX_NAV_RETRIES cfg
    /\ (In (OpEvaluate p ScriptOptimize) (calls (trace w')) ->
        In (OpEvaluate p ScriptOptimize) (calls (trace w))).
Proof.
  intros Hall.
  assert (Hloop : forall k n w0,
             (forall i, i < k ->
                        is_throw (ext (env w0) (ext_pos w0 + 2 * i)) = false
                        /\ is_throw (ext (env w0) (S (ext_pos w0 + 2 * i))) = true
                        /\ is_timeout (thrown (ext (env w0) (S (ext_pos w0 + 2 * i)))) = false) ->
             exists w',
               goto_loop cfg p url n k w0 = (Ok false, w')
               /\ goto_count (trace w') = goto_count (trace w0) + k
               /\ (In (OpEvaluate p ScriptOptimize) (calls (trace w')) ->
                   In (OpEvaluate p ScriptOptimize) (calls (trace w0)))).
  { induction k as [|k IH]; intros n w0 H.
    - exists w0. simpl. split; [reflexivity | ]. split; [lia | auto].
    - destruct (H 0 ltac:(lia)) as [H1 [H2 H3]].
      rewrite Nat.mul_0_r, Nat.add_0_r in H1, H2, H3.
      destruct (ext (env w0) (S (ext_pos w0))) as [v|e] eqn:E; [discriminate H2 | ].
      simpl in H3.
      destruct (goto_attempt_wait_error cfg p url n w0 e H1 E H3)
        as [w1 [E1 [Henv [Hext [Hc Hcalls]]]]].
      destruct (IH (S n) w1) as [w' [E' [Hc' Hin]]].
      + intros i Hi. rewrite Henv, Hext.
        replace (S (S (ext_pos w0)) + 2 * i) with (ext_pos w0 + 2 * S i) by lia.
        apply H. lia.
      + exists w'. rewrite goto_loop_succ, (bind_ok _ _ _ _ _ E1).
        split; [exact E' | ]. split; [lia | ].
        intros Hw'. specialize (Hin Hw'). rewrite Hcalls in Hin.
        destruct Hin as [Hin | [Hin | Hin]]; [discriminate | discriminate | exact Hin]. }
  destruct (Hloop (MAX_NAV_RETRIES cfg) 1 w Hall) as [w1 [E [Hc Hin]]].
  eexists. unfold robust_goto. rewrite (bind_ok _ _ _ _ _ E). split; [reflexivity | ].
  split; [exact Hc | exact Hin].
Qed.

Lemma robust_goto_idle_wait_error_witness :
  exists w',
    robust_goto default_config 2 (SIGNUP_URL default_config)
                (initial_world idle_wait_breaks None) = (Ok false, w')
    /\ goto_count (trace w') = 3.
Proof.
  destruct (robust_goto_idle_wait_error default_config 2 (SIGNUP_URL default_config)
              (initial_world idle_wait_breaks None))
    as [w' [E [Hc _]]].
  - intros i Hi. simpl in Hi.
    destruct i as [|[|[|i]]]; [ | | | lia ]; repeat split; reflexivity.
  - exists w'. split; [exact E | exact Hc].
Defined.




(** ** Sequences of page actions *)

Lemma first_failure_app e n : forall m pos,
  first_failure e pos (n + m)
  = match first_failure e pos n with
    | Some x => Some x
    | None => first_failure e (n + pos) m
    end.
Proof.
  induction n as [|n IH]; intros m pos; simpl; [reflexivity | ].
  destruct (ext e pos); [ | reflexivity ].
  rewrite IH. replace (n + S pos) with (S (n + pos)) by lia. reflexivity.
Qed.

Lemma ext_call_ok op w v :
  ext (env w) (ext_pos w) = Ret v ->
  ext_call op w = (Ok v, set_trace (ECall op (Ret v) :: trace w) (set_ext_pos (S (ext_pos w)) w)).
Proof. intros E. unfold ext_call. rewrite E. reflexivity. Qed.

Lemma ext_call_raise op w e :
  ext (env w) (ext_pos w) = Throw e ->
  ext_call op w
  = (Raise e, set_trace (ECall op (Throw e) :: trace w) (set_ext_pos (S (ext_pos w)) w)).
Proof. intros E. unfold ext_call. rewrite E. reflexivity. Qed.

(** Typing a text: the keystrokes go on until one raises. *)
Lemma type_text_outcome p sel text w :
  exists w',
    type_text p sel text w
    = (match first_failure (env w) (ext_pos w) (List.length (list_ascii_of_string text)) with
       | None => Ok tt
       | Some e => Raise e
       end, w')
    /\ step_frame w' = step_frame w
    /\ (first_failure (env w) (ext_pos w) (List.length (list_ascii_of_string text)) = None ->
        ext_pos w' = List.length (list_ascii_of_string text) + ext_pos w).
Proof.
  unfold type_text. generalize (list_ascii_of_string text). intros chars. revert w.
  induction chars as [|ch rest IH]; intros w.
  - exists w. simpl. auto.
  - change (for_each (ch :: rest) ?body) with (body ch ;; for_each rest body).
    cbn [List.length first_failure].
    set (w0 := set_rnd_pos (S (rnd_pos w)) w).
    destruct (ext (env w) (ext_pos w)) as [v|e] eqn:E.
    + destruct (IH (set_trace (ECall (OpType p sel ch (randint_of 6 18 (rnd (env w) (rnd_pos w))))
                                     (Ret v) :: trace w0)
                              (set_ext_pos (S (ext_pos w0)) w0)))
        as [w' [E' [Hf Hpos]]].
      exists w'. split; [ | split ].
      * unfold bind at 1. unfold randint, bind at 1 2 3, draw, ret. cbv beta iota. fold w0.
        rewrite (ext_call_ok _ w0 v E). exact E'.
      * rewrite Hf. reflexivity.
      * intros Hnone. rewrite (Hpos Hnone). cbn. lia.
    + eexists. split; [ | split ].
      * unfold bind at 1. unfold randint, bind at 1 2 3, draw, ret. cbv beta iota. fold w0.
        rewrite (ext_call_raise _ w0 e E). reflexivity.
      * reflexivity.
      * discriminate.
Qed.

Lemma jitter_sleep_step a b w :
  exists w', jitter_sleep a b w = (Ok tt, w')
             /\ env w' = env w /\ ext_pos w' = ext_pos w /\ notes w' = notes w.
Proof. eexists. split; [reflexivity | ]. cbn. auto. Qed.

(** X12: the outcome of [submit_phone], for every page. It never
    raises. Its actions are a click on the phone input, clearing it, one
    keystroke per character of the number and a click on "Send code"; it
    returns the success tag exactly when none of them raises, and
    otherwise the tag [phone_step_exception:] followed by the type name
    of the first exception raised, the actions after it being skipped. *)
Theorem submit_phone_outcome p ph w :
  exists w',
    submit_phone p ph w
    = (Ok (match first_failure (env w) (ext_pos w)
                   (2 + (List.length (list_ascii_of_string ph) + 1)) with
           | None => "send_code_clicked_waited_10s"
           | Some e => ("phone_step_exception:" ++ exn_name e)%string
           end), w')
    /\ notes w' = notes w.
Proof.
  unfold submit_phone, try_except.
  rewrite (first_failure_app (env w) 2). cbn [first_failure].
  destruct (ext (env w) (ext_pos w)) as [v1|e1] eqn:E1.
  2:{ rewrite (bind_raise _ _ _ _ _ (ext_call_raise _ w e1 E1)).
      eexists. split; reflexivity. }
  rewrite (bind_ok _ _ _ _ _ (ext_call_ok _ w v1 E1)).
  set (w1 := set_trace _ _).
  change (ext (env w) (S (ext_pos w))) with (ext (env w1) (ext_pos w1)).
  destruct (ext (env w1) (ext_pos w1)) as [v2|e2] eqn:E2.
  2:{ rewrite (bind_raise _ _ _ _ _ (ext_call_raise _ w1 e2 E2)).
      eexists. split; reflexivity. }
  rewrite (bind_ok _ _ _ _ _ (ext_call_ok _ w1 v2 E2)).
  set (w2 := set_trace _ _).
  destruct (jitter_sleep_step (2 # 100) (6 # 100) w2) as [w3 [E3 [Henv3 [Hpos3 Hn3]]]].
  rewrite (bind_ok _ _ _ _ _ E3).
  destruct (type_text_outcome p phone_input ph w3) as [w4 [E4 [Hf4 Hpos4]]].
  assert (Hstart : first_failure (env w3) (ext_pos w3) (List.length (list_ascii_of_string ph))
                   = first_failure (env w) (2 + ext_pos w)
                                   (List.length (list_ascii_of_string ph)))
    by (rewrite Henv3, Hpos3; reflexivity).
  rewrite first_failure_app. rewrite <- Hstart.
  unfold step_frame in Hf4. injection Hf4 as Henv4 Hn4.
  destruct (first_failure (env w3) (ext_pos w3) (List.length (list_ascii_of_string ph)))
    as [e|] eqn:F.
  - rewrite (bind_raise _ _ _ _ _ E4). eexists. split; [reflexivity | ].
    cbn. rewrite Hn4, Hn3. reflexivity.
  - rewrite (bind_ok _ _ _ _ _ E4).
    destruct (jitter_sleep_step (4 # 100) (8 # 100) w4) as [w5 [E5 [Henv5 [Hpos5 Hn5]]]].
    rewrite (bind_ok _ _ _ _ _ E5). cbn [first_failure].
    assert (Hlast : ext (env w) (List.length (list_ascii_of_string ph) + (2 + ext_pos w))
                    = ext (env w5) (ext_pos w5)).
    { rewrite Henv5, Hpos5, Henv4, (Hpos4 eq_refl), Henv3, Hpos3. reflexivity. }
    rewrite Hlast.
    destruct (ext (env w5) (ext_pos w5)) as [v6|e6] eqn:E6.
    + rewrite (bind_ok _ _ _ _ _ (ext_call_ok _ w5 v6 E6)).
      eexists. split; [reflexivity | ]. cbn. rewrite Hn5, Hn4, Hn3. reflexivity.
    + rewrite (bind_raise _ _ _ _ _ (ext_call_raise _ w5 e6 E6)).
      eexists. split; [reflexivity | ]. cbn. rewrite Hn5, Hn4, Hn3. reflexivity.
Qed.

(** The typing strategy returns True exactly when none of its actions
    raises. *)
Lemma typing_strategy_outcome cfg p country_name w :
  exists w',
    _select_country_by_typing cfg p country_name w
    = (Ok (match first_failure (env w) (ext_pos w)
                   (2 + (List.length (list_ascii_of_string country_name) + 2)) with
           | None => true
           | Some _ => false
           end), w')
    /\ notes w' = notes w.
Proof.
  unfold _select_country_by_typing, try_except.
  rewrite (first_failure_app (env w) 2). cbn [first_failure].
  destruct (ext (env w) (ext_pos w)) as [v1|e1] eqn:E1.
  2:{ rewrite (bind_raise _ _ _ _ _ (ext_call_raise _ w e1 E1)).
      eexists. split; reflexivity. }
  rewrite (bind_ok _ _ _ _ _ (ext_call_ok _ w v1 E1)).
  set (w1 := set_trace _ _).
  assert (Hn1 : notes w1 = notes w) by reflexivity.
  destruct (jitter_sleep_step (2 # 100) (6 # 100) w1) as [w2 [E2 [Henv2 [Hpos2 Hn2]]]].
  rewrite (bind_ok _ _ _ _ _ E2).
  assert (Hfill : ext (env w) (S (ext_pos w)) = ext (env w2) (ext_pos w2))
    by (rewrite Henv2, Hpos2; reflexivity).
  rewrite Hfill.
  destruct (ext (env w2) (ext_pos w2)) as [v3|e3] eqn:E3.
  2:{ rewrite (bind_raise _ _ _ _ _ (ext_call_raise _ w2 e3 E3)).
      eexists. split; [reflexivity | ]. cbn [notes set_trace set_ext_pos set_rnd_pos]; congruence. }
  rewrite (bind_ok _ _ _ _ _ (ext_call_ok _ w2 v3 E3)).
  set (w3 := set_trace _ _).
  destruct (type_text_outcome p country_input country_name w3) as [w4 [E4 [Hf4 Hpos4]]].
  assert (Hstart : first_failure (env w3) (ext_pos w3)
                                 (List.length (list_ascii_of_string country_name))
                   = first_failure (env w) (2 + ext_pos w)
                                   (List.length (list_ascii_of_string country_name))).
  { subst w3. cbn [env ext_pos set_trace set_ext_pos]. rewrite Henv2, Hpos2. reflexivity. }
  rewrite first_failure_app. rewrite <- Hstart.
  unfold step_frame in Hf4. injection Hf4 as Henv4 Hn4.
  assert (Hn3 : notes w3 = notes w)
    by (subst w3; cbn [notes set_trace set_ext_pos]; congruence).
  destruct (first_failure (env w3) (ext_pos w3)
                          (List.length (list_ascii_of_string country_name))) as [e|] eqn:F.
  - rewrite (bind_raise _ _ _ _ _ E4). eexists. split; [reflexivity | ].
    cbn [notes set_trace set_ext_pos set_rnd_pos]; congruence.
  - rewrite (bind_ok _ _ _ _ _ E4).
    destruct (jitter_sleep_step (2 # 100) (6 # 100) w4) as [w5 [E5 [Henv5 [Hpos5 Hn5]]]].
    rewrite (bind_ok _ _ _ _ _ E5). cbn [first_failure].
    assert (Hwait : ext (env w) (List.length (list_ascii_of_string country_name)
                                 + (2 + ext_pos w))
                    = ext (env w5) (ext_pos w5)).
    { rewrite Henv5, Hpos5, Henv4, (Hpos4 eq_refl). subst w3.
      cbn [env ext_pos set_trace set_ext_pos]. rewrite Henv2, Hpos2. reflexivity. }
    rewrite Hwait.
    destruct (ext (env w5) (ext_pos w5)) as [v6|e6] eqn:E6.
    2:{ rewrite (bind_raise _ _ _ _ _ (ext_call_raise _ w5 e6 E6)).
        eexists. split; [reflexivity | ]. cbn [notes set_trace set_ext_pos set_rnd_pos]; congruence. }
    rewrite (bind_ok _ _ _ _ _ (ext_call_ok _ w5 v6 E6)).
    set (w6 := set_trace _ _).
    assert (Hclick : ext (env w) (S (List.length (list_ascii_of_string country_name)
                                    + (2 + ext_pos w)))
                     = ext (env w6) (ext_pos w6)).
    { subst w6. cbn [env ext_pos set_trace set_ext_pos].
      rewrite Henv5, Hpos5, Henv4, (Hpos4 eq_refl). subst w3.
      cbn [env ext_pos set_trace set_ext_pos]. rewrite Henv2, Hpos2. reflexivity. }
    rewrite Hclick.
    assert (Hn6 : notes w6 = notes w)
      by (subst w6; cbn [notes set_trace set_ext_pos]; congruence).
    destruct (ext (env w6) (ext_pos w6)) as [v7|e7] eqn:E7.
    + rewrite (bind_ok _ _ _ _ _ (ext_call_ok _ w6 v7 E7)).
      eexists. split; [reflexivity | ]. cbn [notes set_trace set_ext_pos set_rnd_pos]; congruence.
    + rewrite (bind_raise _ _ _ _ _ (ext_call_raise _ w6 e7 E7)).
      eexists. split; [reflexivity | ]. cbn [notes set_trace set_ext_pos set_rnd_pos]; congruence.
Qed.


(** ** AccountCreator: after the submission *)


(** X14: what escapes the post-submit step. With a phone number, an
    exception of the wait for the phone input that is not a timeout is
    not caught by [wait_for_page]; without one, an exception of
    [page.content()] is not caught either. Both leave the step with the
    notes as they were, so the record of the attempt gets a
    [flow_exception] tag and not [phone_input_not_found]. *)
Theorem post_submit_escapes cfg p data w e :
  (phone_present (phone data) = true ->
   ext (env w) (ext_pos w) = Throw e -> is_timeout e = false ->
   exists w',
     post_submit cfg p data w = (Raise e, w')
     /\ notes w' = notes w
     /\ calls (trace w') = OpWaitFor p phone_input "visible" 8000 :: calls (trace w))
  /\ (phone_present (phone data) = false ->
      ext (env w) (S (ext_pos w)) = Throw e ->
      exists w',
        post_submit cfg p data w = (Raise e, w')
        /\ notes w' = notes w
        /\ calls (trace w')
           = OpContent p :: OpWaitLoadState p "networkidle" 2000 :: calls (trace w)).
Proof.
  destruct w as [[ex rn st] xp rp sp t b nh ai f n c].
  cbn [env ext ext_pos]. split.
  - intros Hph He Ht. unfold post_submit. rewrite Hph.
    unfold wait_for_page, try_except, bind, ext_call.
    cbn [env ext ext_pos]. rewrite He. cbv beta iota. rewrite Ht.
    eexists. split; [reflexivity | ]. split; reflexivity.
  - intros Hph He. unfold post_submit. rewrite Hph. run_page.
    destruct (ex xp); run_page; rewrite He; eexists; repeat split; reflexivity.
Qed.

Lemma post_submit_escapes_witness :
  exists w',
    post_submit default_config 2 sample_phone_account
      (initial_world (scripted [Throw page_crashed] [] []) None) = (Raise page_crashed, w')
    /\ notes w' = "".
Proof.
  destruct (post_submit_escapes default_config 2 sample_phone_account
              (initial_world (scripted [Throw page_crashed] [] []) None) page_crashed)
    as [H _].
  destruct (H eq_refl eq_refl eq_refl) as [w' [E [Hn _]]].
  exists w'. split; [exact E | exact Hn].
Defined.



(** ** AccountCreator: the records of a batch *)

Ltac split_stage E :=
  match type of E with
  | (if negb ?b then _ else _) _ = _ =>
      destruct b; simpl negb in E; cbv iota in E; [ | bind_ok_in E; discriminate E ]
  end.

Lemma attempt_body_result cfg ua data w b w' :
  attempt_body cfg ua data w = (Ok b, w') -> b = negb (pause_on_success cfg).
Proof.
  intros E. rewrite attempt_body_unfold in E. do 5 bind_ok_in E.
  split_stage E.
  rewrite after_navigation_unfold in E. bind_ok_in E.
  split_stage E.
  bind_ok_in E.
  split_stage E.
  rewrite after_submit_unfold in E. do 2 bind_ok_in E.
  destruct (pause_on_success cfg).
  - do 3 bind_ok_in E. inversion E. reflexivity.
  - inversion E. reflexivity.
Qed.

Lemma attempt_result cfg ua data w b w' :
  attempt cfg ua data w = (Ok b, w') -> b = false -> pause_on_success cfg = true.
Proof.
  intros E Hb. rewrite attempt_unfold in E.
  destruct (finally_inv _ _ _ _ _ (attempt_finalizer_total cfg data) E) as [w1 [Et _]].
  unfold try_except in Et.
  destruct (attempt_body cfg ua data w) as [[b0|e] wb] eqn:Eb.
  - inversion Et; subst. apply attempt_body_result in Eb.
    destruct (pause_on_success cfg); [reflexivity | discriminate Eb].
  - apply bind_inv in Et. destruct Et as [[a [w2 [_ Et]]] | [e0 [_ Hr]]]; [ | discriminate Hr ].
    inversion Et; subst. discriminate.
Qed.

(** What [run_single_account] leaves behind, whatever its outcome: the
    record of the attempt, for the number it was given, or nothing when
    the data could not be generated. *)
Lemma run_single_account_record cfg ua phone_number w r w' :
  run_single_account cfg ua phone_number w = (r, w') ->
  (exists data n,
      written (trace w') = outcome_record data n :: written (trace w)
      /\ phone data = phone_number
      /\ (forall b, r = Ok b -> outcome_tag n /\ (b = false -> pause_on_success cfg = true)))
  \/ (written (trace w') = written (trace w) /\ r = Raise IndexError /\ COUNTRIES cfg = []).
Proof.
  intros E. rewrite run_single_account_unfold in E.
  apply bind_inv in E. destruct E as [[a [w0 [E0 E]]] | [e [E0 _]]]; [ | discriminate E0 ].
  assert (F0 : written (trace w0) = written (trace w)) by (inversion E0; subst; reflexivity).
  destruct (generate_account_data_outcome (COUNTRIES cfg) phone_number w0) as [Hgen Hnone].
  destruct (COUNTRIES cfg) as [|c0 cs] eqn:Hc.
  - right. destruct (Hnone eq_refl) as [w1 [Eg [Ht _]]].
    rewrite (bind_raise _ _ _ _ _ Eg) in E. inversion E; subst.
    rewrite Ht, F0. auto.
  - left. destruct (Hgen ltac:(discriminate)) as [data [w1 [Eg [Hph [_ [_ [_ [_ [Ht _]]]]]]]]].
    rewrite (bind_ok _ _ _ _ _ Eg) in E.
    apply bind_inv in E. destruct E as [[a2 [w2 [E2 E]]] | [e [E2 _]]]; [ | discriminate E2 ].
    apply bind_inv in E. destruct E as [[a3 [w3 [E3 E]]] | [e [E3 _]]]; [ | discriminate E3 ].
    apply bind_inv in E. destruct E as [[a4 [w4 [E4 E]]] | [e [E4 _]]]; [ | discriminate E4 ].
    assert (Hw4 : written (trace w4) = written (trace w)).
    { inversion E2; inversion E3; inversion E4; subst.
      cbn [trace set_trace set_notes set_context written]. rewrite Ht. exact F0. }
    assert (Hn4 : notes w4 = "init").
    { inversion E2; inversion E3; inversion E4; subst. reflexivity. }
    destruct (attempt_records cfg ua data w4) as [n [Hw' _]].
    rewrite E in Hw'. simpl snd in Hw'.
    exists data, n. split; [ rewrite Hw', Hw4; reflexivity | ]. split; [exact Hph | ].
    intros b Hr. subst r. split.
    + destruct (attempt_notes_tagged _ _ _ _ _ _ Hn4 E) as [n' [Hw'' Htag]].
      rewrite Hw' in Hw''.
      assert (Hn' : n = n') by (unfold outcome_record in Hw''; congruence).
      subst n'. exact Htag.
    + apply (attempt_result _ _ _ _ _ _ E).
Qed.

(** X16: the record of an attempt that returns. When
    [run_single_account] returns, it has handed exactly one record to
    the writer; the record is that of an account with the phone number
    given, shown in [phone_used] (empty without a number); its notes are
    one of the outcome tags, never the placeholder; and the value
    returned is False, which stops the batch, only when the pause on
    success is on. *)
Theorem returned_attempt_record cfg ua phone_number w b w' :
  run_single_account cfg ua phone_number w = (Ok b, w') ->
  exists data n,
    written (trace w') = outcome_record data n :: written (trace w)
    /\ phone data = phone_number
    /\ phone_used (outcome_record data n) = Some (phone_or phone_number "")
    /\ lookup "notes" (outcome_record data n) = Some n
    /\ outcome_tag n
    /\ (b = false -> pause_on_success cfg = true).
Proof.
  intros E.
  destruct (run_single_account_record _ _ _ _ _ _ E)
    as [[data [n [Hw [Hph Hok]]]] | [_ [Hr _]]]; [ | discriminate Hr ].
  destruct (Hok b eq_refl) as [Htag Hstop].
  exists data, n. split; [exact Hw | ]. split; [exact Hph | ].
  split; [ rewrite <- Hph; reflexivity | ].
  split; [reflexivity | ]. split; [exact Htag | exact Hstop].
Qed.

Lemma returned_attempt_record_witness :
  exists data n,
    written (trace (snd (run_single_account default_config "UA" (Some "+15551234567")
                                            browser_ready)))
    = [outcome_record data n]
    /\ phone data = Some "+15551234567"
    /\ outcome_tag n.
Proof.
  destruct (returned_attempt_record default_config "UA" (Some "+15551234567") browser_ready
              true
              (snd (run_single_account default_config "UA" (Some "+15551234567")
                                       browser_ready)))
    as [data [n [Hw [Hph [_ [_ [Htag _]]]]]]].
  - vm_compute. reflexivity.
  - exists data, n. split; [exact Hw | ]. split; [exact Hph | exact Htag].
Defined.

Lemma phone_used_of_record data n ph :
  phone data = Some ph -> phone_used (outcome_record data n) = Some ph.
Proof.
  destruct data as [fn ln em pw co p ts]. simpl. intros ->.
  change (Some (phone_or (Some ph) "") = Some ph). unfold phone_or.
  destruct (String.eqb ph "") eqn:E; [ | reflexivity ].
  apply String.eqb_eq in E. subst. reflexivity.
Qed.

Lemma written_jitter a b w :
  written (trace (snd (jitter_sleep a b w))) = written (trace w).
Proof. reflexivity. Qed.

Lemma run_loop_in_order cfg ua queue : forall w r w',
  run_loop cfg ua queue w = (r, w') ->
  exists records,
    written (trace w') = records ++ written (trace w)
    /\ map phone_used (rev records) = map Some (firstn (List.length records) queue)
    /\ List.length records <= List.length queue
    /\ (r = Ok tt -> pause_on_success cfg = false ->
        List.length records = List.length queue).
Proof.
  induction queue as [|ph rest IH]; intros w r w' E.
  - inversion E; subst. exists []. simpl. auto.
  - rewrite run_loop_cons in E. apply bind_inv in E.
    destruct E as [[c [w1 [E1 E]]] | [e [E1 Hr]]].
    + destruct (run_single_account_record _ _ _ _ _ _ E1)
        as [[data [n [Hw [Hph Hok]]]] | [_ [Habs _]]]; [ | discriminate Habs ].
      destruct (Hok c eq_refl) as [_ Hstop].
      destruct c; simpl negb in E; cbv iota in E.
      * apply bind_inv in E.
        destruct E as [[[] [w2 [E2 E]]] | [e [E2 _]]];
          [ | exact (False_ind _ (never_raises_not_raise _ _ _ _ ltac:(total) E2)) ].
        assert (Hw2 : written (trace w2) = written (trace w1)).
        { pose proof (written_jitter (2 # 10) (6 # 10) w1) as H. rewrite E2 in H. exact H. }
        destruct (IH _ _ _ E) as [records [Hrec [Hmap [Hlen Hall]]]].
        exists (records ++ [outcome_record data n]).
        split; [ rewrite Hrec, Hw2, Hw, <- app_assoc; reflexivity | ].
        rewrite rev_app_distr, length_app. simpl rev. simpl List.length.
        replace (List.length records + 1) with (S (List.length records)) by lia.
        simpl. rewrite Hmap, (phone_used_of_record _ _ _ Hph).
        split; [reflexivity | ]. split; [lia | ].
        intros Hr Hp. specialize (Hall Hr Hp). lia.
      * inversion E; subst; clear E. exists [outcome_record data n].
        cbn [trace set_trace written]. rewrite Hw.
        split; [reflexivity | ]. simpl. rewrite (phone_used_of_record _ _ _ Hph).
        split; [reflexivity | ]. split; [lia | ].
        intros _ Hp. rewrite (Hstop eq_refl) in Hp. discriminate Hp.
    + subst r.
      destruct (run_single_account_record _ _ _ _ _ _ E1)
        as [[data [n [Hw [Hph _]]]] | [Hw _]].
      * exists [outcome_record data n]. rewrite Hw.
        split; [reflexivity | ]. simpl. rewrite (phone_used_of_record _ _ _ Hph).
        split; [reflexivity | ]. split; [lia | intros; discriminate].
      * exists []. rewrite Hw. simpl. split; [reflexivity | ]. split; [reflexivity | ].
        split; [lia | intros; discriminate].
Qed.

(** X17: a batch uses the numbers of its queue in order, one record
    each. Whatever happens, the records [run] adds for a non-empty queue
    are those of a prefix of the queue: the k-th record carries the k-th
    number in [phone_used]. When [run] returns and the pause on success
    is off, the prefix is the whole queue. *)
Theorem batch_uses_numbers_in_order cfg ua queue w r w' :
  queue <> [] ->
  run cfg ua queue w = (r, w') ->
  exists records,
    written (trace w') = records ++ written (trace w)
    /\ map phone_used (rev records) = map Some (firstn (List.length records) queue)
    /\ List.length records <= List.length queue
    /\ (r = Ok tt -> pause_on_success cfg = false ->
        List.length records = List.length queue).
Proof.
  intros Hq E. destruct queue as [|ph rest]; [congruence | ].
  rewrite run_cons in E. apply bind_inv in E.
  destruct E as [[a [w0 [E0 E]]] | [e [E0 _]]]; [ | discriminate E0 ].
  assert (H0 : written (trace w0) = written (trace w)) by (inversion E0; subst; reflexivity).
  destruct (run_loop_in_order _ _ _ _ _ _ E) as [records H].
  exists records. rewrite <- H0. exact H.
Qed.

Lemma batch_uses_numbers_in_order_witness :
  exists records,
    written (trace (snd (run default_config "UA" ["+15551234567"; "+15557654321"]
                             browser_ready))) = records
    /\ map phone_used (rev records) = [Some "+15551234567"; Some "+15557654321"].
Proof.
  destruct (batch_uses_numbers_in_order default_config "UA"
              ["+15551234567"; "+15557654321"] browser_ready
              (fst (run default_config "UA" ["+15551234567"; "+15557654321"] browser_ready))
              (snd (run default_config "UA" ["+15551234567"; "+15557654321"] browser_ready)))
    as [records [Hw [Hmap [_ Hall]]]].
  - discriminate.
  - apply surjective_pairing.
  - exists records. split; [ rewrite Hw; apply app_nil_r | ].
    rewrite Hmap, Hall; [reflexivity | vm_compute; reflexivity | reflexivity].
Defined.

Lemma new_context_context_frame cfg ua : stable (keeping context_frame) (new_context cfg ua).
Proof. stab. Qed.

Lemma attempt_handler_context_frame cfg e :
  stable (keeping context_frame) (attempt_handler cfg e ;; ret true).
Proof. stab. Qed.

Lemma page_flow_context_frame cfg c data :
  stable (keeping context_frame)
         (ext_call (OpNewPage c) ;;
          p <- fresh_handle ;;
          loaded <- navigate cfg p ;;
          if negb loaded
          then modify (set_notes "nav_failed") ;; raise (Exception "NavigationFailed")
          else after_navigation cfg p data).
Proof. stab. Qed.

Lemma finalizer_closes cfg data w :
  exists w',
    attempt_finalizer cfg data w = (Ok tt, w')
    /\ context_closes (trace w')
       = match context w with
         | Some c => if pause_on_success cfg then [] else [c]
         | None => []
         end ++ context_closes (trace w).
Proof.
  unfold attempt_finalizer, output_writer_write_row.
  unfold bind at 1, read at 1. cbv beta iota.
  destruct (never_raises_ok _ w
              (ltac:(unfold write_row; total)
                : never_raises (write_row (OUTPUT_CSV cfg) (CSV_FIELDS cfg)
                                          (outcome_record data (notes w))))) as [[] E].
  assert (F : context_frame (snd (write_row (OUTPUT_CSV cfg) (CSV_FIELDS cfg)
                                            (outcome_record data (notes w)) w))
              = context_frame w).
  { apply (ltac:(unfold write_row; stab)
            : stable (keeping context_frame)
                     (write_row (OUTPUT_CSV cfg) (CSV_FIELDS cfg)
                                (outcome_record data (notes w)))). }
  set (w1 := snd _) in *. rewrite (bind_ok _ _ _ _ _ E).
  unfold context_frame in F. injection F as Hc Hcl.
  unfold bind at 1, read at 1. cbv beta iota. rewrite Hc.
  destruct (context w) as [ch|]; [ | exists w1; split; [reflexivity | exact Hcl] ].
  destruct (pause_on_success cfg);
    [ exists w1; split; [reflexivity | exact Hcl] | ].
  change (negb false) with true. cbv iota.
  unfold close_context, try_except, bind, ext_call, log, emit, ret.
  destruct (ext (env w1) (ext_pos w1)); eexists; (split; [reflexivity | ]);
    cbn; rewrite Hcl; reflexivity.
Qed.

(** X18: an attempt closes the context it created, once, and nothing
    else. Started with no context, [attempt] ends with exactly one call
    of [context.close], on the context [new_context] returned, whatever
    happened in between and whether the close raises or not; it closes
    nothing when [new_context] raised, and nothing either when the pause
    on success is on, in which case the context stays open even after a
    failed attempt. *)
Theorem attempt_closes_its_context cfg ua data w :
  context w = None ->
  context_closes (trace (snd (attempt cfg ua data w)))
  = match fst (new_context cfg ua w) with
    | Ok c => if pause_on_success cfg then [] else [c]
    | Raise _ => []
    end ++ context_closes (trace w).
Proof.
  intros Hctx. rewrite attempt_unfold. unfold finally.
  destruct (try_except (attempt_body cfg ua data)
              (fun e => attempt_handler cfg e ;; ret true) w) as [r w1] eqn:Et.
  assert (Hframe : context_frame w1
                   = (match fst (new_context cfg ua w) with
                      | Ok c => Some c
                      | Raise _ => None
                      end, context_closes (trace w))).
  { unfold try_except in Et.
    destruct (attempt_body cfg ua data w) as [rb wb] eqn:Eb.
    assert (Hb : context_frame wb
                 = (match fst (new_context cfg ua w) with
                    | Ok c => Some c
                    | Raise _ => None
                    end, context_closes (trace w))).
    { rewrite attempt_body_unfold in Eb. apply bind_inv in Eb.
      destruct Eb as [[c [w0 [E0 Eb]]] | [e [E0 _]]].
      - pose proof (kept_step context_frame _ _ _ _ (new_context_context_frame cfg ua) E0)
          as F0.
        rewrite E0. simpl fst.
        apply bind_inv in Eb. destruct Eb as [[a [w2 [E2 Eb]]] | [e [E2 _]]];
          [ | discriminate E2 ].
        pose proof (kept_step context_frame _ _ _ _ (page_flow_context_frame cfg c data) Eb)
          as F.
        rewrite F. inversion E2; subst. unfold context_frame in *.
        cbn [context trace set_context]. injection F0 as _ Hcl. rewrite Hcl. reflexivity.
      - pose proof (kept_step context_frame _ _ _ _ (new_context_context_frame cfg ua) E0)
          as F0.
        rewrite E0. simpl fst. rewrite F0. unfold context_frame. rewrite Hctx. reflexivity. }
    destruct rb as [b|e].
    - inversion Et; subst. exact Hb.
    - rewrite <- Hb.
      exact (kept_step context_frame _ _ _ _ (attempt_handler_context_frame cfg e) Et). }
  destruct (finalizer_closes cfg data w1) as [w2 [Ef Hcl]].
  rewrite Ef. simpl snd. rewrite Hcl.
  unfold context_frame in Hframe. injection Hframe as Hc Hcl1. rewrite Hc, Hcl1.
  destruct (fst (new_context cfg ua w)); reflexivity.
Qed.

Lemma attempt_closes_its_context_witness :
  context_closes (trace (snd (attempt default_config "UA" sample_phone_account
                                      relaunch_fails))) = [1].
Proof.
  exact (attempt_closes_its_context default_config "UA" sample_phone_account
           relaunch_fails eq_refl).
Defined.

(** ** The start of a session *)

Lemma initialize_existing filename fieldnames w :
  fs w <> None -> _initialize_file filename fieldnames w = (Ok tt, w).
Proof.
  intros H. unfold _initialize_file, bind, read.
  destruct (fs w); [reflexivity | congruence].
Qed.

Lemma initialize_outcomes filename fieldnames w :
  fs w = None ->
  exists w',
    idle_frame w' = idle_frame w /\ browser w' = browser w /\ env w' = env w
    /\ launch_count (trace w') = launch_count (trace w)
    /\ match ext (env w) (ext_pos w) with
       | Throw e => _initialize_file filename fieldnames w = (Raise e, w') /\ fs w' = None
       | Ret _ =>
           match ext (env w) (S (ext_pos w)) with
           | Throw e => _initialize_file filename fieldnames w = (Raise e, w')
                        /\ fs w' = Some []
           | Ret _ => _initialize_file filename fieldnames w = (Ok tt, w')
                      /\ fs w' = Some [fieldnames]
                      /\ ext_pos w' = S (S (ext_pos w))
           end
       end.
Proof.
  destruct w as [[ex rn st] xp rp sp t b nh ai f n c].
  cbn [fs env ext ext_pos]. intros ->. unfold _initialize_file. run.
  destruct (ex xp) as [v|e]; run.
  - destruct (ex (S xp)) as [v'|e']; run.
    + eexists. repeat split; reflexivity.
    + destruct (is_ioerror e'); eexists; repeat split; reflexivity.
  - destruct (is_ioerror e); eexists; repeat split; reflexivity.
Qed.

Lemma launch_raises cfg w e :
  browser w = None -> ext (env w) (ext_pos w) = Throw e ->
  exists w',
    launch cfg w = (Raise e, w')
    /\ idle_frame w' = idle_frame w /\ fs w' = fs w /\ browser w' = None.
Proof.
  destruct w as [[ex rn st] xp rp sp t b nh ai f n c].
  cbn [browser env ext ext_pos]. intros -> E. unfold launch. run. rewrite E.
  eexists. repeat split; reflexivity.
Qed.

Lemma session_unfold cfg ua queue :
  session cfg ua queue
  = (_initialize_file (OUTPUT_CSV cfg) (CSV_FIELDS cfg) ;;
     launch cfg ;;
     run cfg ua queue ;;
     log INFO "--- Bot session finished successfully ---").
Proof. reflexivity. Qed.

(** X19: a session that cannot start. With no browser launched yet,
    [session] raises the exception of the step that failed and runs no
    attempt, writes no record and asks for no context: when the output
    file cannot be created, before anything is launched and with no file
    left; when the file exists or was created with its header and
    [chromium.launch] raises, with the file as it is, or holding the
    header only. *)
Theorem session_cannot_start cfg ua queue w e :
  browser w = None ->
  (fs w = None -> ext (env w) (ext_pos w) = Throw e ->
   exists w',
     session cfg ua queue w = (Raise e, w')
     /\ idle_frame w' = idle_frame w /\ fs w' = None
     /\ launch_count (trace w') = launch_count (trace w))
  /\ (fs w <> None -> ext (env w) (ext_pos w) = Throw e ->
      exists w',
        session cfg ua queue w = (Raise e, w')
        /\ idle_frame w' = idle_frame w /\ fs w' = fs w)
  /\ (fs w = None ->
      is_throw (ext (env w) (ext_pos w)) = false ->
      is_throw (ext (env w) (S (ext_pos w))) = false ->
      ext (env w) (S (S (ext_pos w))) = Throw e ->
      exists w',
        session cfg ua queue w = (Raise e, w')
        /\ idle_frame w' = idle_frame w /\ fs w' = Some [CSV_FIELDS cfg]).
Proof.
  intros Hb. rewrite session_unfold. split; [ | split ].
  - intros Hfs He.
    destruct (initialize_outcomes (OUTPUT_CSV cfg) (CSV_FIELDS cfg) w Hfs)
      as [w' [Hidle [_ [_ [Hl H]]]]].
    rewrite He in H. destruct H as [E Hf].
    exists w'. rewrite (bind_raise _ _ _ _ _ E). auto.
  - intros Hfs He.
    rewrite (bind_ok _ _ _ _ _ (initialize_existing _ _ w Hfs)).
    destruct (launch_raises cfg w e Hb He) as [w' [E [Hidle [Hf _]]]].
    exists w'. rewrite (bind_raise _ _ _ _ _ E). auto.
  - intros Hfs H1 H2 He.
    destruct (initialize_outcomes (OUTPUT_CSV cfg) (CSV_FIELDS cfg) w Hfs)
      as [w1 [Hidle [Hb1 [Henv [_ H]]]]].
    destruct (ext (env w) (ext_pos w)); [ | discriminate H1 ].
    destruct (ext (env w) (S (ext_pos w))); [ | discriminate H2 ].
    destruct H as [E [Hf Hpos]].
    rewrite (bind_ok _ _ _ _ _ E).
    destruct (launch_raises cfg w1 e) as [w' [E' [Hidle' [Hf' _]]]].
    + congruence.
    + rewrite Henv, Hpos. exact He.
    + exists w'. rewrite (bind_raise _ _ _ _ _ E'). split; [reflexivity | ].
      split; congruence.
Qed.

Lemma session_cannot_start_witness :
  exists w',
    session default_config "UA" ["+15551234567"]
            (initial_world (scripted [Ret VNone; Ret VNone; Throw launch_error] [] []) None)
    = (Raise launch_error, w')
    /\ fs w' = Some [CSV_FIELDS default_config]
    /\ written (trace w') = [].
Proof.
  destruct (session_cannot_start default_config "UA" ["+15551234567"]
              (initial_world (scripted [Ret VNone; Ret VNone; Throw launch_error] [] []) None)
              launch_error eq_refl)
    as [_ [_ H]].
  destruct (H eq_refl eq_refl eq_refl eq_refl) as [w' [E [Hidle Hf]]].
  exists w'. split; [exact E | ]. split; [exact Hf | ].
  unfold idle_frame in Hidle. injection Hidle as _ Hw _. exact Hw.
Defined.

Lemma write_row_appends filename fieldnames data w :
  sink_accepts fieldnames data w = true ->
  fs (snd (write_row filename fieldnames data w))
  = Some (file_rows (fs w) ++ [row_of fieldnames data]).
Proof.
  unfold sink_accepts, write_row, bind, try_except, emit, ext_call, read, modify, log,
    emit, raise; cbn.
  destruct (ext (env w) (ext_pos w)) as [v|e]; cbn; [ | discriminate ].
  destruct (has_extra_keys fieldnames data); cbn; [discriminate | ].
  destruct (ext (env w) (S (ext_pos w))) as [v'|e']; cbn; [ | discriminate ].
  reflexivity.
Qed.

(** X20: a header that is lost for good. When the output file does not
    exist and can be opened but writing the header raises,
    [_initialize_file] raises that exception and leaves an empty file
    behind. The next writer finds the file, so it writes no header: the
    rows that follow are appended to a file without one. *)
Theorem header_lost_after_failed_creation filename fieldnames w e :
  fs w = None ->
  is_throw (ext (env w) (ext_pos w)) = false ->
  ext (env w) (S (ext_pos w)) = Throw e ->
  exists w1,
    _initialize_file filename fieldnames w = (Raise e, w1)
    /\ fs w1 = Some []
    /\ _initialize_file filename fieldnames w1 = (Ok tt, w1)
    /\ forall data,
         sink_accepts fieldnames data w1 = true ->
         fs (snd (write_row filename fieldnames data w1)) = Some [row_of fieldnames data].
Proof.
  intros Hfs H1 H2.
  destruct (initialize_outcomes filename fieldnames w Hfs) as [w1 [_ [_ [_ [_ H]]]]].
  destruct (ext (env w) (ext_pos w)); [ | discriminate H1 ].
  rewrite H2 in H. destruct H as [E Hf].
  exists w1. split; [exact E | ]. split; [exact Hf | ].
  split; [ apply initialize_existing; congruence | ].
  intros data Hok. rewrite (write_row_appends _ _ _ _ Hok), Hf. reflexivity.
Qed.

Lemma header_lost_after_failed_creation_witness :
  exists w1,
    _initialize_file (OUTPUT_CSV default_config) (CSV_FIELDS default_config)
                     header_write_fails = (Raise disk_full, w1)
    /\ fs (snd (write_row (OUTPUT_CSV default_config) (CSV_FIELDS default_config)
                          sample_row w1))
       = Some [["t2"; ""; "e2"; "pw2"; "f2"; "l2"; "c2"; "nav_failed"]].
Proof.
  destruct (header_lost_after_failed_creation (OUTPUT_CSV default_config)
              (CSV_FIELDS default_config) header_write_fails disk_full
              eq_refl eq_refl eq_refl)
    as [w1 [E [Hf [_ Hrow]]]].
  exists w1. split; [exact E | ].
  assert (Hw1 : w1 = snd (_initialize_file (OUTPUT_CSV default_config)
                            (CSV_FIELDS default_config) header_write_fails))
    by (rewrite E; reflexivity).
  rewrite Hrow; [reflexivity | ]. rewrite Hw1. reflexivity.
Defined.


(** ** An attempt without a browser *)

(** X21: [run_single_account] never launches a browser by itself. When
    no browser is held, an attempt fails in [new_context] with
    [Exception("BrowserNotLaunched")] before any call to the browser; the
    handler does not relaunch, the record is written with the notes
    [flow_exception:Exception], the attempt returns True and still no
    browser is held, so every attempt of the batch ends the same way. *)
Theorem attempt_without_browser cfg ua data w :
  browser w = None -> notes w = "init" -> context w = None ->
  exists w',
    attempt cfg ua data w = (Ok true, w')
    /\ written (trace w')
       = outcome_record data "flow_exception:Exception" :: written (trace w)
    /\ browser w' = None
    /\ launch_count (trace w') = launch_count (trace w)
    /\ context_calls (trace w') = context_calls (trace w)
    /\ notes w' = "flow_exception:Exception" /\ context w' = None.
Proof.
  intros Hb Hn Hc.
  set (w1 := set_trace (ELog ERROR "Browser not launched. Call launch() first." :: trace w) w).
  assert (Eb : attempt_body cfg ua data w = (Raise (Exception "BrowserNotLaunched"), w1)).
  { rewrite attempt_body_unfold. unfold new_context, bind at 1 2, read. rewrite Hb.
    reflexivity. }
  set (w2 := set_notes "flow_exception:Exception"
               (set_trace (ELog ERROR "%s Unhandled exception in flow for %s: %s"
                           :: trace w1) w1)).
  assert (Eh : (attempt_handler cfg (Exception "BrowserNotLaunched") ;; ret true) w1
               = (Ok true, w2)).
  { unfold attempt_handler.
    change (browser_closed (Exception "BrowserNotLaunched")) with false. cbv iota.
    unfold bind, log, emit, read, when, modify, ret.
    cbn [notes set_trace]. subst w1. cbn [notes set_trace]. rewrite Hn. reflexivity. }
  destruct (finalizer_closes cfg data w2) as [w3 [Ef Hcl]].
  destruct (attempt_finalizer_records cfg data w2) as [w3' [Ef' [Hw3 [_ [_ [Hb3 _]]]]]].
  rewrite Ef in Ef'. inversion Ef'; subst w3'; clear Ef'.
  exists w3. split; [ | split; [ | split; [ | split; [ | split ] ] ] ].
  - rewrite attempt_unfold. apply finally_runs with (w1 := w2); [ | exact Ef ].
    rewrite (try_except_raise _ _ _ _ _ Eb). exact Eh.
  - rewrite Hw3. reflexivity.
  - rewrite Hb3. exact Hb.
  - pose proof (kept_step manager_state _ _ _ _ (attempt_finalizer_manager cfg data) Ef) as F.
    unfold manager_state in F. injection F as Hl _. rewrite Hl. reflexivity.
  - assert (F : (context_calls (trace w3), notes w3, context w3)
                = (context_calls (trace w2), notes w2, context w2)).
    { eapply (kept_step (fun w => (context_calls (trace w), notes w, context w)));
        [ | exact Ef ].
      unfold attempt_finalizer, output_writer_write_row, write_row. stab. }
    injection F as F1 _ _. rewrite F1. reflexivity.
  - assert (F : (context_calls (trace w3), notes w3, context w3)
                = (context_calls (trace w2), notes w2, context w2)).
    { eapply (kept_step (fun w => (context_calls (trace w), notes w, context w)));
        [ | exact Ef ].
      unfold attempt_finalizer, output_writer_write_row, write_row. stab. }
    injection F as _ F2 F3. rewrite F2, F3. split; [reflexivity | exact Hc].
Qed.

Lemma attempt_without_browser_witness :
  exists w',
    attempt default_config "UA" sample_phone_account
            (set_notes "init" (initial_world always_succeeds None)) = (Ok true, w')
    /\ written (trace w') = [outcome_record sample_phone_account "flow_exception:Exception"]
    /\ browser w' = None.
Proof.
  destruct (attempt_without_browser default_config "UA" sample_phone_account
              (set_notes "init" (initial_world always_succeeds None))
              eq_refl eq_refl eq_refl)
    as [w' [E [Hw [Hb _]]]].
  exists w'. split; [exact E | ]. split; [exact Hw | exact Hb].
Defined.

(** ** Sleeps and rows *)




Lemma has_extra_keys_missing fieldnames (data : Dict) key :
  In key (map fst data) -> in_list key fieldnames = false ->
  has_extra_keys fieldnames data = true.
Proof.
  intros Hin Hmiss. unfold has_extra_keys. apply existsb_exists.
  apply in_map_iff in Hin. destruct Hin as [[k v] [Hk Hin]]. simpl in Hk. subst k.
  exists (key, v). split; [exact Hin | ]. simpl. rewrite Hmiss. reflexivity.
Qed.

Lemma write_row_refused filename fieldnames data w :
  has_extra_keys fieldnames data = true ->
  file_rows (fs (snd (write_row filename fieldnames data w))) = file_rows (fs w).
Proof.
  intros H. unfold write_row, bind, try_except, emit, ext_call, read, modify, log,
    emit, raise; cbn.
  destruct (ext (env w) (ext_pos w)) as [v|e]; cbn.
  - rewrite H. cbn. destruct (is_ioerror ValueError); reflexivity.
  - destruct (is_ioerror e); reflexivity.
Qed.

(** X23: the outcome record and the header. The record of an attempt
    has exactly the eight keys of the default CSV_FIELDS: with the
    default fields the writer never refuses it and its row holds the
    values in the order of the header, the notes last. A row always has
    as many cells as there are field names. With a CSV_FIELDS that lacks
    one of the eight keys the writer refuses every record, so that no row
    is ever added to the file. *)
Theorem outcome_record_row data n :
  has_extra_keys (CSV_FIELDS default_config) (outcome_record data n) = false
  /\ row_of (CSV_FIELDS default_config) (outcome_record data n)
     = [timestamp data; phone_or (phone data) ""; email data; password data;
        first_name data; last_name data; country data; n]
  /\ map fst (outcome_record data n) = CSV_FIELDS default_config
  /\ (forall fieldnames (d : Dict),
        List.length (row_of fieldnames d) = List.length fieldnames)
  /\ (forall fieldnames key filename w,
        In key (CSV_FIELDS default_config) -> in_list key fieldnames = false ->
        file_rows (fs (snd (write_row filename fieldnames (outcome_record data n) w)))
        = file_rows (fs w)).
Proof.
  split; [reflexivity | ]. split; [reflexivity | ]. split; [reflexivity | ].
  split; [ intros; unfold row_of; apply length_map | ].
  intros fieldnames key filename w Hin Hmiss.
  apply write_row_refused. apply (has_extra_keys_missing _ _ key); [exact Hin | exact Hmiss].
Qed.

(** ** The output file over a batch *)

#[export] Instance appends_only_preorder : PreOrder appends_only.
Proof.
  split.
  - intros w. exists []. rewrite app_nil_r. simpl. auto.
  - intros a b c [r1 [H1 L1]] [r2 [H2 L2]]. exists (r1 ++ r2).
    rewrite H2, H1, app_assoc, length_app. split; [reflexivity | lia].
Qed.

Lemma sink_kept_appends {A} (m : M A) :
  stable (keeping sink_state) m -> stable appends_only m.
Proof.
  intros H w. specialize (H w). unfold keeping, sink_state in H. injection H as Hf Hc.
  exists []. rewrite app_nil_r, Hf, Hc. simpl. auto.
Qed.

Lemma write_row_appends_only filename fieldnames data :
  stable appends_only (write_row filename fieldnames data).
Proof.
  intros w. unfold appends_only, write_row, bind, try_except, emit, ext_call, read, modify,
    log, emit, raise; cbn.
  destruct (ext (env w) (ext_pos w)) as [v|e]; cbn.
  - destruct (has_extra_keys fieldnames data); cbn.
    + destruct (is_ioerror ValueError); cbn; exists []; rewrite app_nil_r; simpl; auto.
    + destruct (ext (env w) (S (ext_pos w))) as [v'|e']; cbn.
      * eexists [_]. split; [reflexivity | simpl; lia].
      * destruct (is_ioerror e'); cbn; exists []; rewrite app_nil_r; simpl; auto.
  - destruct (is_ioerror e); cbn; exists []; rewrite app_nil_r; simpl; auto.
Qed.

Lemma attempt_finalizer_appends_only cfg data :
  stable appends_only (attempt_finalizer cfg data).
Proof.
  unfold attempt_finalizer, output_writer_write_row.
  apply stable_bind; [typeclasses eauto | apply sink_kept_appends; stab | intro n].
  apply stable_bind; [typeclasses eauto | apply write_row_appends_only | intros _].
  apply sink_kept_appends. stab.
Qed.

Lemma attempt_appends_only cfg ua data : stable appends_only (attempt cfg ua data).
Proof.
  rewrite attempt_unfold.
  apply stable_finally; [typeclasses eauto | | apply attempt_finalizer_appends_only].
  apply sink_kept_appends. stab.
Qed.

Lemma run_single_account_appends_only cfg ua phone_number :
  stable appends_only (run_single_account cfg ua phone_number).
Proof.
  rewrite run_single_account_unfold.
  apply stable_bind; [typeclasses eauto | apply sink_kept_appends; stab | intros _].
  apply stable_bind; [typeclasses eauto | apply sink_kept_appends; stab | intros data].
  apply stable_bind; [typeclasses eauto | apply sink_kept_appends; stab | intros _].
  apply stable_bind; [typeclasses eauto | apply sink_kept_appends; stab | intros _].
  apply stable_bind; [typeclasses eauto | apply sink_kept_appends; stab | intros _].
  apply attempt_appends_only.
Qed.

Lemma run_loop_appends_only cfg ua queue : stable appends_only (run_loop cfg ua queue).
Proof.
  induction queue as [|ph rest IH].
  - intro w. simpl. reflexivity.
  - rewrite run_loop_cons.
    apply stable_bind; [typeclasses eauto | apply run_single_account_appends_only | intros c].
    destruct c; simpl negb; cbv iota.
    + apply stable_bind; [typeclasses eauto | apply sink_kept_appends; stab | intros _].
      exact IH.
    + apply sink_kept_appends. stab.
Qed.

Lemma run_appends_only cfg ua queue : stable appends_only (run cfg ua queue).
Proof.
  destruct queue as [|ph rest].
  - rewrite run_nil.
    apply stable_bind; [typeclasses eauto | apply sink_kept_appends; stab | intros _].
    apply stable_bind; [typeclasses eauto | apply run_single_account_appends_only | intros _].
    apply sink_kept_appends. stab.
  - rewrite run_cons.
    apply stable_bind; [typeclasses eauto | apply sink_kept_appends; stab | intros _].
    apply run_loop_appends_only.
Qed.

(** X24: the output file is append-only over a batch. Whatever the
    pages, the browser and the file system do, and however [run] ends,
    the rows the file held before are still there, in their place, and
    the rows added after them are at most as many as the records handed
    to the writer. Over a whole session the same holds for the rows,
    the header being the one row that no record accounts for. *)
Theorem output_is_append_only cfg ua queue w :
  (exists added,
      file_rows (fs (snd (run cfg ua queue w))) = file_rows (fs w) ++ added
      /\ List.length added + count_writes (trace w)
         <= count_writes (trace (snd (run cfg ua queue w))))
  /\ (exists added,
        file_rows (fs (snd (session cfg ua queue w))) = file_rows (fs w) ++ added
        /\ List.length added + count_writes (trace w)
           <= S (count_writes (trace (snd (session cfg ua queue w))))).
Proof.
  split; [ exact (run_appends_only cfg ua queue w) | ].
  rewrite session_unfold.
  destruct (_initialize_file (OUTPUT_CSV cfg) (CSV_FIELDS cfg) w) as [[[]|e] w1] eqn:E1.
  - rewrite (bind_ok _ _ _ _ _ E1).
    assert (H1 : exists header,
               file_rows (fs w1) = file_rows (fs w) ++ header
               /\ List.length header <= 1
               /\ count_writes (trace w1) = count_writes (trace w)).
    { destruct (fs w) as [rows|] eqn:Hf.
      - rewrite initialize_existing in E1 by congruence. inversion E1; subst.
        exists []. rewrite app_nil_r, Hf. simpl. auto.
      - destruct (initialize_outcomes (OUTPUT_CSV cfg) (CSV_FIELDS cfg) w Hf)
          as [w1' [Hidle [_ [_ [_ H]]]]].
        unfold idle_frame in Hidle. injection Hidle as _ Hw _.
        apply (f_equal (@List.length Dict)) in Hw. rewrite !written_count in Hw.
        destruct (ext (env w) (ext_pos w)); [ | destruct H as [H _]; congruence ].
        destruct (ext (env w) (S (ext_pos w))); [ | destruct H as [H _]; congruence ].
        destruct H as [H [Hfs _]]. rewrite E1 in H. inversion H; subst w1'.
        exists [CSV_FIELDS cfg]. rewrite Hfs. simpl. auto. }
    destruct H1 as [header [Hrows [Hlen Hcount]]].
    assert (Hrest : appends_only w1
                      (snd ((launch cfg ;; run cfg ua queue ;;
                             log INFO "--- Bot session finished successfully ---") w1))).
    { apply (stable_bind appends_only); [ apply sink_kept_appends; stab | intros _ ].
      apply (stable_bind appends_only); [ apply run_appends_only | intros _ ].
      apply sink_kept_appends. stab. }
    destruct Hrest as [added [Ha Hc]].
    exists (header ++ added). rewrite Ha, Hrows, app_assoc, length_app.
    split; [reflexivity | lia].
  - rewrite (bind_raise _ _ _ _ _ E1). simpl snd.
    destruct (fs w) as [rows|] eqn:Hf.
    + rewrite initialize_existing in E1 by congruence. discriminate E1.
    + destruct (initialize_outcomes (OUTPUT_CSV cfg) (CSV_FIELDS cfg) w Hf)
        as [w1' [Hidle [_ [_ [_ H]]]]].
      unfold idle_frame in Hidle. injection Hidle as _ Hw _.
      apply (f_equal (@List.length Dict)) in Hw. rewrite !written_count in Hw.
      exists [].
      assert (Hw1 : file_rows (fs w1') = [] /\ w1' = w1).
      { destruct (ext (env w) (ext_pos w)).
        - destruct (ext (env w) (S (ext_pos w))).
          + destruct H as [H _]. congruence.
          + destruct H as [H Hfs]. rewrite Hfs. split; [reflexivity | congruence].
        - destruct H as [H Hfs]. rewrite Hfs. split; [reflexivity | congruence]. }
      destruct Hw1 as [Hrows ->]. rewrite Hrows. simpl. split; [reflexivity | lia].
Qed.

(** ** Typing *)

Lemma keystrokes_typed p sel chars : forall w,
  exists typed,
    keystrokes (trace (snd (for_each chars (fun ch =>
                              d <- randint 6 18 ;;
                              ext_call (OpType p sel ch d) ;;
                              ret tt) w)))
    = rev typed ++ keystrokes (trace w)
    /\ map (fun k => snd (fst k)) typed = firstn (List.length typed) chars
    /\ Forall (fun k => fst (fst k) = sel /\ (6 <= snd k <= 18)%N) typed
    /\ List.length typed <= List.length chars
    /\ (fst (for_each chars (fun ch =>
                d <- randint 6 18 ;;
                ext_call (OpType p sel ch d) ;;
                ret tt) w) = Ok tt -> List.length typed = List.length chars).
Proof.
  induction chars as [|ch rest IH]; intros w.
  - exists []. simpl. repeat split; auto.
  - change (for_each (ch :: rest) ?body) with (body ch ;; for_each rest body).
    set (w0 := set_rnd_pos (S (rnd_pos w)) w).
    set (d := randint_of 6 18 (rnd (env w) (rnd_pos w))).
    assert (Hd : (6 <= d <= 18)%N) by (apply randint_of_bounds; lia).
    destruct (ext (env w0) (ext_pos w0)) as [v|e] eqn:E.
    + set (w1 := set_trace (ECall (OpType p sel ch d) (Ret v) :: trace w0)
                           (set_ext_pos (S (ext_pos w0)) w0)).
      assert (E1 : (x <- randint 6 18 ;; ext_call (OpType p sel ch x) ;; ret tt) w
                   = (Ok tt, w1)).
      { unfold randint, bind at 1 2 3, draw, ret. cbv beta iota. fold w0. fold d.
        rewrite (ext_call_ok _ w0 v E). reflexivity. }
      rewrite (bind_ok _ _ _ _ _ E1).
      destruct (IH w1) as [typed [Hk [Hmap [Hall [Hlen Hok]]]]].
      exists ((sel, ch, d) :: typed). rewrite Hk. subst w1. cbn [trace set_trace keystrokes].
      split; [ simpl rev; rewrite <- app_assoc; reflexivity | ].
      split; [ simpl; rewrite Hmap; reflexivity | ].
      split; [ constructor; [ split; [reflexivity | exact Hd] | exact Hall ] | ].
      split; [ simpl; lia | intros H; simpl; rewrite (Hok H); reflexivity ].
    + set (w1 := set_trace (ECall (OpType p sel ch d) (Throw e) :: trace w0)
                           (set_ext_pos (S (ext_pos w0)) w0)).
      assert (E1 : (x <- randint 6 18 ;; ext_call (OpType p sel ch x) ;; ret tt) w
                   = (Raise e, w1)).
      { unfold randint, bind at 1 2 3, draw, ret. cbv beta iota. fold w0. fold d.
        rewrite (ext_call_raise _ w0 e E). reflexivity. }
      rewrite (bind_raise _ _ _ _ _ E1).
      exists [(sel, ch, d)]. subst w1. cbn [snd fst trace set_trace keystrokes].
      split; [reflexivity | ]. split; [reflexivity | ].
      split; [ constructor; [ split; [reflexivity | exact Hd] | constructor ] | ].
      split; [ simpl; lia | discriminate ].
Qed.

(** X25: [type_text], the loop that types a text one character at a
    time. The keystrokes it sends are those of a prefix of the text, in
    order and on the selector given, one call of [type] per character,
    each with a delay between 6 and 18 milliseconds; the prefix is the
    whole text when no keystroke raises. *)
Theorem type_text_keystrokes p sel text w :
  exists typed,
    keystrokes (trace (snd (type_text p sel text w))) = rev typed ++ keystrokes (trace w)
    /\ map (fun k => snd (fst k)) typed
       = firstn (List.length typed) (list_ascii_of_string text)
    /\ Forall (fun k => fst (fst k) = sel /\ (6 <= snd k <= 18)%N) typed
    /\ List.length typed <= String.length text
    /\ (fst (type_text p sel text w) = Ok tt -> List.length typed = String.length text).
Proof.
  assert (Hlen : String.length text = List.length (list_ascii_of_string text)).
  { induction text as [|c t IH]; simpl; [reflexivity | rewrite IH; reflexivity]. }
  rewrite Hlen. unfold type_text.
  destruct (keystrokes_typed p sel (list_ascii_of_string text) w) as [typed H].
  exists typed. exact H.
Qed.

Open Scope list_scope.

(** ** A batch in which nothing raises *)

Lemma answers_ok_calm e : never_throws e -> forall n pos, answers_ok e pos n = true.
Proof.
  intros H n. induction n as [|n IH]; intros pos; simpl; [reflexivity | ].
  rewrite (H pos), IH. reflexivity.
Qed.

Lemma calm_answer w :
  never_throws (env w) -> exists v, ext (env w) (ext_pos w) = Ret v.
Proof.
  intros H. specialize (H (ext_pos w)).
  destruct (ext (env w) (ext_pos w)) as [v|e]; [eauto | discriminate H].
Qed.

Lemma calm_kept w w' :
  calm_frame w' = calm_frame w -> never_throws (env w) -> never_throws (env w').
Proof.
  unfold calm_frame. intros H Hc. assert (He : env w' = env w) by congruence.
  intros n. rewrite He. apply Hc.
Qed.

Lemma new_context_first_try cfg ua w b :
  browser w = Some b -> is_throw (ext (env w) (ext_pos w)) = false ->
  exists c w1,
    new_context cfg ua w = (Ok c, w1) /\ calm_frame w1 = calm_frame w /\ notes w1 = notes w.
Proof.
  destruct w as [[ex rn st] xp rp sp t b0 nh ai f n c].
  cbn [browser env ext ext_pos]. intros -> H. unfold new_context. run.
  destruct (ex xp) as [v|e]; [ | discriminate H ]. run.
  destruct (ex (S xp)); run; eexists _, _; repeat split; reflexivity.
Qed.

Lemma navigate_calm_frame cfg p : stable (keeping calm_frame) (navigate cfg p).
Proof. stab. Qed.

Lemma navigate_calm cfg p w :
  never_throws (env w) -> 1 <= MAX_NAV_RETRIES cfg ->
  exists w', navigate cfg p w = (Ok true, w')
             /\ calm_frame w' = calm_frame w /\ notes w' = notes w.
Proof.
  intros Hcalm Hmax.
  set (w0 := set_trace (ELog INFO "Navigating to signup URL..." :: trace w) w).
  destruct (goto_loop_loads cfg p (SIGNUP_URL cfg) 0 (MAX_NAV_RETRIES cfg - 1) 1 w0)
    as [w1 [E _]].
  - intros i Hi. lia.
  - apply Hcalm.
  - pose proof (Hcalm (S (ext_pos w0 + 0))) as H. change (env w0) with (env w).
    destruct (ext (env w) (S (ext_pos w0 + 0))); [reflexivity | discriminate H].
  - replace (0 + S (MAX_NAV_RETRIES cfg - 1)) with (MAX_NAV_RETRIES cfg) in E by lia.
    assert (En : navigate cfg p w = (Ok true, w1)).
    { unfold navigate.
      rewrite (bind_ok (log INFO "Navigating to signup URL...") _ w tt w0 eq_refl).
      unfold robust_goto. rewrite (bind_ok _ _ _ _ _ E). reflexivity. }
    exists w1. split; [exact En | ].
    split; [ exact (kept_step calm_frame _ _ _ _ (navigate_calm_frame cfg p) En) | ].
    exact (notes_kept _ _ _ _ (navigate_notes cfg p) En).
Qed.

Lemma fill_form_calm_frame cfg p data : stable (keeping calm_frame) (fill_form cfg p data).
Proof. stab. Qed.

Lemma fill_form_calm cfg p data w :
  never_throws (env w) ->
  exists w', fill_form cfg p data w = (Ok true, w')
             /\ calm_frame w' = calm_frame w /\ notes w' = notes w.
Proof.
  intros Hcalm.
  assert (E : exists w', fill_form cfg p data w = (Ok true, w')).
  { rewrite fill_form_unfold. unfold try_except. rewrite bind_split.
    destruct (never_raises_ok _ w (fill_form_prefix_total cfg p data)) as [[] E].
    rewrite (bind_ok _ _ _ _ _ E).
    pose proof (kept_step fills_kept _ _ _ _ (fill_form_prefix_kept cfg p data) E) as F.
    unfold fills_kept in F. injection F as Henv _.
    pose proof (fill_fields_outcome p data
                  (snd ((close_common_popups p ;;
                         jitter_sleep (5 # 100) (12 # 100) ;;
                         selected <- select_country cfg p (country data) ;;
                         when (negb selected)
                           (log WARNING "Country selection failed, proceeding anyway...")) w)))
      as Hf.
    rewrite answers_ok_calm in Hf by (rewrite Henv; exact Hcalm).
    destruct Hf as [w3 [Ef _]]. rewrite Ef. eauto. }
  destruct E as [w' E]. exists w'. split; [exact E | ].
  split; [ exact (kept_step calm_frame _ _ _ _ (fill_form_calm_frame cfg p data) E) | ].
  exact (notes_kept _ _ _ _ (fill_form_notes cfg p data) E).
Qed.

Lemma submit_form_calm p w :
  never_throws (env w) ->
  exists w', submit_form p w = (Ok true, w')
             /\ calm_frame w' = calm_frame w /\ notes w' = notes w.
Proof.
  intros Hcalm. destruct (calm_answer w Hcalm) as [v E].
  unfold submit_form, try_except. rewrite (bind_ok _ _ _ _ _ (ext_call_ok _ w v E)).
  eexists. split; [reflexivity | ]. split; reflexivity.
Qed.

Lemma submit_phone_calm_frame p ph : stable (keeping calm_frame) (submit_phone p ph).
Proof. stab. Qed.

Lemma post_submit_calm cfg p data ph w :
  never_throws (env w) -> phone data = Some ph -> ph <> "" ->
  exists w', post_submit cfg p data w = (Ok tt, w')
             /\ calm_frame w' = calm_frame w /\ notes w' = success_tag.
Proof.
  intros Hcalm Hph Hne.
  assert (Hpresent : phone_present (phone data) = true).
  { rewrite Hph. simpl. apply negb_true_iff, String.eqb_neq. exact Hne. }
  assert (Hor : phone_or (phone data) "" = ph).
  { rewrite Hph. simpl. apply String.eqb_neq in Hne. rewrite Hne. reflexivity. }
  destruct (wait_for_page_found p 8000 w (answers_ok_calm _ Hcalm _ _))
    as [w1 [E1 [Henv [_ [_ [_ _]]]]]].
  pose proof (kept_step calm_frame _ _ _ _
                (ltac:(stab) : stable (keeping calm_frame) (wait_for_page p 8000)) E1) as F1.
  destruct (submit_phone_sends p ph w1) as [w2 [rest [E2 _]]].
  { apply answers_ok_calm. intros k. rewrite Henv. apply Hcalm. }
  pose proof (kept_step calm_frame _ _ _ _ (submit_phone_calm_frame p ph) E2) as F2.
  exists (set_notes success_tag w2).
  unfold post_submit. rewrite Hpresent, (bind_ok _ _ _ _ _ E1). cbv beta iota.
  change (negb true) with false. cbv iota.
  rewrite Hor, (bind_ok _ _ _ _ _ E2).
  split; [reflexivity | ]. split; [ | reflexivity ].
  unfold calm_frame in *. cbn [env browser set_notes]. congruence.
Qed.

Lemma attempt_body_calm cfg ua data ph w b :
  never_throws (env w) -> browser w = Some b -> 1 <= MAX_NAV_RETRIES cfg ->
  phone data = Some ph -> ph <> "" -> pause_on_success cfg = false ->
  exists w', attempt_body cfg ua data w = (Ok true, w')
             /\ calm_frame w' = calm_frame w /\ notes w' = success_tag.
Proof.
  intros Hcalm Hb Hmax Hph Hne Hpause. rewrite attempt_body_unfold.
  destruct (new_context_first_try cfg ua w b Hb (Hcalm _)) as [c [w1 [E1 [F1 _]]]].
  rewrite (bind_ok _ _ _ _ _ E1).
  rewrite (bind_ok (modify (set_context (Some c))) _ w1 tt (set_context (Some c) w1) eq_refl).
  set (w2 := set_context (Some c) w1).
  assert (F2 : calm_frame w2 = calm_frame w) by exact F1.
  assert (Hc2 : never_throws (env w2)) by exact (calm_kept _ _ F2 Hcalm).
  destruct (calm_answer w2 Hc2) as [v E3].
  rewrite (bind_ok _ _ _ _ _ (ext_call_ok (OpNewPage c) w2 v E3)).
  set (w3 := set_trace _ _).
  rewrite (bind_ok fresh_handle _ w3 (next_handle w3)
             (set_next_handle (S (next_handle w3)) w3) eq_refl).
  set (w4 := set_next_handle _ w3).
  assert (F4 : calm_frame w4 = calm_frame w) by exact F2.
  assert (Hc4 : never_throws (env w4)) by exact (calm_kept _ _ F4 Hcalm).
  destruct (navigate_calm cfg (next_handle w3) w4 Hc4 Hmax) as [w5 [E5 [F5 _]]].
  rewrite (bind_ok _ _ _ _ _ E5). change (negb true) with false. cbv iota.
  assert (Hc5 : never_throws (env w5)) by exact (calm_kept _ _ F5 Hc4).
  rewrite after_navigation_unfold.
  destruct (fill_form_calm cfg (next_handle w3) data w5 Hc5) as [w6 [E6 [F6 _]]].
  rewrite (bind_ok _ _ _ _ _ E6). change (negb true) with false. cbv iota.
  assert (Hc6 : never_throws (env w6)) by exact (calm_kept _ _ F6 Hc5).
  destruct (submit_form_calm (next_handle w3) w6 Hc6) as [w7 [E7 [F7 _]]].
  rewrite (bind_ok _ _ _ _ _ E7). change (negb true) with false. cbv iota.
  assert (Hc7 : never_throws (env w7)) by exact (calm_kept _ _ F7 Hc6).
  rewrite after_submit_unfold.
  destruct (post_submit_calm cfg (next_handle w3) data ph w7 Hc7 Hph Hne)
    as [w8 [E8 [F8 Hn8]]].
  rewrite (bind_ok _ _ _ _ _ E8). rewrite Hpause.
  eexists. split; [reflexivity | ].
  split; [ | exact Hn8 ].
  unfold calm_frame in *. cbn [env browser set_trace]. congruence.
Qed.

Lemma attempt_finalizer_calm_frame cfg data :
  stable (keeping calm_frame) (attempt_finalizer cfg data).
Proof. unfold attempt_finalizer, output_writer_write_row, write_row. stab. Qed.

Lemma attempt_calm cfg ua data ph w b :
  never_throws (env w) -> browser w = Some b -> 1 <= MAX_NAV_RETRIES cfg ->
  phone data = Some ph -> ph <> "" -> pause_on_success cfg = false ->
  exists w',
    attempt cfg ua data w = (Ok true, w')
    /\ written (trace w') = outcome_record data success_tag :: written (trace w)
    /\ calm_frame w' = calm_frame w.
Proof.
  intros Hcalm Hb Hmax Hph Hne Hpause.
  destruct (attempt_body_calm cfg ua data ph w b Hcalm Hb Hmax Hph Hne Hpause)
    as [w1 [Eb [F1 Hn1]]].
  pose proof (kept_step batch_frame _ _ _ _ (attempt_body_kept cfg ua data) Eb) as Hk.
  unfold batch_frame in Hk. injection Hk as _ Hw1 _.
  destruct (attempt_finalizer_records cfg data w1) as [w2 [Ef [Hw2 _]]].
  pose proof (kept_step calm_frame _ _ _ _ (attempt_finalizer_calm_frame cfg data) Ef) as F2.
  exists w2. split; [ | split ].
  - rewrite attempt_unfold. apply finally_runs with (w1 := w1); [ | exact Ef ].
    apply try_except_ok. exact Eb.
  - rewrite Hw2, Hn1, Hw1. reflexivity.
  - congruence.
Qed.

Lemma generate_account_data_calm_frame countries phone_number :
  stable (keeping calm_frame) (generate_account_data countries phone_number).
Proof. stab. Qed.

Lemma run_single_account_calm cfg ua ph w b :
  never_throws (env w) -> browser w = Some b -> 1 <= MAX_NAV_RETRIES cfg ->
  COUNTRIES cfg <> [] -> ph <> "" -> pause_on_success cfg = false ->
  exists data w',
    run_single_account cfg ua (Some ph) w = (Ok true, w')
    /\ written (trace w') = outcome_record data success_tag :: written (trace w)
    /\ phone data = Some ph
    /\ calm_frame w' = calm_frame w.
Proof.
  intros Hcalm Hb Hmax Hc Hne Hpause. rewrite run_single_account_unfold.
  set (w0 := set_account_index (account_index w + 1) w).
  rewrite (bind_ok (modify (fun w => set_account_index (account_index w + 1) w)) _ w tt w0
             eq_refl).
  destruct (generate_account_data_outcome (COUNTRIES cfg) (Some ph) w0) as [Hgen _].
  destruct (Hgen Hc) as [data [w1 [Eg [Hph [_ [_ [_ [_ [Ht _]]]]]]]]].
  pose proof (kept_step calm_frame _ _ _ _
                (generate_account_data_calm_frame (COUNTRIES cfg) (Some ph)) Eg) as F1.
  rewrite (bind_ok _ _ _ _ _ Eg).
  rewrite (bind_ok (modify (set_notes "init")) _ w1 tt (set_notes "init" w1) eq_refl).
  rewrite (bind_ok (modify (set_context None)) _ (set_notes "init" w1) tt
             (set_context None (set_notes "init" w1)) eq_refl).
  set (w3 := set_context None (set_notes "init" w1)).
  rewrite (bind_ok (log INFO "%s Starting signup for %s (Phone: %s)") _ w3 tt
             (set_trace (ELog INFO "%s Starting signup for %s (Phone: %s)" :: trace w3) w3)
             eq_refl).
  set (w4 := set_trace _ w3).
  assert (F4 : calm_frame w4 = calm_frame w) by exact F1.
  assert (Hb4 : browser w4 = Some b).
  { unfold calm_frame in F4. injection F4 as _ Hbr. rewrite <- Hb. exact Hbr. }
  destruct (attempt_calm cfg ua data ph w4 b (calm_kept _ _ F4 Hcalm) Hb4 Hmax Hph Hne Hpause)
    as [w5 [E5 [Hw5 F5]]].
  exists data, w5. split; [exact E5 | ]. split; [ | split; [exact Hph | congruence] ].
  rewrite Hw5. subst w4 w3. cbn [trace set_trace set_context set_notes written].
  rewrite Ht. reflexivity.
Qed.

Lemma run_loop_calm cfg ua b queue : forall w,
  never_throws (env w) -> browser w = Some b -> 1 <= MAX_NAV_RETRIES cfg ->
  COUNTRIES cfg <> [] -> pause_on_success cfg = false ->
  Forall (fun ph => ph <> "") queue ->
  exists records w',
    run_loop cfg ua queue w = (Ok tt, w')
    /\ written (trace w') = records ++ written (trace w)
    /\ map phone_used (rev records) = map Some queue
    /\ Forall (fun d => lookup "notes" d = Some success_tag) records
    /\ calm_frame w' = calm_frame w.
Proof.
  induction queue as [|ph rest IH]; intros w Hcalm Hb Hmax Hc Hpause Hq.
  - exists [], w. simpl. repeat split; auto.
  - inversion Hq as [|? ? Hne Hrest]; subst.
    destruct (run_single_account_calm cfg ua ph w b Hcalm Hb Hmax Hc Hne Hpause)
      as [data [w1 [E1 [Hw1 [Hph F1]]]]].
    destruct (jitter_sleep_step (2 # 10) (6 # 10) w1) as [w2 [E2 _]].
    assert (F2 : calm_frame w2 = calm_frame w1).
    { eapply kept_step; [ | exact E2 ]. stab. }
    assert (Hw2 : written (trace w2) = written (trace w1)).
    { pose proof (written_jitter (2 # 10) (6 # 10) w1) as H. rewrite E2 in H. exact H. }
    assert (Hb2 : browser w2 = Some b).
    { unfold calm_frame in *. congruence. }
    destruct (IH w2 (calm_kept _ _ F2 (calm_kept _ _ F1 Hcalm)) Hb2 Hmax Hc Hpause Hrest)
      as [records [w' [E [Hw [Hmap [Hall F]]]]]].
    exists (records ++ [outcome_record data success_tag]), w'.
    split; [ | split; [ | split; [ | split ] ] ].
    + rewrite run_loop_cons, (bind_ok _ _ _ _ _ E1). change (negb true) with false.
      cbv iota. rewrite (bind_ok _ _ _ _ _ E2). exact E.
    + rewrite Hw, Hw2, Hw1, <- app_assoc. reflexivity.
    + rewrite rev_app_distr. simpl. rewrite Hmap, (phone_used_of_record _ _ _ Hph).
      reflexivity.
    + apply Forall_app. split; [exact Hall | ]. constructor; [reflexivity | constructor].
    + congruence.
Qed.

(** X26: a batch in which nothing raises. When no external call
    raises, a browser is held, at least one navigation attempt is
    allowed, the list of countries is not empty, the pause on success is
    off and the queue holds non-empty numbers, [run] returns normally
    after one attempt per number: the records written are those of the
    queue, in order, each with its number and the notes
    [send_code_clicked_waited_10s], and the browser held is the same. *)
Theorem calm_batch_succeeds cfg ua queue w b :
  never_throws (env w) -> browser w = Some b -> 1 <= MAX_NAV_RETRIES cfg ->
  COUNTRIES cfg <> [] -> pause_on_success cfg = false ->
  queue <> [] -> Forall (fun ph => ph <> "") queue ->
  exists records w',
    run cfg ua queue w = (Ok tt, w')
    /\ written (trace w') = records ++ written (trace w)
    /\ map phone_used (rev records) = map Some queue
    /\ Forall (fun d => lookup "notes" d = Some success_tag) records
    /\ browser w' = Some b.
Proof.
  intros Hcalm Hb Hmax Hc Hpause Hne Hq.
  destruct queue as [|ph rest]; [congruence | ].
  set (w0 := set_trace (ELog INFO "Starting batch job for %d phone numbers." :: trace w) w).
  destruct (run_loop_calm cfg ua b (ph :: rest) w0 Hcalm Hb Hmax Hc Hpause Hq)
    as [records [w' [E [Hw [Hmap [Hall F]]]]]].
  exists records, w'. split; [ | split; [exact Hw | split; [exact Hmap | split; [exact Hall | ]]] ].
  - rewrite run_cons.
    rewrite (bind_ok (log INFO "Starting batch job for %d phone numbers.") _ w tt w0 eq_refl).
    exact E.
  - unfold calm_frame in F. injection F as _ Hbr. rewrite Hbr. exact Hb.
Qed.

Lemma calm_batch_succeeds_witness :
  exists records w',
    run default_config "UA" ["+15551234567"; "+15557654321"] browser_ready = (Ok tt, w')
    /\ written (trace w') = records
    /\ map phone_used (rev records) = [Some "+15551234567"; Some "+15557654321"].
Proof.
  destruct (calm_batch_succeeds default_config "UA" ["+15551234567"; "+15557654321"]
              browser_ready 0)
    as [records [w' [E [Hw [Hmap _]]]]].
  - intros n. destruct n; reflexivity.
  - reflexivity.
  - simpl. lia.
  - discriminate.
  - reflexivity.
  - discriminate.
  - repeat constructor; discriminate.
  - exists records, w'. split; [exact E | ]. split; [ | exact Hmap ].
    rewrite Hw. apply app_nil_r.
Defined.

Open Scope list_scope.

(** ** The handler of an attempt on other exceptions *)

(** X27: exceptions that do not say the browser was closed. When the
    body of an attempt raises such an exception, the handler only logs
    it: nothing is shut down or launched and the browser held stays the
    same. The attempt returns True, so the batch goes on, and its record
    carries the notes of the failed stage when one was set, and
    [flow_exception:] followed by the type name of the exception when the
    notes were still the placeholder. *)
Theorem other_exceptions_recorded cfg ua data w e w1 :
  attempt_body cfg ua data w = (Raise e, w1) ->
  browser_closed e = false ->
  exists w',
    attempt cfg ua data w = (Ok true, w')
    /\ written (trace w') = outcome_record data (notes_after e (notes w1)) :: written (trace w)
    /\ launch_count (trace w') = launch_count (trace w1)
    /\ browser w' = browser w1
    /\ browser_closes (trace w') = browser_closes (trace w1).
Proof.
  intros Eb Hclosed.
  pose proof (kept_step batch_frame _ _ _ _ (attempt_body_kept cfg ua data) Eb) as Hk.
  unfold batch_frame in Hk. injection Hk as _ Hwb _.
  set (w2 := (if String.eqb (notes w1) "init"
              then set_notes ("flow_exception:" ++ exn_name e)%string else fun w => w)
               (set_trace (ELog ERROR "%s Unhandled exception in flow for %s: %s" :: trace w1)
                          w1)).
  assert (Eh : (attempt_handler cfg e ;; ret true) w1 = (Ok true, w2)).
  { unfold attempt_handler. rewrite Hclosed. unfold bind, log, emit, read, when, modify, ret.
    cbn [notes set_trace]. subst w2.
    destruct (String.eqb (notes w1) "init"); reflexivity. }
  assert (H2 : notes w2 = notes_after e (notes w1)
               /\ written (trace w2) = written (trace w1)
               /\ manager_state w2 = manager_state w1).
  { subst w2. unfold notes_after, manager_state.
    destruct (String.eqb (notes w1) "init"); repeat split; reflexivity. }
  destruct H2 as [Hn2 [Hw2 Hm2]].
  destruct (attempt_finalizer_records cfg data w2) as [w3 [Ef [Hw3 _]]].
  pose proof (kept_step manager_state _ _ _ _ (attempt_finalizer_manager cfg data) Ef) as Hm3.
  assert (Hcl : closed_browsers w3 = closed_browsers w2).
  { eapply kept_step; [ | exact Ef ].
    unfold attempt_finalizer, output_writer_write_row, write_row. stab. }
  exists w3. split; [ | split; [ | split; [ | split ] ] ].
  - rewrite attempt_unfold. apply finally_runs with (w1 := w2); [ | exact Ef ].
    rewrite (try_except_raise _ _ _ _ _ Eb). exact Eh.
  - rewrite Hw3, Hn2, Hw2, Hwb. reflexivity.
  - unfold manager_state in *. congruence.
  - unfold manager_state in *. congruence.
  - unfold closed_browsers in Hcl. rewrite Hcl. subst w2.
    destruct (String.eqb (notes w1) "init"); reflexivity.
Qed.

Lemma other_exceptions_recorded_witness :
  exists w',
    attempt default_config "UA" sample_account submit_blocked = (Ok true, w')
    /\ map (lookup "notes") (written (trace w')) = [Some "submit_failed"].
Proof.
  destruct (other_exceptions_recorded default_config "UA" sample_account submit_blocked
              (Exception "SubmitFailed")
              (snd (attempt_body default_config "UA" sample_account submit_blocked)))
    as [w' [E [Hw _]]].
  - vm_compute. reflexivity.
  - reflexivity.
  - exists w'. split; [exact E | ]. rewrite Hw. vm_compute. reflexivity.
Defined.

Open Scope list_scope.

(** ** The stage a record names *)

Lemma ends_with_append suffix s : ends_with suffix (s ++ suffix)%string = true.
Proof.
  induction s as [|c s IH]; simpl.
  - destruct suffix; simpl; [reflexivity | ]. rewrite Ascii.eqb_refl, String.eqb_refl.
    reflexivity.
  - rewrite IH. apply orb_true_r.
Qed.

Lemma first_not_create_button sel : String.eqb (first sel) create_button = false.
Proof.
  apply String.eqb_neq. intros H.
  pose proof (ends_with_append " >> nth=0" sel) as He.
  unfold first in H. rewrite H in He. discriminate He.
Qed.

Lemma popups_submit_state p : stable (keeping submit_state) (close_common_popups p).
Proof.
  unfold close_common_popups. apply stable_for_each; [typeclasses eauto | intros sel w].
  unfold keeping, submit_state, jitter_sleep, uniform, sleep.
  unfold try_except, bind, ext_call, emit, draw, ret.
  destruct (ext (env w) (ext_pos w)) as [v|e]; cbn [snd trace set_trace set_ext_pos
    set_rnd_pos create_clicks env ext ext_pos rnd rnd_pos]; [ | reflexivity ].
  destruct (0 <? as_int v); cbn [snd trace set_trace set_ext_pos set_rnd_pos create_clicks
    env ext ext_pos rnd rnd_pos]; [ | reflexivity ].
  destruct (ext (env w) (S (ext_pos w))); cbn [snd trace set_trace set_ext_pos set_rnd_pos
    create_clicks env ext ext_pos rnd rnd_pos]; rewrite first_not_create_button; reflexivity.
Qed.

Lemma fill_form_submit_state cfg p data : stable (keeping submit_state) (fill_form cfg p data).
Proof.
  unfold fill_form. apply stable_try_except; [typeclasses eauto | | intro; stab].
  apply stable_bind; [typeclasses eauto | apply popups_submit_state | intro ]. stab.
Qed.

Lemma new_context_form_touched cfg ua : stable (keeping form_touched) (new_context cfg ua).
Proof. stab. Qed.

Lemma navigate_form_touched cfg p : stable (keeping form_touched) (navigate cfg p).
Proof. stab. Qed.

Lemma after_submit_submit_state cfg p data :
  stable (keeping submit_state) (after_submit cfg p data).
Proof. stab. Qed.

Lemma submit_form_click p w b w1 :
  submit_form p w = (Ok b, w1) ->
  create_clicks (trace w1) = ext (env w) (ext_pos w) :: create_clicks (trace w)
  /\ is_throw (ext (env w) (ext_pos w)) = negb b.
Proof.
  unfold submit_form, try_except, bind, ext_call, log, emit, ret.
  destruct (ext (env w) (ext_pos w)) as [v|e]; intros H; inversion H; subst; clear H;
    cbn [trace set_trace set_ext_pos create_clicks];
    change (String.eqb create_button create_button) with true; split; reflexivity.
Qed.

Lemma post_submit_tag_not_stage n :
  post_submit_tag n ->
  n <> "init" /\ n <> "nav_failed" /\ n <> "form_fill_failed" /\ n <> "submit_failed".
Proof.
  intros [H | [[u H] | [t H]]].
  - simpl in H. decompose [or] H; subst; try contradiction; repeat split; discriminate.
  - subst. repeat split; discriminate.
  - subst. repeat split; discriminate.
Qed.

(** X28: the stage a record names is the stage that failed. For the
    body of an attempt started with the placeholder notes, however it
    ends: with [nav_failed], no field of the form was filled and the
    submit button was not clicked; with [form_fill_failed], a fill of a
    field raised and the submit button was not clicked; with
    [submit_failed], the submit button was clicked once and the click
    raised; with any post-submit tag, the button was clicked once and the
    click returned. *)
Theorem stage_tags_are_truthful cfg ua data w r w' :
  notes w = "init" ->
  attempt_body cfg ua data w = (r, w') ->
  (notes w' = "nav_failed" -> form_touched w' = form_touched w)
  /\ (notes w' = "form_fill_failed" ->
      create_clicks (trace w') = create_clicks (trace w)
      /\ exists sel text e rest, field_fills (trace w') = (sel, text, Throw e) :: rest)
  /\ (notes w' = "submit_failed" ->
      exists e, create_clicks (trace w') = Throw e :: create_clicks (trace w))
  /\ (post_submit_tag (notes w') ->
      exists v, create_clicks (trace w') = Ret v :: create_clicks (trace w)).
Proof.
  intros Hn E.
  assert (Hinit : notes w' = "init" ->
            (notes w' = "nav_failed" -> form_touched w' = form_touched w)
            /\ (notes w' = "form_fill_failed" ->
                create_clicks (trace w') = create_clicks (trace w)
                /\ exists sel text e rest, field_fills (trace w') = (sel, text, Throw e) :: rest)
            /\ (notes w' = "submit_failed" ->
                exists e, create_clicks (trace w') = Throw e :: create_clicks (trace w))
            /\ (post_submit_tag (notes w') ->
                exists v, create_clicks (trace w') = Ret v :: create_clicks (trace w))).
  { intros Hi. rewrite Hi. repeat split; try discriminate.
    intros Ht. destruct (post_submit_tag_not_stage _ Ht) as [Hx _]. congruence. }
  rewrite attempt_body_unfold in E. apply bind_inv in E.
  destruct E as [[c [w1 [E1 E]]] | [e [E1 Hr]]].
  2:{ apply Hinit. pose proof (notes_kept _ _ _ _ (new_context_notes cfg ua) E1). congruence. }
  pose proof (notes_kept _ _ _ _ (new_context_notes cfg ua) E1) as H1.
  pose proof (kept_step form_touched _ _ _ _ (new_context_form_touched cfg ua) E1) as T1.
  apply bind_inv in E. destruct E as [[a2 [w2 [E2 E]]] | [e [E2 _]]]; [ | discriminate E2 ].
  assert (H2 : notes w2 = notes w1) by (eapply notes_kept; [ | exact E2 ]; stab).
  assert (T2 : form_touched w2 = form_touched w1) by (inversion E2; subst; reflexivity).
  apply bind_inv in E. destruct E as [[a3 [w3 [E3 E]]] | [e [E3 Hr]]].
  2:{ apply Hinit.
      assert (H3 : notes w' = notes w2) by (eapply notes_kept; [ | exact E3 ]; stab).
      congruence. }
  assert (H3 : notes w3 = notes w2) by (eapply notes_kept; [ | exact E3 ]; stab).
  assert (T3 : form_touched w3 = form_touched w2)
    by (eapply kept_step; [ | exact E3 ]; stab).
  apply bind_inv in E. destruct E as [[p [w4 [E4 E]]] | [e [E4 _]]]; [ | discriminate E4 ].
  assert (H4 : notes w4 = notes w3) by (eapply notes_kept; [ | exact E4 ]; stab).
  assert (T4 : form_touched w4 = form_touched w3) by (inversion E4; subst; reflexivity).
  apply bind_inv in E.
  destruct E as [[loaded [w5 [E5 E]]] | [e [E5 _]]];
    [ | exact (False_ind _ (never_raises_not_raise _ _ _ _ (navigate_total _ _) E5)) ].
  pose proof (notes_kept _ _ _ _ (navigate_notes cfg p) E5) as H5.
  pose proof (kept_step form_touched _ _ _ _ (navigate_form_touched cfg p) E5) as T5.
  assert (T : form_touched w5 = form_touched w) by congruence.
  assert (N5 : notes w5 = "init") by congruence.
  destruct loaded; simpl negb in E; cbv iota in E.
  2:{ inversion E; subst; clear E. cbn [notes set_notes].
      split; [ intros _; exact T | ]. repeat split; try discriminate.
      intros Ht. destruct (post_submit_tag_not_stage _ Ht) as [_ [Hx _]]. congruence. }
  rewrite after_navigation_unfold in E. apply bind_inv in E.
  destruct E as [[filled [w6 [E6 E]]] | [e [E6 _]]];
    [ | exact (False_ind _ (never_raises_not_raise _ _ _ _ (fill_form_total _ _ _) E6)) ].
  pose proof (notes_kept _ _ _ _ (fill_form_notes cfg p data) E6) as H6.
  pose proof (kept_step submit_state _ _ _ _ (fill_form_submit_state cfg p data) E6) as S6.
  unfold submit_state in S6.
  assert (C5 : create_clicks (trace w5) = create_clicks (trace w)).
  { unfold form_touched in T. congruence. }
  destruct filled; simpl negb in E; cbv iota in E.
  2:{ destruct (fill_form_false _ _ _ _ _ E6) as [sel [text [e [rest Hf]]]].
      inversion E; subst; clear E. cbn [notes set_notes trace].
      split; [discriminate | ]. split; [ | split; [discriminate | ] ].
      - intros _. split; [congruence | ]. exists sel, text, e, rest. exact Hf.
      - intros Ht. destruct (post_submit_tag_not_stage _ Ht) as [_ [_ [Hx _]]]. congruence. }
  apply bind_inv in E.
  destruct E as [[submitted [w7 [E7 E]]] | [e [E7 _]]];
    [ | exact (False_ind _ (never_raises_not_raise _ _ _ _ (submit_form_total _) E7)) ].
  pose proof (notes_kept _ _ _ _ (submit_form_notes p) E7) as H7.
  destruct (submit_form_click _ _ _ _ E7) as [S7 A7].
  destruct submitted; simpl negb in E, A7; cbv iota in E.
  2:{ inversion E; subst; clear E. cbn [notes set_notes trace].
      split; [discriminate | ]. split; [discriminate | ]. split.
      - intros _. destruct (ext (env w6) (ext_pos w6)) as [v|e]; [discriminate A7 | ].
        exists e. congruence.
      - intros Ht. destruct (post_submit_tag_not_stage _ Ht) as [_ [_ [_ Hx]]]. congruence. }
  pose proof (kept_step submit_state _ _ _ _ (after_submit_submit_state cfg p data) E) as S8.
  unfold submit_state in S8.
  pose proof (after_submit_notes cfg p data w7 r w' ltac:(congruence) E) as Ha.
  assert (Hclick : exists v, create_clicks (trace w') = Ret v :: create_clicks (trace w)).
  { destruct (ext (env w6) (ext_pos w6)) as [v|e]; [ | discriminate A7 ].
    exists v. congruence. }
  assert (Hcases : notes w' = "init" \/ post_submit_tag (notes w')).
  { destruct r; [right; exact Ha | ]. destruct Ha as [Ha | [Ha _]]; auto. }
  destruct Hcases as [Hi | Ht]; [exact (Hinit Hi) | ].
  destruct (post_submit_tag_not_stage _ Ht) as [_ [X1 [X2 X3]]].
  split; [ intros; congruence | ]. split; [ intros; congruence | ].
  split; [ intros; congruence | intros _; exact Hclick ].
Qed.

Lemma stage_tags_are_truthful_witness :
  exists e,
    create_clicks (trace (snd (attempt_body default_config "UA" sample_account submit_blocked)))
    = Throw e :: create_clicks (trace submit_blocked).
Proof.
  destruct (stage_tags_are_truthful default_config "UA" sample_account submit_blocked
              (fst (attempt_body default_config "UA" sample_account submit_blocked))
              (snd (attempt_body default_config "UA" sample_account submit_blocked))
              eq_refl (surjective_pairing _))
    as [_ [_ [H _]]].
  apply H. vm_compute. reflexivity.
Defined.

Open Scope list_scope.

(** ** SignUpPage.select_country *)

Lemma typing_scripts_run cfg p c :
  stable (keeping scripts_run) (_select_country_by_typing cfg p c).
Proof. stab. Qed.

Lemma js_strategy_outcome p c w :
  exists r w',
    _select_country_by_js p c w = (Ok r, w')
    /\ ((r = true /\ exists v, scripts_run w' = (ScriptSelectCountry c, Ret v) :: scripts_run w
                               /\ truthy v = true)
        \/ (r = false
            /\ (scripts_run w' = scripts_run w
                \/ exists a, scripts_run w' = (ScriptSelectCountry c, a) :: scripts_run w
                             /\ match a with Ret v => truthy v = false | Throw _ => True end))).
Proof.
  destruct w as [[ex rn st] xp rp sp t b nh ai f n c0].
  unfold _select_country_by_js, scripts_run.
  unfold jitter_sleep, uniform, sleep.
  unfold try_except, bind, ext_call, emit, draw, ret.
  cbn [env ext ext_pos rnd rnd_pos trace set_trace set_ext_pos set_rnd_pos].
  destruct (ex xp) as [v1|e1].
  - cbn [env ext ext_pos rnd rnd_pos trace set_trace set_ext_pos set_rnd_pos].
    destruct (ex (S xp)) as [v2|e2].
    + cbn [env ext ext_pos rnd rnd_pos trace set_trace set_ext_pos set_rnd_pos].
      destruct (truthy v2) eqn:Ht.
      * eexists _, _. split; [reflexivity | ]. left. split; [reflexivity | ].
        exists v2. split; [reflexivity | exact Ht].
      * eexists _, _. split; [reflexivity | ]. right. split; [reflexivity | ].
        right. exists (Ret v2). split; [reflexivity | exact Ht].
    + eexists _, _. split; [reflexivity | ]. right. split; [reflexivity | ].
      right. exists (Throw e2). split; [reflexivity | exact I].
  - eexists _, _. split; [reflexivity | ]. right. split; [reflexivity | ]. left. reflexivity.
Qed.

(** X29: the two strategies of [select_country]. It never raises.
    When none of the actions of the typing strategy raises, it returns
    True and no script is evaluated: the fallback is not tried. When one
    raises, the fallback is tried once, and [select_country] returns True
    exactly when the fallback's script was evaluated and returned a true
    value; it returns False when the click before the script raised, when
    the script raised, and when it returned a false value. *)
Theorem select_country_fallback cfg p c w :
  exists r w',
    select_country cfg p c w = (Ok r, w')
    /\ match first_failure (env w) (ext_pos w)
                           (2 + (List.length (list_ascii_of_string c) + 2)) with
       | None => r = true /\ scripts_run w' = scripts_run w
       | Some _ =>
           (r = true /\ exists v, scripts_run w' = (ScriptSelectCountry c, Ret v) :: scripts_run w
                                  /\ truthy v = true)
           \/ (r = false
               /\ (scripts_run w' = scripts_run w
                   \/ exists a, scripts_run w' = (ScriptSelectCountry c, a) :: scripts_run w
                                /\ match a with
                                   | Ret v => truthy v = false
                                   | Throw _ => True
                                   end))
       end.
Proof.
  set (w0 := set_trace (ELog DEBUG "Selecting country: %s" :: trace w) w).
  destruct (typing_strategy_outcome cfg p c w0) as [w1 [E1 _]].
  pose proof (kept_step scripts_run _ _ _ _ (typing_scripts_run cfg p c) E1) as S1.
  change (env w0) with (env w) in E1. change (ext_pos w0) with (ext_pos w) in E1.
  unfold select_country.
  rewrite (bind_ok (log DEBUG "Selecting country: %s") _ w tt w0 eq_refl).
  rewrite (bind_ok _ _ _ _ _ E1).
  destruct (first_failure (env w) (ext_pos w)
                          (2 + (List.length (list_ascii_of_string c) + 2))) as [e|].
  - destruct (js_strategy_outcome p c w1) as [r [w2 [E2 H2]]].
    cbv iota. rewrite (bind_ok _ _ _ _ _ E2).
    destruct r.
    + eexists _, _. split; [reflexivity | ].
      destruct H2 as [[_ [v [Hs Ht]]] | [Hf _]]; [ | discriminate Hf ].
      left. split; [reflexivity | ]. exists v. split; [ | exact Ht ].
      unfold scripts_run in *. cbn [trace set_trace evaluated]. rewrite Hs, S1. reflexivity.
    + eexists _, _. split; [reflexivity | ].
      destruct H2 as [[Hf _] | [_ H2]]; [discriminate Hf | ].
      right. split; [reflexivity | ].
      unfold scripts_run in *. cbn [trace set_trace evaluated].
      destruct H2 as [Hs | [a [Hs Ha]]].
      * left. rewrite Hs, S1. reflexivity.
      * right. exists a. split; [ rewrite Hs, S1; reflexivity | exact Ha ].
  - cbv iota. eexists _, _. split; [reflexivity | ]. split; [reflexivity | ].
    unfold scripts_run in *. cbn [trace set_trace evaluated]. rewrite S1. reflexivity.
Qed.

Open Scope list_scope.

(** ** The uppercase letter of a password *)

Lemma existsb_insert {A} (f : A -> bool) (n : nat) (l mid : list A) :
  existsb f (firstn n l ++ mid ++ skipn n l) = existsb f l || existsb f mid.
Proof.
  rewrite <- (firstn_skipn n l) at 3. rewrite !existsb_app.
  destruct (existsb f (firstn n l)), (existsb f mid), (existsb f (skipn n l)); reflexivity.
Qed.

Lemma specials_not_upper sp :
  Forall (fun c => In c specials) sp -> existsb is_upper sp = false.
Proof.
  intros H. induction H as [|c sp Hc _ IH]; [reflexivity | ].
  simpl. rewrite IH, orb_false_r.
  assert (Hall : forallb (fun c => negb (is_upper c)) specials = true) by reflexivity.
  rewrite forallb_forall in Hall. apply negb_true_iff. apply Hall. exact Hc.
Qed.

Lemma fix_digit_upper base w base' w' :
  fix_digit base w = (Ok base', w') -> existsb is_upper base' = existsb is_upper base.
Proof.
  unfold fix_digit. destruct (existsb is_digit base).
  - intros E. inversion E; subst. reflexivity.
  - unfold randint, bind, draw, ret. intros E.
    assert (Hb : base' = base ++ list_ascii_of_string
                                   (str_of_N (randint_of 1 9 (rnd (env w) (rnd_pos w)))))
      by congruence.
    destruct (digit_of_randint (rnd (env w) (rnd_pos w))) as [c [Hc Hd]].
    rewrite Hb, Hc, existsb_app. simpl.
    assert (Hu : is_upper c = false).
    { destruct c as [[] [] [] [] [] [] [] []]; try discriminate Hd; reflexivity. }
    rewrite Hu. rewrite !orb_false_r. reflexivity.
Qed.

Lemma fix_lower_upper base :
  existsb is_upper (fix_upper base) = true ->
  existsb is_upper (fix_lower (fix_upper base)) = keeps_upper base.
Proof.
  intros Hu. unfold keeps_upper, fix_lower.
  destruct (existsb is_lower (fix_upper base)); [exact Hu | ].
  rewrite existsb_app. simpl. rewrite !orb_false_r. reflexivity.
Qed.

Lemma fix_upper_has_upper base : existsb is_upper (fix_upper base) = true.
Proof.
  unfold fix_upper. destruct (existsb is_upper base) eqn:E; [exact E | reflexivity].
Qed.

(** X30: when a password has an uppercase letter. The password that
    [_generate_strong_password] returns has an uppercase letter exactly
    when the base it drew, after the first fix-up, has a lowercase
    letter or an uppercase letter before its last character: the 'S'
    fix-up always provides one, and only the replacement of the last
    character by 'a' can take it away. In particular a base with a
    lowercase letter always gives a password with an uppercase one. *)
Theorem password_uppercase_condition w :
  exists base pw w',
    drawn_base w = Ok base
    /\ _generate_strong_password w = (Ok pw, w')
    /\ existsb is_upper pw = keeps_upper base
    /\ (existsb is_lower (fix_upper base) = true -> existsb is_upper pw = true).
Proof.
  unfold drawn_base, _generate_strong_password.
  set (w1 := set_rnd_pos (S (rnd_pos w)) w).
  set (base_len := randint_of 8 11 (rnd (env w) (rnd_pos w))).
  pose proof (randint_of_bounds 8 11 (rnd (env w) (rnd_pos w)) ltac:(lia)) as Hbl.
  fold base_len in Hbl.
  destruct (choices_spec base_alphabet (N.to_nat base_len) w1 ltac:(discriminate))
    as [base [w2 [E2 [Hb _]]]].
  rewrite E2. simpl fst.
  destruct (fix_digit_spec (fix_lower (fix_upper base)) w2) as [b3 [w3 [E3 [Hl3 _]]]].
  pose proof (fix_digit_upper _ _ _ _ E3) as Hu3.
  pose proof (randint_of_bounds 3 6 (rnd (env w3) (rnd_pos w3)) ltac:(lia)) as Hns.
  set (num_specials := randint_of 3 6 (rnd (env w3) (rnd_pos w3))) in *.
  destruct (choices_spec specials (N.to_nat num_specials)
              (set_rnd_pos (S (rnd_pos w3)) w3) ltac:(discriminate))
    as [sp [w4 [E4 [Hsp Hall]]]].
  set (pos := N.to_nat (randint_of 1 (N.max 1 (N.of_nat (List.length b3) - 1))
                                   (rnd (env w4) (rnd_pos w4)))).
  assert (Epw : (base_len <- randint 8 11 ;;
                 base <- choices base_alphabet (N.to_nat base_len) ;;
                 base <- fix_digit (fix_lower (fix_upper base)) ;;
                 num_specials <- randint 3 6 ;;
                 specials_part <- choices specials (N.to_nat num_specials) ;;
                 insert_pos <- randint 1 (N.max 1 (N.of_nat (List.length base) - 1)) ;;
                 ret (firstn 18 (firstn (N.to_nat insert_pos) base ++ specials_part
                                   ++ skipn (N.to_nat insert_pos) base))) w
                = (Ok (firstn 18 (firstn pos b3 ++ sp ++ skipn pos b3)),
                   set_rnd_pos (S (rnd_pos w4)) w4)).
  { unfold randint at 1. unfold bind at 1 2, draw, ret; cbv beta iota.
    fold w1. fold base_len.
    rewrite (bind_ok _ _ _ _ _ E2). rewrite (bind_ok _ _ _ _ _ E3).
    unfold randint at 1. unfold bind at 1 2, draw, ret; cbv beta iota.
    fold num_specials.
    rewrite (bind_ok _ _ _ _ _ E4). reflexivity. }
  assert (Hb1 : 1 <= List.length base) by lia.
  pose proof (fix_upper_length base Hb1) as Hfu.
  destruct (fix_lower_spec (fix_upper base) ltac:(lia)) as [Hfl _].
  assert (Hfull : firstn 18 (firstn pos b3 ++ sp ++ skipn pos b3)
                  = firstn pos b3 ++ sp ++ skipn pos b3).
  { apply firstn_all2. rewrite !length_app.
    pose proof (f_equal (@List.length ascii) (firstn_skipn pos b3)) as Hfs.
    rewrite length_app in Hfs. lia. }
  exists base, (firstn 18 (firstn pos b3 ++ sp ++ skipn pos b3)),
    (set_rnd_pos (S (rnd_pos w4)) w4).
  split; [reflexivity | ]. split; [exact Epw | ].
  assert (Hup : existsb is_upper (firstn 18 (firstn pos b3 ++ sp ++ skipn pos b3))
                = keeps_upper base).
  { rewrite Hfull, existsb_insert, (specials_not_upper _ Hall), orb_false_r, Hu3.
    apply fix_lower_upper, fix_upper_has_upper. }
  split; [exact Hup | ].
  intros Hl. rewrite Hup. unfold keeps_upper. rewrite Hl. reflexivity.
Qed.
